(** * Homebox analytics: the report engine [analyze_homebox_rows]

    A shallow embedding of [src/src/utils.py] and [src/src/analysis.py],
    and of the code around them: [extract_date] of [src/src/api.py],
    [run_detailed_analysis] and [analyze_data] of [src/app.py], and the
    selection of the month sales in the legacy script
    [src/detailedanalysis/analyze_homebox_v3.py].

    Modelling conventions.
    - A Python [str] is a [string] of bytes. [str.lower] is modelled on the
      ASCII letters (bytes 65..90); every other byte is left as it is, and
      the [\d] of [strptime] is modelled on the ASCII digits.
    - A row is a Python [dict]: a [gmap string pyval].  Rows live in a heap
      of objects and the list handed to the engine is a list of references,
      because the engine writes into the rows it is given.
    - A Python [float] is a primitive binary64 [float]; the builtins
      [float(str)] and [sum] over floats are parameters of the development.
    - Exceptions are an explicit result type. *)

From Stdlib Require Import ZArith Lia Floats Ascii String DecimalString.
From Stdlib Require Import Sorted.
From stdpp Require Import gmap strings list fin_maps.

Local Open Scope string_scope.
Local Open Scope Z_scope.

(* ===================================================================== *)
(** ** Python strings *)
(* ===================================================================== *)

Module PyStr.

(** [c.lower()] on one ASCII byte. *)
Definition lower_ascii (c : ascii) : ascii :=
  let n := nat_of_ascii c in
  if (Nat.leb 65 n && Nat.leb n 90)%bool then ascii_of_nat (n + 32) else c.

(** [s.lower()] *)
Fixpoint lower (s : string) : string :=
  match s with
  | EmptyString => EmptyString
  | String c s' => String (lower_ascii c) (lower s')
  end.

(** [s.startswith(p)] *)
Fixpoint startswith (p s : string) : bool :=
  match p with
  | EmptyString => true
  | String a p' =>
      match s with
      | EmptyString => false
      | String b s' => (Ascii.eqb a b && startswith p' s')%bool
      end
  end.

(** [needle in hay] *)
Fixpoint contains (needle hay : string) : bool :=
  (startswith needle hay ||
   match hay with
   | EmptyString => false
   | String _ hay' => contains needle hay'
   end)%bool.

(** [any(x in hay for x in needles)] *)
Definition contains_any (needles : list string) (hay : string) : bool :=
  existsb (fun x => contains x hay) needles.

(** [s.split(sep)[0]] for a one-character separator: the text before the
    first occurrence of [sep], or all of [s] when there is none. *)
Fixpoint split_head (sep : ascii) (s : string) : string :=
  match s with
  | EmptyString => EmptyString
  | String c s' =>
      if Ascii.eqb c sep then EmptyString else String c (split_head sep s')
  end.

(** [str(z)] for a Python [int]. *)
Definition of_int (z : Z) : string := NilZero.string_of_int (Z.to_int z).

End PyStr.

(* ===================================================================== *)
(** ** Dates: [datetime.date], [datetime.datetime], ordinals *)
(* ===================================================================== *)

Record date := Date { year : Z; month : Z; day : Z }.

(** A naive [datetime]: a date and the time of day in microseconds. *)
Record datetime := DateTime { dt_date : date; dt_micros : Z }.

Module PyDate.

Definition is_leap (y : Z) : bool :=
  ((y mod 4 =? 0) && (negb (y mod 100 =? 0) || (y mod 400 =? 0)))%bool.

Definition days_in_month (y m : Z) : Z :=
  match m with
  | 1 => 31 | 2 => if is_leap y then 29 else 28 | 3 => 31 | 4 => 30
  | 5 => 31 | 6 => 30 | 7 => 31 | 8 => 31 | 9 => 30 | 10 => 31
  | 11 => 30 | 12 => 31
  | _ => 0
  end.

(** [_days_before_year] *)
Definition days_before_year (y : Z) : Z :=
  let y1 := y - 1 in y1 * 365 + y1 / 4 - y1 / 100 + y1 / 400.

(** [_days_before_month] *)
Definition days_before_month (y m : Z) : Z :=
  match m with
  | 1 => 0 | 2 => 31 | 3 => 59 | 4 => 90 | 5 => 120 | 6 => 151
  | 7 => 181 | 8 => 212 | 9 => 243 | 10 => 273 | 11 => 304 | 12 => 334
  | _ => 0
  end + (if ((2 <? m) && is_leap y)%bool then 1 else 0).

(** [date.toordinal()] *)
Definition toordinal (d : date) : Z :=
  days_before_year (year d) + days_before_month (year d) (month d) + day d.

(** The dates the [date] constructor accepts. *)
Definition valid (d : date) : bool :=
  ((1 <=? year d) && (year d <=? 9999) &&
   (1 <=? month d) && (month d <=? 12) &&
   (1 <=? day d) && (day d <=? days_in_month (year d) (month d)))%bool.

(** [a <= b] on dates: the comparison of the (year, month, day) triples. *)
Definition leb (a b : date) : bool :=
  ((year a <? year b) ||
   ((year a =? year b) &&
    ((month a <? month b) ||
     ((month a =? month b) && (day a <=? day b)))))%bool.

(** [a < b] on dates. *)
Definition ltb (a b : date) : bool := negb (leb b a).

Definition days_in_year (y : Z) : Z := if is_leap y then 366 else 365.

Definition micros_per_day : Z := 86400 * 1000000.

(** Microseconds since the start of day 0. *)
Definition total_micros (t : datetime) : Z :=
  toordinal (dt_date t) * micros_per_day + dt_micros t.

(** [(a - b).days]: a [timedelta] is normalised so that its seconds and
    microseconds are non-negative, hence [days] is the floor. *)
Definition sub_days (a b : datetime) : Z :=
  (total_micros a - total_micros b) / micros_per_day.

(** The time of day of a well-formed [datetime]. *)
Definition valid_time (t : datetime) : Prop :=
  0 <= dt_micros t < micros_per_day.

Definition midnight (d : date) : datetime := DateTime d 0.

End PyDate.

(* ===================================================================== *)
(** ** [datetime.strptime(s, '%Y-%m-%d')] *)
(* ===================================================================== *)

Module Strptime.

Definition digit (c : ascii) : option Z :=
  let n := nat_of_ascii c in
  if (Nat.leb 48 n && Nat.leb n 57)%bool then Some (Z.of_nat n - 48) else None.

Definition in_range (lo hi : Z) (c : ascii) : option Z :=
  match digit c with
  | Some v => if ((lo <=? v) && (v <=? hi))%bool then Some v else None
  | None => None
  end.

(** [(?P<Y>\d\d\d\d)] *)
Definition match_Y (s : string) : option (Z * string) :=
  match s with
  | String a (String b (String c (String d rest))) =>
      match digit a, digit b, digit c, digit d with
      | Some a, Some b, Some c, Some d =>
          Some (a * 1000 + b * 100 + c * 10 + d, rest)
      | _, _, _, _ => None
      end
  | _ => None
  end.

(** The alternatives of [(?P<m>1[0-2]|0[1-9]|[1-9])], in order. *)
Definition alts_m (s : string) : list (Z * string) :=
  match s with
  | String a rest =>
      (match rest with
       | String b rest' =>
           (if Ascii.eqb a "1" then
              match in_range 0 2 b with
              | Some v => [(10 + v, rest')] | None => [] end
            else []) ++
           (if Ascii.eqb a "0" then
              match in_range 1 9 b with
              | Some v => [(v, rest')] | None => [] end
            else [])
       | EmptyString => []
       end) ++
      match in_range 1 9 a with Some v => [(v, rest)] | None => [] end
  | EmptyString => []
  end.

(** The alternatives of [(?P<d>3[0-1]|[1-2]\d|0[1-9]|[1-9]| [1-9])]. *)
Definition alts_d (s : string) : list (Z * string) :=
  match s with
  | String a rest =>
      (match rest with
       | String b rest' =>
           (if Ascii.eqb a "3" then
              match in_range 0 1 b with
              | Some v => [(30 + v, rest')] | None => [] end
            else []) ++
           (match in_range 1 2 a, digit b with
            | Some u, Some v => [(u * 10 + v, rest')]
            | _, _ => []
            end) ++
           (if Ascii.eqb a "0" then
              match in_range 1 9 b with
              | Some v => [(v, rest')] | None => [] end
            else [])
       | EmptyString => []
       end) ++
      (match in_range 1 9 a with Some v => [(v, rest)] | None => [] end) ++
      (match rest with
       | String b rest' =>
           if Ascii.eqb a " " then
             match in_range 1 9 b with
             | Some v => [(v, rest')] | None => [] end
           else []
       | EmptyString => []
       end)
  | EmptyString => []
  end.

Definition expect (c : ascii) (s : string) : option string :=
  match s with
  | String a rest => if Ascii.eqb a c then Some rest else None
  | EmptyString => None
  end.

(** [re.match] of the compiled format: the first way, in the order of the
    alternatives, to match the whole pattern at the start of [s]; the
    result carries the unmatched remainder. *)
Definition regex_match (s : string) : option (Z * Z * Z * string) :=
  match match_Y s with
  | None => None
  | Some (y, s1) =>
      match expect "-" s1 with
      | None => None
      | Some s2 =>
          head (omap (fun '(m, s3) =>
                   match expect "-" s3 with
                   | None => None
                   | Some s4 =>
                       match alts_d s4 with
                       | (d, s5) :: _ => Some (y, m, d, s5)
                       | [] => None
                       end
                   end) (alts_m s2))
      end
  end.

(** [None] stands for the [ValueError] of [strptime]: no match,
    unconverted data, or a date that does not exist. *)
Definition strptime (s : string) : option datetime :=
  match regex_match s with
  | Some (y, m, d, EmptyString) =>
      if PyDate.valid (Date y m d) then Some (PyDate.midnight (Date y m d))
      else None
  | _ => None
  end.

End Strptime.

(* ===================================================================== *)
(** ** Python values, numbers and exceptions *)
(* ===================================================================== *)

(** The values a row can hold: [None], a [str], or an [int] (the engine
    itself stores the [int] annotation [days_held]). *)
Inductive pyval := PyNone | PyStr (s : string) | PyInt (z : Z).

#[global] Instance pyval_eq_dec : EqDecision pyval.
Proof. solve_decision. Defined.

(** A Python number: [int] or [float]. *)
Inductive pynum := PInt (z : Z) | PFloat (f : float).

Inductive exn := AttributeError.

Inductive result (A : Type) := Ok (a : A) | Raise (e : exn).
Arguments Ok {A} a.
Arguments Raise {A} e.

(** Whether a call returned rather than raised. *)
Definition returns {A} (c : result A) : bool :=
  match c with Ok _ => true | Raise _ => false end.

Definition bind {A B} (c : result A) (k : A -> result B) : result B :=
  match c with Ok a => k a | Raise e => Raise e end.

Notation "'let*' x ':=' c 'in' k" := (bind c (fun x => k))
  (at level 10, x name, c at level 100, k at level 200).

Module Py.

(** [bool(v)] *)
Definition truthy (v : pyval) : bool :=
  match v with
  | PyNone => false
  | PyStr s => negb (String.eqb s "")
  | PyInt z => negb (z =? 0)
  end.

(** [str(v)] *)
Definition str (v : pyval) : string :=
  match v with
  | PyNone => "None"
  | PyStr s => s
  | PyInt z => PyStr.of_int z
  end.

(** [v.lower()]: only a [str] has the method. *)
Definition lower (v : pyval) : result string :=
  match v with
  | PyStr s => Ok (PyStr.lower s)
  | _ => Raise AttributeError
  end.

(** [v == 'true'] *)
Definition is_true_str (v : pyval) : bool :=
  match v with
  | PyStr s => String.eqb s "true"
  | _ => false
  end.

(** [float(z)] for an [int]: rounding to nearest, ties to even. *)
Definition float_of_Z (z : Z) : float :=
  SF2Prim (SpecFloat.binary_normalize prec emax z 0 false).

Definition to_float (n : pynum) : float :=
  match n with PInt z => float_of_Z z | PFloat f => f end.

(** [a + b] *)
Definition add (a b : pynum) : pynum :=
  match a, b with
  | PInt x, PInt y => PInt (x + y)
  | _, _ => PFloat (PrimFloat.add (to_float a) (to_float b))
  end.

(** [a - b] *)
Definition sub (a b : pynum) : pynum :=
  match a, b with
  | PInt x, PInt y => PInt (x - y)
  | _, _ => PFloat (PrimFloat.sub (to_float a) (to_float b))
  end.

(** [a / b] with [b] non-zero (every division of the engine is guarded):
    true division always gives a [float].  For two [int]s CPython rounds
    the exact quotient once; dividing the converted operands is the same
    whenever both are below 2^53 in magnitude. *)
Definition truediv (a b : pynum) : pynum :=
  PFloat (PrimFloat.div (to_float a) (to_float b)).

(** [sum(l)] for a list of [int]s. *)
Definition sum_int (l : list Z) : Z := fold_left Z.add l 0.

(** [min(l)], [max(l)] for a non-empty list of [int]s. *)
Definition min_int (x : Z) (l : list Z) : Z := fold_left Z.min l x.
Definition max_int (x : Z) (l : list Z) : Z := fold_left Z.max l x.

(** [len(l)] *)
Definition len {A} (l : list A) : Z := Z.of_nat (length l).

End Py.

(** A row is a dict from field names to values. *)
Abbreviation row := (gmap string pyval).

(** The heap of row objects; a reference is a [nat]. *)
Abbreviation heap := (gmap nat (gmap string pyval)).

(** [r.get(k)] and [r.get(k, d)] *)
Definition dict_get (r : row) (k : string) : pyval := default PyNone (r !! k).
Definition dict_get_or (r : row) (k : string) (d : pyval) : pyval :=
  default d (r !! k).

(** The object a reference points to.  Every reference of a Python list is
    live; a reference outside the heap reads as an empty dict. *)
Definition deref (h : heap) (l : nat) : row := default ∅ (h !! l).

(** [r[k] = v] on the object behind [l]. *)
Definition setitem (h : heap) (l : nat) (k : string) (v : pyval) : heap :=
  <[l := <[k := v]> (deref h l)]> h.

(* ===================================================================== *)
(** ** [src/src/utils.py] *)
(* ===================================================================== *)

(** [parse_date]: [None] for a falsy value, the 0001 sentinel, or anything
    [strptime] rejects. *)
Definition parse_date (v : pyval) : option datetime :=
  if (negb (Py.truthy v) || PyStr.startswith "0001" (Py.str v))%bool then None
  else Strptime.strptime (PyStr.split_head "T" (Py.str v)).

(** [location_contains] *)
Definition location_contains (location : pyval) (text : string) : bool :=
  PyStr.contains (PyStr.lower text) (PyStr.lower (Py.str location)).

(* ===================================================================== *)
(** ** [src/src/analysis.py]: [analyze_homebox_rows] *)
(* ===================================================================== *)

(** The values of the report dict. *)
Inductive rval :=
| RNum (n : pynum)
| RDateTime (t : datetime)
| RRows (l : list nat)
| RGroups (g : list (pyval * (Z * pynum))).

(** A dict display [{k1: v1, k2: v2, ...}]: the items are stored from left
    to right, so a key written twice keeps its last value. *)
Definition dict_display (items : list (string * rval)) : gmap string rval :=
  fold_left (fun m kv => <[kv.1 := kv.2]> m) items ∅.

(** What the first loop does with one row. *)
Inductive sale_kind := NoSale | ServiceSale | ProductSale | LossSkipped.

Section Engine.

(** The builtin [float(s)] on a [str]; [None] is its [ValueError]. *)
Variable float_of_str : string -> option float.

(** The builtin [sum] on a non-empty sequence of [float]s, started from
    the [int] 0 (plain left-to-right addition before CPython 3.12,
    compensated summation since). *)
Variable float_sum : list float -> float.

(** [parse_float]: every exception of [float(value)] is swallowed. *)
Definition parse_float (v : pyval) : float :=
  if Py.truthy v then
    match v with
    | PyStr s => match float_of_str s with Some f => f | None => 0%float end
    | PyInt z =>
        let f := Py.float_of_Z z in
        if PrimFloat.is_infinity f then 0%float (* OverflowError *) else f
    | PyNone => 0%float
    end
  else 0%float.

(** [sum(parse_float(..) for ..)] *)
Definition py_sum (l : list float) : pynum :=
  match l with
  | [] => PInt 0
  | _ :: _ => PFloat (float_sum l)
  end.

Definition sold_price (r : row) : float :=
  parse_float (dict_get_or r "HB.sold_price" (PyInt 0)).

Definition purchase_price (r : row) : float :=
  parse_float (dict_get_or r "HB.purchase_price" (PyInt 0)).

Definition is_archived (r : row) : bool :=
  Py.is_true_str (dict_get r "HB.archived").

Definition is_insured (r : row) : bool :=
  Py.is_true_str (dict_get r "HB.insured").

(** [str(r.get('HB.location', '')).lower()] *)
Definition location_lower (r : row) : string :=
  PyStr.lower (Py.str (dict_get_or r "HB.location" (PyStr ""))).

Section Range.

Variables start_date end_date : datetime.

(** The local helper [is_in_range]. *)
Definition is_in_range (d : option datetime) : bool :=
  match d with
  | None => false
  | Some d =>
      (PyDate.leb (dt_date start_date) (dt_date d) &&
       PyDate.leb (dt_date d) (dt_date end_date))%bool
  end.

(** [d and is_in_range(d)] *)
Definition dated_in_range (d : option datetime) : bool :=
  (bool_decide (is_Some d) && is_in_range d)%bool.

Definition sold_in_range (r : row) : bool :=
  dated_in_range (parse_date (dict_get r "HB.sold_time")).

Definition purchased_in_range (r : row) : bool :=
  dated_in_range (parse_date (dict_get r "HB.purchase_time")).

(** The expression bound to [is_service]. *)
Definition is_service (labels location : string) : bool :=
  (PyStr.contains "service" labels ||
   PyStr.contains "labor" labels ||
   PyStr.contains "other income" labels ||
   PyStr.contains "service" location ||
   PyStr.contains "other income" location)%bool.

(** The body of the first loop. *)
Definition classify (r : row) : result sale_kind :=
  if sold_in_range r then
    let* labels := Py.lower (dict_get_or r "HB.labels" (PyStr "")) in
    let* location := Py.lower (dict_get_or r "HB.location" (PyStr "")) in
    Ok (if is_service labels location then ServiceSale
        else if negb (PyStr.contains "loss" location) then ProductSale
        else LossSkipped)
  else Ok NoSale.

(** The first loop: [(month_sales_products, month_sales_services)]. *)
Fixpoint sales_loop (h : heap) (rows : list nat)
  : result (list nat * list nat) :=
  match rows with
  | [] => Ok ([], [])
  | l :: ls =>
      let* k := classify (deref h l) in
      let* rest := sales_loop h ls in
      Ok (match k with
          | ProductSale => (l :: rest.1, rest.2)
          | ServiceSale => (rest.1, l :: rest.2)
          | _ => rest
          end)
  end.


Definition business_items (h : heap) (rows : list nat) : list nat :=
  filter (fun l =>
            purchased_in_range (deref h l) = true ∧
            PyStr.contains_any ["nfs"; "other income"; "junkagie"]
              (location_lower (deref h l)) = false) rows.

Definition period_expenses (h : heap) (rows : list nat) : list nat :=
  filter (fun l => purchased_in_range (deref h l) = true) rows.

Definition loss_items (h : heap) (rows : list nat) : list nat :=
  filter (fun l =>
            location_contains
              (dict_get_or (deref h l) "HB.location" (PyStr "")) "Loss"
            = true ∧
            sold_in_range (deref h l) = true) rows.

End Range.

Definition items_with_cost (h : heap) (products : list nat) : list nat :=
  filter (fun l => PrimFloat.ltb 0 (purchase_price (deref h l)) = true)
    products.

Definition free_items (h : heap) (products : list nat) : list nat :=
  filter (fun l => PrimFloat.eqb (purchase_price (deref h l)) 0 = true)
    products.

Definition roi_values (h : heap) (with_cost : list nat) : list float :=
  omap (fun l =>
          let p := purchase_price (deref h l) in
          let s := sold_price (deref h l) in
          if PrimFloat.ltb 0 p
          then Some (PrimFloat.mul (PrimFloat.div (PrimFloat.sub s p) p) 100)
          else None) with_cost.

Definition business_assets (h : heap) (rows : list nat) : list nat :=
  filter (fun l =>
            location_contains
              (dict_get_or (deref h l) "HB.location" (PyStr ""))
              "Business Assets" = true) rows.

Definition junkagie_items (h : heap) (rows : list nat) : list nat :=
  filter (fun l =>
            location_contains
              (dict_get_or (deref h l) "HB.location" (PyStr ""))
              "Junkagie" = true) rows.

(** The active/stale loop.  It is the one place where the engine writes:
    [r['days_held'] = days_held] on the row object itself.  Result:
    [(active_inventory, stale_inventory, heap after the loop)]. *)
Fixpoint inventory_loop (now : datetime) (h : heap) (rows : list nat)
  : list nat * list nat * heap :=
  match rows with
  | [] => ([], [], h)
  | l :: ls =>
      let r := deref h l in
      if is_archived r then inventory_loop now h ls
      else if PyStr.contains_any
                ["nfs"; "other income"; "junkagie"; "business assets"]
                (location_lower r)
      then inventory_loop now h ls
      else
        let '(is_stale, h1) :=
          match parse_date (dict_get r "HB.purchase_time") with
          | Some p_date =>
              let days_held := PyDate.sub_days now p_date in
              if 90 <? days_held
              then (true, setitem h l "days_held" (PyInt days_held))
              else (false, h)
          | None => (false, h)
          end in
        let '(active, stale, h') := inventory_loop now h1 ls in
        (l :: active, if is_stale then l :: stale else stale, h')
  end.

(** The sort key [x.get('days_held', 0)]; every stale row holds an [int]
    there (see [stale_key_is_int]). *)
Definition days_held_key (h : heap) (l : nat) : Z :=
  match dict_get_or (deref h l) "days_held" (PyInt 0) with
  | PyInt z => z
  | _ => 0
  end.

(** [list.sort(key=.., reverse=True)]: descending and stable. *)
Fixpoint insert_desc (key : nat -> Z) (x : nat) (l : list nat) : list nat :=
  match l with
  | [] => [x]
  | y :: l' =>
      if key x <? key y then y :: insert_desc key x l' else x :: l
  end.

Definition sort_desc (key : nat -> Z) (l : list nat) : list nat :=
  foldr (insert_desc key) [] l.

Definition marketplace_items (h : heap) (rows : list nat) : list nat :=
  filter (fun l => is_insured (deref h l) = true ∧
                   is_archived (deref h l) = false) rows.

(** The velocity loop. *)
Definition item_days_to_sell (r : row) : option Z :=
  match parse_date (dict_get r "HB.purchase_time"),
        parse_date (dict_get r "HB.sold_time") with
  | Some p_date, Some s_date => Some (PyDate.sub_days s_date p_date)
  | _, _ => None
  end.

Definition days_to_sell (h : heap) (products : list nat) : list Z :=
  omap (fun l => item_days_to_sell (deref h l)) products.

Definition quick_flips (days : list Z) : Z :=
  Py.len (filter (fun d => d <= 14) days).

(** [inv_by_loc[loc]['count'] += 1; inv_by_loc[loc]['value'] += v] on a
    [defaultdict] whose default is [{'count': 0, 'value': 0}]; a dict
    keeps its keys in insertion order. *)
Fixpoint group_add (k : pyval) (v : float) (g : list (pyval * (Z * pynum)))
  : list (pyval * (Z * pynum)) :=
  match g with
  | [] => [(k, (0 + 1, Py.add (PInt 0) (PFloat v)))]
  | (k', (c, s)) :: g' =>
      if decide (k' = k) then (k', (c + 1, Py.add s (PFloat v))) :: g'
      else (k', (c, s)) :: group_add k v g'
  end.

Definition inventory_by_location (h : heap) (rows : list nat)
  : list (pyval * (Z * pynum)) :=
  fold_left (fun g l =>
               let item := deref h l in
               if negb (is_archived item)
               then group_add (dict_get_or item "HB.location" (PyStr "Unknown"))
                      (purchase_price item) g
               else g) rows [].

Definition sum_of (f : row -> float) (h : heap) (items : list nat) : pynum :=
  py_sum (map (fun l => f (deref h l)) items).

(** [sum(..) / len(..) if .. else 0] *)
Definition mean_or_zero {A} (total : pynum) (items : list A) : pynum :=
  match items with
  | [] => PInt 0
  | _ :: _ => Py.truediv total (PInt (Py.len items))
  end.

Definition min_or_zero (days : list Z) : pynum :=
  match days with [] => PInt 0 | d :: ds => PInt (Py.min_int d ds) end.

Definition max_or_zero (days : list Z) : pynum :=
  match days with [] => PInt 0 | d :: ds => PInt (Py.max_int d ds) end.

(** The local variables the returned dict is built from. *)
Record locals := Locals {
  month_sales_products : list nat;
  month_sales_services : list nat;
  total_revenue : pynum;
  with_cost : list nat;
  free : list nat;
  cogs : pynum;
  net_profit : pynum;
  avg_roi : pynum;
  service_revenue : pynum;
  total_business_expenses : pynum;
  total_all_expenses : pynum;
  assets : list nat;
  business_assets_value : pynum;
  losses : list nat;
  loss_value : pynum;
  junkagie_count : Z;
  active_inventory : list nat;
  stale_inventory : list nat;
  total_active_value : pynum;
  marketplace : list nat;
  marketplace_value : pynum;
  days : list Z;
  avg_days : pynum;
  flips : Z;
  inv_by_loc : list (pyval * (Z * pynum))
}.

(** The [return {...}] of [analyze_homebox_rows], item by item. *)
Definition report_items (start_date end_date : datetime) (v : locals)
  : list (string * rval) :=
  [ ("start_date", RDateTime start_date);
    ("end_date", RDateTime end_date);
    ("product_revenue", RNum (total_revenue v));
    ("service_revenue", RNum (service_revenue v));
    ("total_revenue", RNum (Py.add (total_revenue v) (service_revenue v)));
    ("cogs", RNum (cogs v));
    ("net_profit", RNum (net_profit v));
    ("service_profit", RNum (service_revenue v));
    ("total_profit", RNum (Py.add (net_profit v) (service_revenue v)));
    ("avg_roi", RNum (avg_roi v));
    ("items_sold", RNum (PInt (Py.len (month_sales_products v))));
    ("items_with_cost", RNum (PInt (Py.len (with_cost v))));
    ("free_items_count", RNum (PInt (Py.len (free v))));
    ("avg_sale_price",
      RNum (mean_or_zero (total_revenue v) (month_sales_products v)));
    ("avg_profit_per_item",
      RNum (mean_or_zero (net_profit v) (month_sales_products v)));
    ("business_expenses", RNum (total_business_expenses v));
    ("total_expenses", RNum (total_all_expenses v));
    ("business_assets_value", RNum (business_assets_value v));
    ("business_assets_count", RNum (PInt (Py.len (assets v))));
    ("business_assets", RRows (assets v));
    ("loss_value", RNum (loss_value v));
    ("loss_count", RNum (PInt (Py.len (losses v))));
    ("junkagie_count", RNum (PInt (junkagie_count v)));
    ("junkagie_potential", RNum (PInt (junkagie_count v * 5)));
    ("active_inventory_value", RNum (PInt 0));
    ("active_inventory_count", RNum (PInt 0));
    ("total_active_value", RNum (total_active_value v));
    ("total_active_count", RNum (PInt (Py.len (active_inventory v))));
    ("stale_inventory", RRows (stale_inventory v));
    ("stale_count", RNum (PInt (Py.len (stale_inventory v))));
    ("marketplace_value", RNum (marketplace_value v));
    ("marketplace_count", RNum (PInt (Py.len (marketplace v))));
    ("avg_days_to_sell", RNum (avg_days v));
    ("quick_flips", RNum (PInt (flips v)));
    ("fastest_sale", RNum (min_or_zero (days v)));
    ("slowest_sale", RNum (max_or_zero (days v)));
    ("month_sales", RRows (month_sales_products v));
    ("items_with_cost", RRows (with_cost v));
    ("free_items", RRows (free v));
    ("other_income_items", RRows (month_sales_services v));
    ("inventory_by_location", RGroups (inv_by_loc v)) ].

(** The statements of [analyze_homebox_rows] up to the [return]: the
    values of its local variables and the heap it leaves.  [now] is the
    value [datetime.now()] yields. *)
Definition run_locals (now : datetime) (h : heap) (rows : list nat)
    (start_date end_date : datetime) : result (locals * heap) :=
  let* sales := sales_loop start_date end_date h rows in
  let products := sales.1 in
  let services := sales.2 in
  let total_revenue := sum_of sold_price h products in
  let with_cost := items_with_cost h products in
  let free := free_items h products in
  let cogs := sum_of purchase_price h with_cost in
  let net_profit := Py.sub total_revenue cogs in
  let rois := roi_values h with_cost in
  let avg_roi := mean_or_zero (py_sum rois) rois in
  let service_revenue := sum_of sold_price h services in
  let total_business_expenses :=
    sum_of purchase_price h (business_items start_date end_date h rows) in
  let total_all_expenses :=
    sum_of purchase_price h (period_expenses start_date end_date h rows) in
  let assets := business_assets h rows in
  let business_assets_value := sum_of purchase_price h assets in
  let losses := loss_items start_date end_date h rows in
  let loss_value := sum_of purchase_price h losses in
  let junkagie_count := Py.len (junkagie_items h rows) in
  let '(active, stale, h1) := inventory_loop now h rows in
  let total_active_value := sum_of purchase_price h1 active in
  let stale_sorted := sort_desc (days_held_key h1) stale in
  let marketplace := marketplace_items h1 rows in
  let marketplace_value := sum_of purchase_price h1 marketplace in
  let days := days_to_sell h1 products in
  let avg_days := mean_or_zero (PInt (Py.sum_int days)) days in
  let flips := quick_flips days in
  let inv_by_loc := inventory_by_location h1 rows in
  Ok ({| month_sales_products := products;
         month_sales_services := services;
         total_revenue := total_revenue;
         with_cost := with_cost;
         free := free;
         cogs := cogs;
         net_profit := net_profit;
         avg_roi := avg_roi;
         service_revenue := service_revenue;
         total_business_expenses := total_business_expenses;
         total_all_expenses := total_all_expenses;
         assets := assets;
         business_assets_value := business_assets_value;
         losses := losses;
         loss_value := loss_value;
         junkagie_count := junkagie_count;
         active_inventory := active;
         stale_inventory := stale_sorted;
         total_active_value := total_active_value;
         marketplace := marketplace;
         marketplace_value := marketplace_value;
         days := days;
         avg_days := avg_days;
         flips := flips;
         inv_by_loc := inv_by_loc |}, h1).

(** [analyze_homebox_rows(rows, start_date, end_date)]: the returned dict
    and the heap after the call, or the exception it raises. *)
Definition analyze_homebox_rows (now : datetime) (h : heap)
    (rows : list nat) (start_date end_date : datetime)
  : result (gmap string rval * heap) :=
  let* vh := run_locals now h rows start_date end_date in
  Ok (dict_display (report_items start_date end_date vh.1), vh.2).

End Engine.

(* ===================================================================== *)
(** ** Views used to state what the loops compute *)
(* ===================================================================== *)

(** Two rows that agree on every key but [k0]. *)
Definition row_agree (k0 : string) (r r' : row) : Prop :=
  ∀ k, k ≠ k0 → r !! k = r' !! k.

(** Two heaps whose objects agree on every key but [k0]. *)
Definition heap_agree (k0 : string) (h h' : heap) : Prop :=
  ∀ l, row_agree k0 (deref h l) (deref h' l).

(** The two [continue] tests of the active/stale loop, negated. *)
Definition is_active (r : row) : bool :=
  (negb (is_archived r) &&
   negb (PyStr.contains_any
           ["nfs"; "other income"; "junkagie"; "business assets"]
           (location_lower r)))%bool.

(** The [days_held] the loop stores on a row, if it stores one. *)
Definition stale_days (now : datetime) (r : row) : option Z :=
  if is_active r then
    match parse_date (dict_get r "HB.purchase_time") with
    | Some p_date =>
        let days_held := PyDate.sub_days now p_date in
        if 90 <? days_held then Some days_held else None
    | None => None
    end
  else None.

(** [f] looks at a row only through the keys [keys]. *)
Definition reads_only {A} (keys : list string) (f : row → A) : Prop :=
  ∀ r r' : row, (∀ k, k ∈ keys → r !! k = r' !! k) → f r = f r'.

(** One iteration of the active/stale loop, seen from the heap. *)
Definition stale_step (now : datetime) (h : heap) (l : nat) : heap :=
  match stale_days now (deref h l) with
  | Some d => setitem h l "days_held" (PyInt d)
  | None => h
  end.

(** The group of [k] in [inventory_by_location]. *)
Fixpoint group_lookup (k : pyval) (g : list (pyval * (Z * pynum)))
  : option (Z * pynum) :=
  match g with
  | [] => None
  | (k', cs) :: g' => if decide (k' = k) then Some cs else group_lookup k g'
  end.

(** The count of the group of [k], 0 when there is no such group. *)
Definition group_count (k : pyval) (g : list (pyval * (Z * pynum))) : Z :=
  match group_lookup k g with Some (c, _) => c | None => 0 end.

(** The key under which [inventory_by_location] files a row. *)
Definition location_key (r : row) : pyval :=
  dict_get_or r "HB.location" (PyStr "Unknown").


(* ===================================================================== *)
(** ** A concrete instance of the builtins, for evaluating examples *)
(* ===================================================================== *)

Module Builtins.

Fixpoint digits (s : string) (acc : Z) (n : nat) : Z * nat * string :=
  match s with
  | String c rest =>
      match Strptime.digit c with
      | Some v => digits rest (acc * 10 + v) (S n)
      | None => (acc, n, s)
      end
  | EmptyString => (acc, n, s)
  end.

(** [float(s)] on the plain decimal literals [[+-]ddd[.ddd]] of at most
    fifteen digits: numerator and power of ten are then exact doubles
    and one division rounds the quotient correctly, as [float] does.
    Any other text is treated as a [ValueError]. *)
Definition float_of_str (s : string) : option float :=
  let '(neg, body) :=
    match s with
    | String "-" rest => (true, rest)
    | String "+" rest => (false, rest)
    | _ => (false, s)
    end in
  let '(ip, n1, rest) := digits body 0 0%nat in
  let '(m, n2, rest') :=
    match rest with
    | String "." frac => digits frac ip 0%nat
    | _ => (ip, 0%nat, rest)
    end in
  match rest' with
  | EmptyString =>
      if ((0 <? n1 + n2) && (n1 + n2 <=? 15))%nat then
        let q := PrimFloat.div (Py.float_of_Z m)
                   (Py.float_of_Z (10 ^ Z.of_nat n2)) in
        Some (if neg then PrimFloat.opp q else q)
      else None
  | _ => None
  end.

(** [sum] of floats by left-to-right addition from 0. *)
Definition float_sum (l : list float) : float :=
  fold_left PrimFloat.add l 0%float.

Definition analyze := analyze_homebox_rows float_of_str float_sum.

End Builtins.

(* ===================================================================== *)
(** ** Sample rows, heaps and ranges *)
(* ===================================================================== *)

Module Sample.

(** November 2025, as [run_detailed_analysis] builds the bounds: the
    first day at [time.min], the last day at [time.max]. *)
Definition nov_start : datetime := DateTime (Date 2025 11 1) 0.
Definition nov_end : datetime := DateTime (Date 2025 11 30) 86399999999.

(** [datetime.now()] on 1 December 2025 at noon. *)
Definition now : datetime := DateTime (Date 2025 12 1) 43200000000.

(** A product sale with a cost (the first scenario of the spec). *)
Definition sold_item : row :=
  {[ "HB.purchase_price" := PyStr "100"; "HB.sold_price" := PyStr "150";
     "HB.sold_time" := PyStr "2025-11-10";
     "HB.purchase_time" := PyStr "2025-10-01";
     "HB.archived" := PyStr "true"; "HB.location" := PyStr "Sold" ]}.

(** A sale whose location, not its labels, says labor. *)
Definition labor_item : row :=
  {[ "HB.sold_price" := PyStr "80"; "HB.sold_time" := PyStr "2025-11-10";
     "HB.archived" := PyStr "true"; "HB.labels" := PyStr "";
     "HB.location" := PyStr "Labor / November 2025" ]}.

(** Two rows that are not archived but carry a sale date. *)
Definition unarchived_income : row :=
  {[ "HB.sold_price" := PyStr "200"; "HB.sold_time" := PyStr "2025-11-12";
     "HB.archived" := PyStr "false";
     "HB.location" := PyStr "Other Income / November 2025" ]}.
Definition unarchived_loss : row :=
  {[ "HB.purchase_price" := PyStr "10"; "HB.sold_time" := PyStr "2025-11-20";
     "HB.archived" := PyStr "false"; "HB.location" := PyStr "Loss" ]}.

(** An unsold row bought eleven months before [now]. *)
Definition stale_item : row :=
  {[ "HB.archived" := PyStr "false"; "HB.purchase_price" := PyStr "50";
     "HB.purchase_time" := PyStr "2025-01-01" ]}.

(** A sale whose labels field is null. *)
Definition null_labels_item : row :=
  {[ "HB.sold_price" := PyStr "20"; "HB.sold_time" := PyStr "2025-11-10";
     "HB.labels" := PyNone; "HB.location" := PyStr "Sold" ]}.

(** Two sales dated before their purchase: by 100 days and by 1 day. *)
Definition early_sale_100 : row :=
  {[ "HB.sold_price" := PyStr "5"; "HB.sold_time" := PyStr "2025-11-10";
     "HB.purchase_time" := PyStr "2026-02-18";
     "HB.location" := PyStr "Sold" ]}.
Definition early_sale_1 : row :=
  {[ "HB.sold_price" := PyStr "5"; "HB.sold_time" := PyStr "2025-11-10";
     "HB.purchase_time" := PyStr "2025-11-11";
     "HB.location" := PyStr "Sold" ]}.

(** A listed, unsold row whose archived flag is capitalised. *)
Definition listed_item : row :=
  {[ "HB.archived" := PyStr "True"; "HB.insured" := PyStr "true";
     "HB.purchase_price" := PyStr "12"; "HB.location" := PyStr "Shelf B" ]}.

(** A sale stamped late on the last day of the range. *)
Definition last_day_item : row :=
  {[ "HB.sold_price" := PyStr "15";
     "HB.sold_time" := PyStr "2025-11-30T23:59:59Z";
     "HB.location" := PyStr "Sold" ]}.

(** The heap holding [items] at the references 0, 1, ... *)
Definition heap_of (items : list row) : heap :=
  list_to_map (zip (seq 0 (length items)) items).

Definition refs (items : list row) : list nat := seq 0 (length items).

(** The engine on a list of rows, for November 2025. *)
Definition run (items : list row) : result (gmap string rval * heap) :=
  Builtins.analyze now (heap_of items) (refs items) nov_start nov_end.

Definition report_of (items : list row) : gmap string rval :=
  match run items with Ok (rep, _) => rep | Raise _ => ∅ end.

(** The heap the call leaves. *)
Definition heap_after (items : list row) : heap :=
  match run items with Ok (_, h) => h | Raise _ => heap_of items end.

End Sample.

(* ===================================================================== *)
(** ** Decidable equality of outcomes; text fields *)
(* ===================================================================== *)

#[global] Instance sale_kind_eq_dec : EqDecision sale_kind.
Proof. solve_decision. Defined.

#[global] Instance exn_eq_dec : EqDecision exn.
Proof. solve_decision. Defined.

#[global] Instance result_eq_dec {A} `{EqDecision A} : EqDecision (result A).
Proof. solve_decision. Defined.


(** The sum of the counts of the groups. *)
Definition group_total (g : list (pyval * (Z * pynum))) : Z :=
  Py.sum_int (map (fun kcs => kcs.2.1) g).

(** [a] is listed before [b] by a descending sort on [key]. *)
Definition held_longer (key : nat → Z) (a b : nat) : Prop := key b <= key a.

(* ===================================================================== *)
(** ** [src/src/api.py]: the date fields of an API item *)
(* ===================================================================== *)

(** The local helper [extract_date] of [map_api_items_to_rows]:
    [iso_str.startswith] exists only on a [str]. *)
Definition extract_date (iso_str : pyval) : result string :=
  if negb (Py.truthy iso_str) then Ok ""
  else
    match iso_str with
    | PyStr s =>
        if PyStr.startswith "0001" s then Ok ""
        else Ok (if PyStr.contains "T" s then PyStr.split_head "T" s else s)
    | _ => Raise AttributeError
    end.

(* ===================================================================== *)
(** ** [src/app.py]: [run_detailed_analysis] over [sanitize_rows] *)
(* ===================================================================== *)

(** [sanitize_rows]: a new list of new dicts, one per row, each with the
    items of its row (no value of the model is a [datetime], so no value is
    rewritten by [strftime]).  A new object gets a reference that is not in
    use. *)
Fixpoint sanitize_rows (h : heap) (rows : list nat) : heap * list nat :=
  match rows with
  | [] => (h, [])
  | l :: ls =>
      let l' := fresh (dom h) in
      let '(h', sanitized) := sanitize_rows (<[l' := deref h l]> h) ls in
      (h', l' :: sanitized)
  end.

(** [datetime.combine(d, datetime.min.time())] and
    [datetime.combine(d, datetime.max.time())]; a [datetime] argument is a
    [date] too and gives its date part. *)
Definition combine_min (d : datetime) : datetime := DateTime (dt_date d) 0.
Definition combine_max (d : datetime) : datetime :=
  DateTime (dt_date d) 86399999999.

(** The body of [run_detailed_analysis] (the result cache of its decorator
    is not part of the model). *)
Definition run_detailed_analysis (float_of_str : string -> option float)
    (float_sum : list float -> float) (now : datetime) (h : heap)
    (raw_rows : list nat) (start_date end_date : datetime)
  : result (gmap string rval * heap) :=
  let '(h1, safe_rows) := sanitize_rows h raw_rows in
  analyze_homebox_rows float_of_str float_sum now h1 safe_rows
    (combine_min start_date) (combine_max end_date).

(* ===================================================================== *)
(** ** [src/detailedanalysis/analyze_homebox_v3.py]: the sold items *)
(* ===================================================================== *)

(** The outcomes of the legacy selection: [.startswith] on a value that is
    not a [str] is an [AttributeError], ['Sold' in location] on one is a
    [TypeError]. *)
Inductive legacy_result (A : Type) :=
| LOk (a : A)
| LAttributeError
| LTypeError.
Arguments LOk {A} a.
Arguments LAttributeError {A}.
Arguments LTypeError {A}.

Definition legacy_bind {A B} (c : legacy_result A)
    (k : A -> legacy_result B) : legacy_result B :=
  match c with
  | LOk a => k a
  | LAttributeError => LAttributeError
  | LTypeError => LTypeError
  end.

(** The truth value of
    [r.get('HB.sold_time') and not r.get('HB.sold_time').startswith('0001')] *)
Definition has_sold_time (r : row) : legacy_result bool :=
  let v := dict_get r "HB.sold_time" in
  if Py.truthy v then
    match v with
    | PyStr s => LOk (negb (PyStr.startswith "0001" s))
    | _ => LAttributeError
    end
  else LOk false.

(** ['Sold' in location] *)
Definition sold_in_location (location : pyval) : legacy_result bool :=
  match location with
  | PyStr s => LOk (PyStr.contains "Sold" s)
  | _ => LTypeError
  end.

(** The body of the first loop of the legacy script: whether the row is
    appended to [sold_items]. *)
Definition legacy_is_sold (r : row) : legacy_result bool :=
  let location := dict_get_or r "HB.location" (PyStr "") in
  legacy_bind (has_sold_time r) (fun has_sold =>
  if Py.is_true_str (dict_get r "HB.archived") then
    legacy_bind (sold_in_location location) (fun in_sold =>
    if (in_sold || has_sold)%bool then
      LOk (negb (location_contains location "Other Income")
           && negb (location_contains location "Loss"))%bool
    else LOk false)
  else LOk false).

Fixpoint legacy_sold_items (h : heap) (rows : list nat)
  : legacy_result (list nat) :=
  match rows with
  | [] => LOk []
  | l :: ls =>
      legacy_bind (legacy_is_sold (deref h l)) (fun sold =>
      legacy_bind (legacy_sold_items h ls) (fun rest =>
      LOk (if sold then l :: rest else rest)))
  end.

(** [sold_date and sold_date.month == target_month
     and sold_date.year == target_year] *)
Definition sold_in_month (target_month target_year : Z) (r : row) : bool :=
  match parse_date (dict_get r "HB.sold_time") with
  | Some sold_date =>
      ((month (dt_date sold_date) =? target_month)
       && (year (dt_date sold_date) =? target_year))%bool
  | None => false
  end.

(** [month_sales] of the legacy [analyze_homebox_rows]. *)
Definition legacy_month_sales (h : heap) (rows : list nat)
    (target_month target_year : Z) : legacy_result (list nat) :=
  legacy_bind (legacy_sold_items h rows) (fun sold_items =>
  LOk (filter (fun l =>
                 sold_in_month target_month target_year (deref h l) = true)
         sold_items)).

(** The range the app builds for a calendar month: its first day and the
    day [calendar.monthrange] gives as its last. *)
Definition month_start (y m : Z) : datetime := DateTime (Date y m 1) 0.
Definition month_end (y m : Z) : datetime :=
  DateTime (Date y m (PyDate.days_in_month y m)) 86399999999.

(* ===================================================================== *)
(** ** [src/app.py]: [analyze_data] *)
(* ===================================================================== *)

(** The outcomes of [analyze_data]: a subscript [detail_data[key]] on a
    missing key is a [KeyError]. *)
Inductive app_result (A : Type) :=
| AOk (a : A)
| ARaise (x : exn)
| AKeyError (key : string).
Arguments AOk {A} a.
Arguments ARaise {A} x.
Arguments AKeyError {A} key.

(** The keys of [summary], each with the key of [detail_data] it is read
    from, in the order of the dict display. *)
Definition summary_keys : list (string * string) :=
  [ ("revenue", "product_revenue"); ("cogs", "cogs");
    ("profit", "net_profit"); ("service", "service_revenue");
    ("roi", "avg_roi"); ("count", "items_sold");
    ("sales_data", "month_sales"); ("active_val", "total_active_value");
    ("active_count", "total_active_count") ].

(** The items of the display [{k: detail_data[src], ...}], evaluated from
    left to right. *)
Fixpoint summary_items (detail_data : gmap string rval)
    (keys : list (string * string)) : app_result (list (string * rval)) :=
  match keys with
  | [] => AOk []
  | (k, src) :: keys' =>
      match detail_data !! src with
      | None => AKeyError src
      | Some v =>
          match summary_items detail_data keys' with
          | AOk items => AOk ((k, v) :: items)
          | ARaise x => ARaise x
          | AKeyError key => AKeyError key
          end
      end
  end.

(** [analyze_data(rows, start_date, end_date)]: [(summary, detail_data)]
    and the heap after the call. *)
Definition analyze_data (float_of_str : string -> option float)
    (float_sum : list float -> float) (now : datetime) (h : heap)
    (rows : list nat) (start_date end_date : datetime)
  : app_result (gmap string rval * gmap string rval * heap) :=
  match run_detailed_analysis float_of_str float_sum now h rows
          start_date end_date with
  | Raise x => ARaise x
  | Ok (detail_data, h') =>
      match summary_items detail_data summary_keys with
      | AOk items => AOk (dict_display items, detail_data, h')
      | ARaise x => ARaise x
      | AKeyError key => AKeyError key
      end
  end.

(* ===================================================================== *)
(** ** Rows that are different objects with the same items *)
(* ===================================================================== *)




(* ===================================================================== *)
(** ** The helpers on sample inputs *)
(* ===================================================================== *)

Example strptime_iso :
  Strptime.strptime "2025-11-10" = Some (DateTime (Date 2025 11 10) 0).
Proof. reflexivity. Qed.

Example strptime_short_fields :
  Strptime.strptime "2025-1-5" = Some (DateTime (Date 2025 1 5) 0).
Proof. reflexivity. Qed.

Example strptime_bad_month : Strptime.strptime "2025-13-01" = None.
Proof. reflexivity. Qed.

Example strptime_bad_day : Strptime.strptime "2025-02-29" = None.
Proof. reflexivity. Qed.

Example strptime_trailing : Strptime.strptime "2025-11-32" = None.
Proof. reflexivity. Qed.

Example toordinal_2025_12_01 : PyDate.toordinal (Date 2025 12 1) = 739586.
Proof. reflexivity. Qed.

Example parse_date_sentinel : parse_date (PyStr "0001-01-01") = None.
Proof. reflexivity. Qed.

Example parse_date_timestamp :
  parse_date (PyStr "2025-11-10T23:59:59Z")
  = Some (DateTime (Date 2025 11 10) 0).
Proof. reflexivity. Qed.

Example parse_date_none : parse_date PyNone = None.
Proof. reflexivity. Qed.

Example parse_date_int : parse_date (PyInt 20251110) = None.
Proof. reflexivity. Qed.

(* ===================================================================== *)
(** ** Dates: the order on dates is the order of their ordinals *)
(* ===================================================================== *)

Module DateFacts.
Import PyDate.

Lemma is_leap_cases y :
  (is_leap y = true ∧ y mod 4 = 0 ∧ (y mod 100 ≠ 0 ∨ y mod 400 = 0)) ∨
  (is_leap y = false ∧ (y mod 4 ≠ 0 ∨ (y mod 100 = 0 ∧ y mod 400 ≠ 0))).
Proof.
  unfold is_leap.
  destruct (Z.eqb_spec (y mod 4) 0), (Z.eqb_spec (y mod 100) 0),
    (Z.eqb_spec (y mod 400) 0); simpl; lia.
Qed.

Lemma days_before_year_succ y :
  days_before_year (y + 1) = days_before_year y + days_in_year y.
Proof.
  unfold days_before_year, days_in_year.
  replace (y + 1 - 1) with y by lia.
  destruct (is_leap_cases y) as [(-> & H4 & H)|(-> & H)];
    Z.div_mod_to_equations; lia.
Qed.

Lemma days_in_year_bounds y : 365 <= days_in_year y <= 366.
Proof. unfold days_in_year; destruct (is_leap y); lia. Qed.

Lemma days_before_year_mono y y' :
  y <= y' → days_before_year y <= days_before_year y'.
Proof.
  intros Hle. replace y' with (y + Z.of_nat (Z.to_nat (y' - y))) by lia.
  induction (Z.to_nat (y' - y)) as [|n IH]; [rewrite Z.add_0_r; lia|].
  replace (y + Z.of_nat (S n)) with (y + Z.of_nat n + 1) by lia.
  rewrite days_before_year_succ.
  pose proof (days_in_year_bounds (y + Z.of_nat n)). lia.
Qed.

Lemma month_cases m :
  1 <= m <= 12 →
  m = 1 ∨ m = 2 ∨ m = 3 ∨ m = 4 ∨ m = 5 ∨ m = 6 ∨
  m = 7 ∨ m = 8 ∨ m = 9 ∨ m = 10 ∨ m = 11 ∨ m = 12.
Proof. lia. Qed.

Ltac by_month m :=
  let H := fresh "Hcase" in
  assert (H : 1 <= m <= 12) by lia;
  apply month_cases in H;
  repeat (destruct H as [H|H]); subst m.

Lemma days_before_month_succ y m :
  1 <= m <= 11 →
  days_before_month y (m + 1) = days_before_month y m + days_in_month y m.
Proof.
  intros Hm. unfold days_before_month, days_in_month.
  by_month m; simpl; destruct (is_leap y); lia.
Qed.

Lemma days_in_month_pos y m : 1 <= m <= 12 → 28 <= days_in_month y m.
Proof.
  intros Hm. unfold days_in_month.
  by_month m; simpl; try destruct (is_leap y); lia.
Qed.

Lemma days_before_month_lt y m m' :
  1 <= m → m < m' → m' <= 12 →
  days_before_month y m + days_in_month y m <= days_before_month y m'.
Proof.
  intros H1 Hlt H12.
  replace m' with (m + 1 + Z.of_nat (Z.to_nat (m' - m - 1))) in * by lia.
  induction (Z.to_nat (m' - m - 1)) as [|n IH].
  - rewrite Z.add_0_r, days_before_month_succ; lia.
  - etrans; [apply IH; lia|].
    replace (m + 1 + Z.of_nat (S n)) with (m + 1 + Z.of_nat n + 1) by lia.
    rewrite days_before_month_succ by lia.
    pose proof (days_in_month_pos y (m + 1 + Z.of_nat n)). lia.
Qed.

Lemma days_before_month_12 y :
  days_before_month y 12 + days_in_month y 12 = days_in_year y.
Proof. unfold days_before_month, days_in_year; simpl; destruct (is_leap y); lia. Qed.

Lemma valid_spec d :
  valid d = true ↔
  1 <= year d <= 9999 ∧ 1 <= month d <= 12 ∧
  1 <= day d <= days_in_month (year d) (month d).
Proof. unfold valid. rewrite !andb_true_iff, !Z.leb_le. lia. Qed.

(** The last day of a month is before the first day of the next year. *)
Lemma toordinal_within_year d :
  valid d = true →
  days_before_year (year d) < toordinal d <= days_before_year (year d + 1).
Proof.
  rewrite valid_spec. destruct d as [y m dd]; simpl.
  intros (Hy & Hm & Hd). unfold toordinal; simpl.
  rewrite days_before_year_succ, <- days_before_month_12.
  assert (0 <= days_before_month y m).
  { unfold days_before_month. by_month m; simpl; destruct (is_leap y); lia. }
  destruct (Z.eq_dec m 12) as [->|Hne]; [lia|].
  pose proof (days_before_month_lt y m 12).
  pose proof (days_in_month_pos y 12). lia.
Qed.

Lemma ltb_spec a b :
  ltb a b = true ↔
  year a < year b ∨
  (year a = year b ∧
   (month a < month b ∨ (month a = month b ∧ day a < day b))).
Proof.
  unfold ltb, leb. rewrite negb_true_iff.
  destruct (Z.ltb_spec (year b) (year a)), (Z.eqb_spec (year b) (year a)),
    (Z.ltb_spec (month b) (month a)), (Z.eqb_spec (month b) (month a)),
    (Z.leb_spec (day b) (day a)); simpl; lia.
Qed.

Lemma toordinal_lt a b :
  valid a = true → valid b = true → ltb a b = true →
  toordinal a < toordinal b.
Proof.
  intros Ha Hb. rewrite ltb_spec.
  pose proof (toordinal_within_year a Ha) as Wa.
  pose proof (toordinal_within_year b Hb) as Wb.
  apply valid_spec in Ha as (Hya & Hma & Hda).
  apply valid_spec in Hb as (Hyb & Hmb & Hdb).
  intros [Hy|(Hy & [Hm|(Hm & Hd)])].
  - pose proof (days_before_year_mono (year a + 1) (year b)). lia.
  - unfold toordinal. rewrite Hy in *.
    pose proof (days_before_month_lt (year b) (month a) (month b)). lia.
  - unfold toordinal. rewrite Hy, Hm. lia.
Qed.

Lemma leb_total_cases a b :
  leb a b = true ∧ (ltb a b = true ∨ (year a = year b ∧ month a = month b ∧ day a = day b))
  ∨ leb a b = false ∧ ltb b a = true.
Proof.
  unfold ltb.
  destruct (leb a b) eqn:E; [left|right; auto].
  split; [done|]. destruct (leb b a) eqn:E'; [right|left; done].
  unfold leb in *.
  destruct (Z.ltb_spec (year b) (year a)), (Z.eqb_spec (year b) (year a)),
    (Z.ltb_spec (month b) (month a)), (Z.eqb_spec (month b) (month a)),
    (Z.leb_spec (day b) (day a)),
    (Z.ltb_spec (year a) (year b)), (Z.eqb_spec (year a) (year b)),
    (Z.ltb_spec (month a) (month b)), (Z.eqb_spec (month a) (month b)),
    (Z.leb_spec (day a) (day b)); simpl in *; try discriminate; lia.
Qed.

(** On valid dates, [a <= b] is the order of the ordinals. *)
Lemma leb_toordinal a b :
  valid a = true → valid b = true →
  (leb a b = true ↔ toordinal a <= toordinal b).
Proof.
  intros Ha Hb.
  destruct (leb_total_cases a b) as [(E & [Hlt|(Hy & Hm & Hd)])|(E & Hgt)].
  - pose proof (toordinal_lt a b Ha Hb Hlt). split; [lia|done].
  - unfold toordinal. rewrite Hy, Hm, Hd. split; [lia|done].
  - pose proof (toordinal_lt b a Hb Ha Hgt). rewrite E. split; [done|lia].
Qed.

Lemma leb_refl a : leb a a = true.
Proof.
  unfold leb. rewrite !Z.eqb_refl, Z.leb_refl. simpl.
  by rewrite !orb_true_r.
Qed.

(** Two datetimes at midnight differ by the difference of the ordinals. *)
Lemma sub_days_midnight a b :
  sub_days (midnight a) (midnight b) = toordinal a - toordinal b.
Proof.
  unfold sub_days, total_micros, midnight; simpl. rewrite !Z.add_0_r.
  rewrite <- Z.mul_sub_distr_r. apply Z.div_mul. done.
Qed.

(** The time of day of [now] does not change the whole days since a
    midnight. *)
Lemma sub_days_from_midnight now b :
  valid_time now →
  sub_days now (midnight b) = toordinal (dt_date now) - toordinal b.
Proof.
  unfold valid_time, sub_days, total_micros, midnight; simpl.
  intros H. rewrite Z.add_0_r.
  replace (toordinal (dt_date now) * micros_per_day + dt_micros now
           - toordinal b * micros_per_day)
    with (dt_micros now + (toordinal (dt_date now) - toordinal b) * micros_per_day)
    by lia.
  rewrite Z.div_add by done. rewrite Z.div_small by done. lia.
Qed.

End DateFacts.

(* ===================================================================== *)
(** ** Strings and parsing *)
(* ===================================================================== *)

Module StrFacts.

Lemma app_nil_l (t : string) : ("" +:+ t) = t.
Proof. reflexivity. Qed.

Lemma app_cons (c : ascii) (a b : string) :
  (String c a +:+ b) = String c (a +:+ b).
Proof. reflexivity. Qed.

Lemma startswith_spec (p s : string) :
  PyStr.startswith p s = true ↔ ∃ t, s = (p +:+ t).
Proof.
  revert s. induction p as [|c p IH]; intros s; cbn.
  - split; [intros _; exists s; reflexivity|done].
  - destruct s as [|c' s]; [split; [done|intros [t Ht]; discriminate]|].
    rewrite andb_true_iff, Ascii.eqb_eq, IH. split.
    + intros (-> & t & ->). by exists t.
    + intros [t Ht]. rewrite app_cons in Ht. injection Ht as -> ->.
      split; [done|by exists t].
Qed.

(** [needle in hay] holds exactly when [hay] is [a ++ needle ++ b]. *)
Lemma contains_spec (needle hay : string) :
  PyStr.contains needle hay = true ↔ ∃ a b, hay = (a +:+ needle +:+ b).
Proof.
  induction hay as [|c hay IH]; cbn [PyStr.contains].
  - rewrite orb_false_r, startswith_spec. split.
    + intros [t Ht]. by exists EmptyString, t.
    + intros (a & b & Hab).
      destruct a; rewrite ?app_nil_l, ?app_cons in Hab;
        [by exists b|discriminate].
  - rewrite orb_true_iff, IH, startswith_spec. split.
    + intros [[t Ht]|(a & b & Hab)].
      * by exists EmptyString, t.
      * exists (String c a), b. rewrite app_cons. by rewrite Hab.
    + intros (a & b & Hab).
      destruct a as [|c' a]; rewrite ?app_nil_l, ?app_cons in Hab.
      * left. by exists b.
      * right. exists a, b. congruence.
Qed.

Lemma is_true_str_spec v : Py.is_true_str v = true ↔ v = PyStr "true".
Proof.
  destruct v as [|s|z]; simpl; try (split; [done|discriminate]).
  rewrite String.eqb_eq. split; congruence.
Qed.

Lemma strptime_midnight s t :
  Strptime.strptime s = Some t →
  PyDate.valid (dt_date t) = true ∧ t = PyDate.midnight (dt_date t).
Proof.
  unfold Strptime.strptime.
  destruct (Strptime.regex_match s) as [[[[y m] d] [|? ?]]|]; try done.
  destruct (PyDate.valid (Date y m d)) eqn:E; [|done].
  intros [= <-]. done.
Qed.

(** Whatever [parse_date] returns is an existing date at midnight. *)
Lemma parse_date_midnight v t :
  parse_date v = Some t →
  PyDate.valid (dt_date t) = true ∧ t = PyDate.midnight (dt_date t).
Proof.
  unfold parse_date. destruct (_ || _)%bool; [done|]. apply strptime_midnight.
Qed.

Lemma split_head_app (s t : string) :
  PyStr.split_head "T" s = s →
  PyStr.split_head "T" (s +:+ String "T" t) = s.
Proof.
  induction s as [|c s IH]; rewrite ?app_cons, ?app_nil_l; cbn; [done|].
  destruct (Ascii.eqb c "T") eqn:E; [discriminate|].
  intros [= H]. by rewrite IH.
Qed.

Lemma startswith_0001_app (s t : string) :
  PyStr.split_head "T" s = s →
  PyStr.startswith "0001" (s +:+ String "T" t) = PyStr.startswith "0001" s.
Proof.
  destruct s as [|c1 [|c2 [|c3 [|c4 s]]]];
    rewrite ?app_cons, ?app_nil_l; cbn; intros Hs;
    repeat match goal with
      | |- context [Ascii.eqb ?a ?b] =>
          destruct (Ascii.eqb a b); cbn; try discriminate
      end; try reflexivity.
Qed.

(** A time-of-day suffix [T...] on a date string is dropped. *)
Lemma parse_date_time_suffix (s t : string) :
  PyStr.split_head "T" s = s →
  parse_date (PyStr (s +:+ String "T" t)) = parse_date (PyStr s).
Proof.
  intros Hs. unfold parse_date; cbn [Py.str Py.truthy].
  rewrite startswith_0001_app by done.
  rewrite split_head_app, Hs by done.
  destruct s as [|c s]; reflexivity.
Qed.

End StrFacts.

(* ===================================================================== *)
(** ** Which keys each step reads; the heap after the active/stale loop *)
(* ===================================================================== *)

Module Frame.

Ltac reads_tac :=
  let r := fresh "r" in
  let r' := fresh "r'" in
  let H := fresh "H" in
  intros r r' H;
  repeat match goal with
    | |- context [r !! ?k] => rewrite (H k) by set_solver
    end;
  reflexivity.

Lemma reads_weaken {A} (keys keys' : list string) (f : row → A) :
  keys ⊆ keys' → reads_only keys f → reads_only keys' f.
Proof. intros Hsub Hf r r' H. apply Hf. intros k Hk. apply H. set_solver. Qed.

Lemma reads_dict_get k : reads_only [k] (fun r => dict_get r k).
Proof. unfold reads_only, dict_get. reads_tac. Qed.

Lemma reads_dict_get_or k d : reads_only [k] (fun r => dict_get_or r k d).
Proof. unfold reads_only, dict_get_or. reads_tac. Qed.

Lemma reads_is_archived : reads_only ["HB.archived"] is_archived.
Proof. unfold reads_only, is_archived, dict_get. reads_tac. Qed.

Lemma reads_is_insured : reads_only ["HB.insured"] is_insured.
Proof. unfold reads_only, is_insured, dict_get. reads_tac. Qed.

Lemma reads_location_lower : reads_only ["HB.location"] location_lower.
Proof. unfold reads_only, location_lower, dict_get_or. reads_tac. Qed.

Lemma reads_sold_in_range s e :
  reads_only ["HB.sold_time"] (sold_in_range s e).
Proof. unfold reads_only, sold_in_range, dict_get. reads_tac. Qed.

Lemma reads_purchased_in_range s e :
  reads_only ["HB.purchase_time"] (purchased_in_range s e).
Proof. unfold reads_only, purchased_in_range, dict_get. reads_tac. Qed.

Lemma reads_classify s e :
  reads_only ["HB.sold_time"; "HB.labels"; "HB.location"] (classify s e).
Proof.
  unfold reads_only, classify, sold_in_range, dict_get, dict_get_or.
  reads_tac.
Qed.

Lemma reads_item_days_to_sell :
  reads_only ["HB.purchase_time"; "HB.sold_time"] item_days_to_sell.
Proof. unfold reads_only, item_days_to_sell, dict_get. reads_tac. Qed.

Lemma reads_is_active : reads_only ["HB.archived"; "HB.location"] is_active.
Proof.
  unfold reads_only, is_active, is_archived, location_lower, dict_get,
    dict_get_or.
  reads_tac.
Qed.

Lemma reads_stale_days now :
  reads_only ["HB.archived"; "HB.location"; "HB.purchase_time"]
    (stale_days now).
Proof.
  unfold reads_only, stale_days, is_active, is_archived, location_lower,
    dict_get, dict_get_or.
  reads_tac.
Qed.

Section Prices.
Variable float_of_str : string -> option float.

Lemma reads_purchase_price :
  reads_only ["HB.purchase_price"] (purchase_price float_of_str).
Proof. unfold reads_only, purchase_price, dict_get_or. reads_tac. Qed.

Lemma reads_sold_price :
  reads_only ["HB.sold_price"] (sold_price float_of_str).
Proof. unfold reads_only, sold_price, dict_get_or. reads_tac. Qed.
End Prices.

(** A function that does not read [k0] cannot tell two heaps apart that
    agree off [k0]. *)
Lemma reads_heap_agree {A} keys (f : row → A) k0 h h' l :
  reads_only keys f → k0 ∉ keys → heap_agree k0 h h' →
  f (deref h l) = f (deref h' l).
Proof.
  intros Hf Hk Hh. apply Hf. intros k Hin. apply Hh.
  intros ->. done.
Qed.

Lemma heap_agree_refl k0 h : heap_agree k0 h h.
Proof. by intros l k _. Qed.

Lemma heap_agree_trans k0 h1 h2 h3 :
  heap_agree k0 h1 h2 → heap_agree k0 h2 h3 → heap_agree k0 h1 h3.
Proof. intros H12 H23 l k Hk. by rewrite H12, H23. Qed.

Lemma deref_setitem h l k v l' :
  deref (setitem h l k v) l' =
  if decide (l = l') then <[k := v]> (deref h l) else deref h l'.
Proof.
  unfold setitem, deref at 1. rewrite lookup_insert.
  by destruct (decide (l = l')) as [->|].
Qed.

Lemma heap_agree_setitem h l k v : heap_agree k h (setitem h l k v).
Proof.
  intros l' k' Hk. rewrite deref_setitem.
  destruct (decide (l = l')) as [->|]; [|done].
  by rewrite lookup_insert_ne.
Qed.

Lemma sales_loop_agree k0 s e h h' rows :
  k0 ∉ ["HB.sold_time"; "HB.labels"; "HB.location"] →
  heap_agree k0 h h' →
  sales_loop s e h rows = sales_loop s e h' rows.
Proof.
  intros Hk Hh. induction rows as [|l ls IH]; [done|]. simpl.
  by rewrite IH, (reads_heap_agree _ _ _ _ _ l (reads_classify s e) Hk Hh).
Qed.

Lemma loss_items_agree k0 s e h h' rows :
  k0 ∉ ["HB.sold_time"; "HB.location"] →
  heap_agree k0 h h' →
  loss_items s e h rows = loss_items s e h' rows.
Proof.
  intros Hk Hh. unfold loss_items. apply list_filter_iff. intros l.
  rewrite (reads_heap_agree ["HB.sold_time"] _ k0 h h' l
             (reads_sold_in_range s e)) by set_solver.
  by rewrite (reads_heap_agree ["HB.location"] _ k0 h h' l
             (reads_dict_get_or "HB.location" (PyStr ""))) by set_solver.
Qed.

Lemma days_to_sell_agree k0 h h' products :
  k0 ∉ ["HB.purchase_time"; "HB.sold_time"] →
  heap_agree k0 h h' →
  days_to_sell h products = days_to_sell h' products.
Proof.
  intros Hk Hh. unfold days_to_sell.
  induction products as [|l ls IH]; [done|].
  csimpl.
  by rewrite IH, (reads_heap_agree _ _ _ _ _ l reads_item_days_to_sell Hk Hh).
Qed.

Lemma marketplace_items_agree k0 h h' rows :
  k0 ∉ ["HB.insured"; "HB.archived"] →
  heap_agree k0 h h' →
  marketplace_items h rows = marketplace_items h' rows.
Proof.
  intros Hk Hh. unfold marketplace_items. apply list_filter_iff. intros l.
  rewrite (reads_heap_agree ["HB.insured"] _ k0 h h' l reads_is_insured)
    by set_solver.
  by rewrite (reads_heap_agree ["HB.archived"] _ k0 h h' l reads_is_archived)
    by set_solver.
Qed.

(** *** The active/stale loop *)

Lemma heap_agree_stale_step now h l :
  heap_agree "days_held" h (stale_step now h l).
Proof.
  unfold stale_step. destruct (stale_days _ _).
  - apply heap_agree_setitem.
  - apply heap_agree_refl.
Qed.

Lemma inventory_loop_cons now h l ls :
  inventory_loop now h (l :: ls) =
  let '(active, stale, h') := inventory_loop now (stale_step now h l) ls in
  (if is_active (deref h l) then l :: active else active,
   if bool_decide (is_Some (stale_days now (deref h l)))
   then l :: stale else stale,
   h').
Proof.
  cbn [inventory_loop]. unfold stale_step, stale_days, is_active.
  destruct (is_archived (deref h l)); cbn [negb andb].
  { by destruct (inventory_loop now h ls) as [[? ?] ?]. }
  destruct (PyStr.contains_any _ (location_lower (deref h l)));
    cbn [negb andb].
  { by destruct (inventory_loop now h ls) as [[? ?] ?]. }
  destruct (parse_date _) as [p|].
  - cbv zeta. destruct (90 <? _);
      by destruct (inventory_loop now _ ls) as [[? ?] ?].
  - by destruct (inventory_loop now h ls) as [[? ?] ?].
Qed.

Lemma active_agree h h' l :
  heap_agree "days_held" h h' → is_active (deref h l) = is_active (deref h' l).
Proof.
  intros. eapply reads_heap_agree; [apply reads_is_active| |done]. set_solver.
Qed.

Lemma stale_days_agree now h h' l :
  heap_agree "days_held" h h' →
  stale_days now (deref h l) = stale_days now (deref h' l).
Proof.
  intros. eapply reads_heap_agree; [apply reads_stale_days| |done]. set_solver.
Qed.

(** What the loop returns, in terms of the heap it started from: the two
    lists are filters of [rows], and the only change to the heap is the
    key [days_held] on the stale rows. *)
Lemma inventory_loop_spec now rows : ∀ h,
  ∃ h',
    inventory_loop now h rows =
      (filter (fun l => is_active (deref h l) = true) rows,
       filter (fun l => is_Some (stale_days now (deref h l))) rows,
       h')
    ∧ heap_agree "days_held" h h'
    ∧ (∀ l, l ∉ filter (fun l => is_Some (stale_days now (deref h l))) rows →
            h' !! l = h !! l)
    ∧ (∀ l d, l ∈ rows → stale_days now (deref h l) = Some d →
              deref h' l = <["days_held" := PyInt d]> (deref h l)).
Proof.
  induction rows as [|l0 ls IH]; intros h.
  - exists h. split; [done|]. split; [apply heap_agree_refl|].
    split; [done|]. intros l d Hl. by apply not_elem_of_nil in Hl.
  - destruct (IH (stale_step now h l0)) as (h' & Heq & Hagree & Hout & Hin).
    pose proof (heap_agree_stale_step now h l0) as Hstep.
    exists h'. rewrite inventory_loop_cons, Heq.
    assert (Hact : filter (fun l => is_active (deref (stale_step now h l0) l) = true) ls
                   = filter (fun l => is_active (deref h l) = true) ls).
    { apply list_filter_iff. intros l. by rewrite <- (active_agree h _ l Hstep). }
    assert (Hst : filter (fun l => is_Some (stale_days now (deref (stale_step now h l0) l))) ls
                  = filter (fun l => is_Some (stale_days now (deref h l))) ls).
    { apply list_filter_iff. intros l. by rewrite <- (stale_days_agree now h _ l Hstep). }
    rewrite Hact, Hst in *. clear Hact.
    split; [|split; [|split]].
    + rewrite !filter_cons. do 2 f_equal.
      * destruct (is_active (deref h l0)); by case_decide.
      * by destruct (stale_days now (deref h l0)).
    + by eapply heap_agree_trans.
    + intros l Hl. rewrite filter_cons in Hl.
      rewrite Hout.
      * unfold stale_step.
        destruct (stale_days now (deref h l0)) as [d|] eqn:Es; [|done].
        unfold setitem. rewrite lookup_insert_ne; [done|].
        intros ->. apply Hl.
        rewrite decide_True by eauto. apply list_elem_of_here.
      * intros Hl'. apply Hl. case_decide; [by apply list_elem_of_further|done].
    + intros l d Hl Hd.
      destruct (decide (l ∈ ls)) as [Hls|Hls].
      * assert (Hd' : stale_days now (deref (stale_step now h l0) l) = Some d).
        { by rewrite <- (stale_days_agree now h _ l Hstep). }
        rewrite (Hin l d Hls Hd').
        unfold stale_step.
        destruct (stale_days now (deref h l0)) as [d0|] eqn:Es; [|done].
        rewrite deref_setitem. destruct (decide (l0 = l)) as [->|]; [|done].
        rewrite Es in Hd. injection Hd as ->. by rewrite insert_insert_eq.
      * assert (l = l0) as ->.
        { apply elem_of_cons in Hl as [?|?]; [done|contradiction]. }
        unfold deref at 1. rewrite Hout.
        2:{ rewrite list_elem_of_filter. tauto. }
        fold (deref (stale_step now h l0) l0).
        unfold stale_step. rewrite Hd, deref_setitem. by rewrite decide_True.
Qed.

End Frame.

(* ===================================================================== *)
(** ** The returned dict *)
(* ===================================================================== *)

Section Report.

Variable float_of_str : string -> option float.
Variable float_sum : list float -> float.


(** The call returns exactly when its first loop does not raise. *)
Lemma analyze_inv now h rows s e rep h' :
  analyze_homebox_rows float_of_str float_sum now h rows s e = Ok (rep, h') →
  ∃ v,
    run_locals float_of_str float_sum now h rows s e = Ok (v, h')
       ∧ rep = dict_display (report_items s e v).
Proof.
  unfold analyze_homebox_rows.
  destruct (run_locals float_of_str float_sum now h rows s e)
    as [[v h1]|x]; simpl; [|done].
  intros [= <- <-]. by exists v.
Qed.

(** The local variables in terms of the rows and of the heap the call
    started from. *)
Lemma run_locals_ok now h rows s e products services :
  sales_loop s e h rows = Ok (products, services) →
  ∃ v h',
    run_locals float_of_str float_sum now h rows s e = Ok (v, h')
    ∧ month_sales_products v = products
    ∧ month_sales_services v = services
    ∧ with_cost v = items_with_cost float_of_str h products
    ∧ free v = free_items float_of_str h products
    ∧ avg_roi v =
        mean_or_zero (py_sum float_sum (roi_values float_of_str h (with_cost v)))
          (roi_values float_of_str h (with_cost v))
    ∧ losses v = loss_items s e h rows
    ∧ assets v = business_assets h rows
    ∧ active_inventory v = filter (fun l => is_active (deref h l) = true) rows
    ∧ stale_inventory v ≡ₚ
        filter (fun l => is_Some (stale_days now (deref h l))) rows
    ∧ marketplace v = marketplace_items h rows
    ∧ days v = days_to_sell h products
    ∧ avg_days v = mean_or_zero (PInt (Py.sum_int (days v))) (days v)
    ∧ flips v = quick_flips (days v)
    ∧ inv_by_loc v = inventory_by_location float_of_str h' rows
    ∧ heap_agree "days_held" h h'
    ∧ (∀ l, l ∉ stale_inventory v → h' !! l = h !! l)
    ∧ (∀ l d, l ∈ rows → stale_days now (deref h l) = Some d →
              deref h' l = <["days_held" := PyInt d]> (deref h l)).
Proof.
  intros Hsales. unfold run_locals. rewrite Hsales. simpl.
  destruct (Frame.inventory_loop_spec now rows h)
    as (h' & -> & Hagree & Hout & Hin).
  assert (Hperm : ∀ key l, sort_desc key l ≡ₚ l).
  { intros key l. induction l as [|x l IH]; [done|]. simpl.
    rewrite <- IH at 2. generalize (sort_desc key l). clear.
    intros l. induction l as [|y l IH]; [done|]. simpl.
    destruct (key x <? key y); [|done].
    rewrite IH. apply Permutation_swap. }
  eexists _, h'. split; [reflexivity|]. simpl.
  repeat split; try done.
  - symmetry.
    apply (Frame.marketplace_items_agree "days_held"); [set_solver|done].
  - symmetry.
    apply (Frame.days_to_sell_agree "days_held"); [set_solver|done].
  - intros l Hl. apply Hout. by rewrite <- (Hperm (days_held_key h')).
Qed.

(** The entries of the dict, by key. *)
Lemma report_lookup s e v :
  let rep := dict_display (report_items s e v) in
  rep !! "product_revenue" = Some (RNum (total_revenue v))
  ∧ rep !! "service_revenue" = Some (RNum (service_revenue v))
  ∧ rep !! "net_profit" = Some (RNum (net_profit v))
  ∧ rep !! "total_revenue"
    = Some (RNum (Py.add (total_revenue v) (service_revenue v)))
  ∧ rep !! "total_profit"
    = Some (RNum (Py.add (net_profit v) (service_revenue v)))
  ∧ rep !! "avg_roi" = Some (RNum (avg_roi v))
  ∧ rep !! "avg_sale_price"
    = Some (RNum (mean_or_zero (total_revenue v) (month_sales_products v)))
  ∧ rep !! "avg_profit_per_item"
    = Some (RNum (mean_or_zero (net_profit v) (month_sales_products v)))
  ∧ rep !! "avg_days_to_sell" = Some (RNum (avg_days v))
  ∧ rep !! "quick_flips" = Some (RNum (PInt (flips v)))
  ∧ rep !! "fastest_sale" = Some (RNum (min_or_zero (days v)))
  ∧ rep !! "slowest_sale" = Some (RNum (max_or_zero (days v)))
  ∧ rep !! "month_sales" = Some (RRows (month_sales_products v))
  ∧ rep !! "other_income_items" = Some (RRows (month_sales_services v))
  ∧ rep !! "stale_inventory" = Some (RRows (stale_inventory v))
  ∧ rep !! "items_with_cost" = Some (RRows (with_cost v))
  ∧ rep !! "free_items" = Some (RRows (free v))
  ∧ rep !! "business_assets" = Some (RRows (assets v)).
Proof. repeat split; reflexivity. Qed.

(** Every count that reaches the caller is the length of its list. *)
Lemma report_counts s e v :
  let rep := dict_display (report_items s e v) in
  rep !! "items_sold" = Some (RNum (PInt (Py.len (month_sales_products v))))
  ∧ rep !! "free_items_count" = Some (RNum (PInt (Py.len (free v))))
  ∧ rep !! "loss_count" = Some (RNum (PInt (Py.len (losses v))))
  ∧ rep !! "stale_count" = Some (RNum (PInt (Py.len (stale_inventory v))))
  ∧ rep !! "business_assets_count" = Some (RNum (PInt (Py.len (assets v))))
  ∧ rep !! "marketplace_count" = Some (RNum (PInt (Py.len (marketplace v))))
  ∧ rep !! "total_active_count"
    = Some (RNum (PInt (Py.len (active_inventory v)))).
Proof. repeat split; reflexivity. Qed.


(** C6: once the first loop has produced its two lists, the call returns,
    and every average or extreme whose underlying list is empty is the
    [int] 0: [avg_roi] when no product sale has a cost, [avg_sale_price]
    and [avg_profit_per_item] when there is no product sale,
    [avg_days_to_sell], [fastest_sale] and [slowest_sale] when no product
    sale has both dates. *)
Theorem empty_averages_are_zero now h rows s e products services :
  sales_loop s e h rows = Ok (products, services) →
  ∃ rep h',
    analyze_homebox_rows float_of_str float_sum now h rows s e = Ok (rep, h')
    ∧ (items_with_cost float_of_str h products = [] →
       rep !! "avg_roi" = Some (RNum (PInt 0)))
    ∧ (products = [] →
       rep !! "avg_sale_price" = Some (RNum (PInt 0))
       ∧ rep !! "avg_profit_per_item" = Some (RNum (PInt 0)))
    ∧ (days_to_sell h products = [] →
       rep !! "avg_days_to_sell" = Some (RNum (PInt 0))
       ∧ rep !! "fastest_sale" = Some (RNum (PInt 0))
       ∧ rep !! "slowest_sale" = Some (RNum (PInt 0))).
Proof.
  intros Hsales.
  destruct (run_locals_ok now h rows s e _ _ Hsales)
    as (v & h' & Hrun & Hp & _ & Hwc & _ & Hroi & _ & _ & _ & _ & _ & Hd
        & Havg & _).
  exists (dict_display (report_items s e v)), h'.
  split; [unfold analyze_homebox_rows; by rewrite Hrun|].
  pose proof (report_lookup s e v) as L. cbv zeta in L.
  destruct L as (_ & _ & _ & _ & _ & Lroi & Lsale & Lprofit & Lavg & _
                 & Lmin & Lmax & _).
  split; [|split].
  - intros Hnil. rewrite Lroi, Hroi, Hwc, Hnil. reflexivity.
  - intros ->. rewrite Lsale, Lprofit, Hp. split; reflexivity.
  - intros Hnil. rewrite Lavg, Lmin, Lmax, Havg, Hd, Hnil.
    repeat split; reflexivity.
Qed.

End Report.

(* ===================================================================== *)
(** ** Date-range membership *)
(* ===================================================================== *)

(** C7: for a row whose [sold_time] parses to [d], and a range whose bounds
    are existing dates, membership is decided by the calendar days alone:
    it holds exactly when the day of [d] lies between the days of the two
    bounds; a sale on the day of [start_date] or of [end_date] is in range
    (the contract [start_date <= end_date] assumed); a sale one day before
    [start_date] or one day after [end_date] is not; the times of day of the
    bounds play no role, and a time-of-day suffix of [sold_time] is dropped
    by [parse_date]. *)
Theorem range_is_inclusive_by_day (start_date end_date : datetime)
    (r : row) (d : datetime) :
  PyDate.valid (dt_date start_date) = true →
  PyDate.valid (dt_date end_date) = true →
  parse_date (dict_get r "HB.sold_time") = Some d →
  (sold_in_range start_date end_date r = true ↔
   PyDate.toordinal (dt_date start_date) <= PyDate.toordinal (dt_date d)
   <= PyDate.toordinal (dt_date end_date))
  ∧ (PyDate.leb (dt_date start_date) (dt_date end_date) = true →
     dt_date d = dt_date start_date ∨ dt_date d = dt_date end_date →
     sold_in_range start_date end_date r = true)
  ∧ (PyDate.toordinal (dt_date d) = PyDate.toordinal (dt_date start_date) - 1 ∨
     PyDate.toordinal (dt_date d) = PyDate.toordinal (dt_date end_date) + 1 →
     sold_in_range start_date end_date r = false)
  ∧ (∀ t1 t2,
       sold_in_range (DateTime (dt_date start_date) t1)
         (DateTime (dt_date end_date) t2) r
       = sold_in_range start_date end_date r)
  ∧ (∀ s t, PyStr.split_head "T" s = s →
            parse_date (PyStr (s +:+ String "T" t)) = parse_date (PyStr s)).
Proof.
  intros Hs He Hd.
  destruct (StrFacts.parse_date_midnight _ _ Hd) as [Hv _].
  assert (Hiff : sold_in_range start_date end_date r = true ↔
                 PyDate.toordinal (dt_date start_date)
                 <= PyDate.toordinal (dt_date d)
                 <= PyDate.toordinal (dt_date end_date)).
  { unfold sold_in_range, dated_in_range, is_in_range. rewrite Hd.
    rewrite bool_decide_eq_true_2 by eauto. simpl.
    rewrite andb_true_iff, !DateFacts.leb_toordinal by done. done. }
  split; [done|]. split; [|split; [|split]].
  - intros Hle Heq. apply Hiff.
    apply DateFacts.leb_toordinal in Hle; [|done..].
    destruct Heq as [-> | ->]; lia.
  - intros Hout. apply not_true_is_false. intros E. apply Hiff in E. lia.
  - reflexivity.
  - apply StrFacts.parse_date_time_suffix.
Qed.

Lemma range_is_inclusive_by_day_witness :
  PyDate.valid (dt_date Sample.nov_start) = true
  ∧ PyDate.valid (dt_date Sample.nov_end) = true
  ∧ parse_date (dict_get Sample.last_day_item "HB.sold_time")
    = Some (DateTime (Date 2025 11 30) 0)
  ∧ sold_in_range Sample.nov_start Sample.nov_end Sample.last_day_item = true.
Proof.
  assert (Hs : PyDate.valid (dt_date Sample.nov_start) = true)
    by (vm_compute; reflexivity).
  assert (He : PyDate.valid (dt_date Sample.nov_end) = true)
    by (vm_compute; reflexivity).
  assert (Hd : parse_date (dict_get Sample.last_day_item "HB.sold_time")
               = Some (DateTime (Date 2025 11 30) 0))
    by (vm_compute; reflexivity).
  split; [exact Hs|]. split; [exact He|]. split; [exact Hd|].
  destruct (range_is_inclusive_by_day Sample.nov_start Sample.nov_end
              Sample.last_day_item (DateTime (Date 2025 11 30) 0)
              Hs He Hd) as (_ & Hbound & _).
  apply Hbound; [vm_compute; reflexivity|right; reflexivity].
Defined.

(* ===================================================================== *)
(** ** Service or product *)
(* ===================================================================== *)

(** What [is_service] tests: three keywords in the labels, two in the
    location. *)
Lemma is_service_spec labels location :
  is_service labels location = true ↔
  (∃ kw, kw ∈ ["service"; "labor"; "other income"]
         ∧ PyStr.contains kw labels = true)
  ∨ (∃ kw, kw ∈ ["service"; "other income"]
           ∧ PyStr.contains kw location = true).
Proof.
  unfold is_service. rewrite !orb_true_iff. split.
  - intros [[[[H|H]|H]|H]|H]; [left|left|left|right|right];
      eexists; (split; [|exact H]); set_solver.
  - intros [(kw & Hin & H)|(kw & Hin & H)];
      repeat (apply elem_of_cons in Hin as [->|Hin]; [tauto|]);
      by apply elem_of_nil in Hin.
Qed.

(** C1: a sale of November 2025 whose location reads "Labor / November
    2025" and whose labels are empty.  Its lower-cased location contains
    "labor", yet [is_service] is false on it: the call lists the row in
    [month_sales], not in [other_income_items], and books its price as
    product revenue. *)
Theorem labor_location_is_a_product_sale :
  PyStr.contains "labor"
    (PyStr.lower (Py.str (dict_get Sample.labor_item "HB.location"))) = true
  ∧ sold_in_range Sample.nov_start Sample.nov_end Sample.labor_item = true
  ∧ classify Sample.nov_start Sample.nov_end Sample.labor_item = Ok ProductSale
  ∧ Sample.report_of [Sample.labor_item] !! "month_sales" = Some (RRows [0%nat])
  ∧ Sample.report_of [Sample.labor_item] !! "other_income_items"
    = Some (RRows [])
  ∧ Sample.report_of [Sample.labor_item] !! "service_revenue"
    = Some (RNum (PInt 0))
  ∧ Sample.report_of [Sample.labor_item] !! "product_revenue"
    = Some (RNum (PFloat 80)).
Proof. vm_compute. repeat split; reflexivity. Qed.

(* ===================================================================== *)
(** ** Counts *)
(* ===================================================================== *)

(** C5: one product sale with a cost.  The dict display writes the key
    [items_with_cost] twice, first with [len(items_with_cost)] and later
    with the list; the returned dict holds the list under that key and no
    count of the items with a cost anywhere.  The other counts are the
    lengths of their lists. *)
Theorem items_with_cost_count_is_overwritten :
  Sample.report_of [Sample.sold_item] !! "items_with_cost"
  = Some (RRows [0%nat])
  ∧ Sample.report_of [Sample.sold_item] !! "items_with_cost"
    ≠ Some (RNum (PInt 1))
  ∧ Sample.report_of [Sample.sold_item] !! "items_with_cost_count" = None
  ∧ Sample.report_of [Sample.sold_item] !! "items_sold" = Some (RNum (PInt 1))
  ∧ Sample.report_of [Sample.sold_item] !! "free_items_count"
    = Some (RNum (PInt 0)).
Proof. vm_compute. repeat split; try reflexivity. discriminate. Qed.

(* ===================================================================== *)
(** ** Null text fields *)
(* ===================================================================== *)

(** [parse_float] on what a missing, null, empty or non-numeric field
    yields. *)
Lemma parse_float_degrades float_of_str s :
  parse_float float_of_str PyNone = 0%float
  ∧ parse_float float_of_str (PyInt 0) = 0%float
  ∧ parse_float float_of_str (PyStr "") = 0%float
  ∧ (float_of_str s = None → parse_float float_of_str (PyStr s) = 0%float).
Proof.
  repeat split; try reflexivity.
  intros H. unfold parse_float. destruct (Py.truthy (PyStr s)); [|done].
  by rewrite H.
Qed.

(** The first loop raises only on a row it has to classify. *)
Lemma classify_ok_on_str s e (r : row) labels location :
  r !! "HB.labels" = Some (PyStr labels) ∨ r !! "HB.labels" = None →
  r !! "HB.location" = Some (PyStr location) ∨ r !! "HB.location" = None →
  ∃ k, classify s e r = Ok k.
Proof.
  intros Hl Hloc. unfold classify, dict_get_or.
  destruct (sold_in_range s e r); [|by eexists].
  destruct Hl as [-> | ->], Hloc as [-> | ->]; simpl; by eexists.
Qed.

(** C8: a sale of November 2025 whose [labels] field is null.  The first
    loop calls [.lower()] on the value of the field and the whole call
    raises [AttributeError]; nothing is returned. *)
Theorem null_labels_raise :
  Sample.null_labels_item !! "HB.labels" = Some PyNone
  ∧ sold_in_range Sample.nov_start Sample.nov_end Sample.null_labels_item = true
  ∧ Sample.run [Sample.null_labels_item] = Raise AttributeError.
Proof. vm_compute. repeat split; reflexivity. Qed.

(* ===================================================================== *)
(** ** Sales and the archived flag *)
(* ===================================================================== *)



(* ===================================================================== *)
(** ** What the call writes *)
(* ===================================================================== *)

Section Writes.

Variable float_of_str : string -> option float.
Variable float_sum : list float -> float.


Lemma sales_loop_subset s e h rows products services :
  sales_loop s e h rows = Ok (products, services) →
  products ⊆ rows ∧ services ⊆ rows.
Proof.
  revert products services.
  induction rows as [|l ls IH]; intros products services; simpl.
  - intros [= <- <-]. done.
  - destruct (classify s e (deref h l)) as [k|]; [|done]. simpl.
    destruct (sales_loop s e h ls) as [[p sv]|]; [|done]. simpl.
    destruct (IH p sv eq_refl) as [Hp Hs].
    destruct k; intros [= <- <-]; set_solver.
Qed.

Lemma run_locals_sales now h rows s e v h' :
  run_locals float_of_str float_sum now h rows s e = Ok (v, h') →
  sales_loop s e h rows
  = Ok (month_sales_products v, month_sales_services v).
Proof.
  intros Hrun.
  destruct (sales_loop s e h rows) as [[p sv]|x] eqn:Hsales.
  - destruct (run_locals_ok float_of_str float_sum now h rows s e p sv Hsales)
      as (v0 & h0 & Hrun0 & <- & <- & _).
    rewrite Hrun in Hrun0. by injection Hrun0 as <- <-.
  - unfold run_locals in Hrun. by rewrite Hsales in Hrun.
Qed.

Lemma stale_days_gt now r d : stale_days now r = Some d → 90 < d.
Proof.
  unfold stale_days. destruct (is_active r); [|done].
  destruct (parse_date _); [|done]. cbv zeta.
  destruct (Z.ltb_spec 90 (PyDate.sub_days now d0)); [|done].
  by intros [= <-].
Qed.

(** The sort key of every stale row is the [int] the loop stored. *)
Lemma stale_key_is_int now h rows s e v h' l :
  run_locals float_of_str float_sum now h rows s e = Ok (v, h') →
  l ∈ stale_inventory v →
  ∃ d, stale_days now (deref h l) = Some d
       ∧ dict_get_or (deref h' l) "days_held" (PyInt 0) = PyInt d
       ∧ days_held_key h' l = d.
Proof.
  intros Hrun Hl.
  pose proof (run_locals_sales _ _ _ _ _ _ _ Hrun) as Hsales.
  destruct (run_locals_ok float_of_str float_sum now h rows s e _ _ Hsales)
    as (v0 & h0 & Hrun0 & _ & _ & _ & _ & _ & _ & _ & _ & Hstale
        & _ & _ & _ & _ & _ & _ & _ & Hin).
  rewrite Hrun in Hrun0. injection Hrun0 as <- <-.
  rewrite Hstale in Hl. apply list_elem_of_filter in Hl as [[d Hd] Hrows].
  exists d. split; [done|].
  unfold days_held_key, dict_get_or. rewrite (Hin l d Hrows Hd).
  by rewrite lookup_insert_eq.
Qed.

(** C3, amended: the call writes into the rows it is given, but only the
    key [days_held], and only on the rows it reports as stale.  Each stale
    row is one of the caller's rows and ends as the caller's row with
    [days_held] set to an [int] above 90; a row that is not reported stale
    is the same object with the same content; on every row every key other
    than [days_held] keeps its value; and the row lists of the report are
    made of the caller's own references. *)
Theorem writes_only_days_held now h rows s e rep h' :
  analyze_homebox_rows float_of_str float_sum now h rows s e = Ok (rep, h') →
  ∃ stale,
    rep !! "stale_inventory" = Some (RRows stale)
    ∧ (∀ l, l ∈ stale →
            l ∈ rows ∧
            ∃ d, 90 < d ∧
                 deref h' l = <["days_held" := PyInt d]> (deref h l))
    ∧ (∀ l, l ∉ stale → h' !! l = h !! l)
    ∧ (∀ l k, k ≠ "days_held" → deref h' l !! k = deref h l !! k)
    ∧ Forall (fun key => ∀ ls, rep !! key = Some (RRows ls) → ls ⊆ rows)
        ["month_sales"; "other_income_items"; "items_with_cost";
         "free_items"; "business_assets"; "stale_inventory"].
Proof.
  intros Hrun. apply analyze_inv in Hrun as (v & Hrun & ->).
  pose proof (run_locals_sales _ _ _ _ _ _ _ Hrun) as Hsales.
  destruct (run_locals_ok float_of_str float_sum now h rows s e _ _ Hsales)
    as (v0 & h0 & Hrun0 & _ & _ & Hwc & Hfree & _ & _ & Hassets & _ & Hstale
        & _ & _ & _ & _ & _ & Hagree & Hout & Hin).
  rewrite Hrun in Hrun0. injection Hrun0 as <- <-.
  destruct (sales_loop_subset _ _ _ _ _ _ Hsales) as [Hp Hsv].
  assert (Hst : ∀ l, l ∈ stale_inventory v →
                     l ∈ rows ∧ is_Some (stale_days now (deref h l))).
  { intros l Hl. rewrite Hstale in Hl.
    apply list_elem_of_filter in Hl. tauto. }
  exists (stale_inventory v). split; [reflexivity|].
  split; [|split; [|split]].
  - intros l Hl. destruct (Hst l Hl) as [Hrows [d Hd]].
    split; [done|]. exists d. split; [by eapply stale_days_gt|].
    by apply Hin.
  - done.
  - intros l k Hk. symmetry. by apply Hagree.
  - pose proof (report_lookup s e v) as L. cbv zeta in L.
    destruct L as (_ & _ & _ & _ & _ & _ & _ & _ & _ & _ & _ & _ & Lsales
                   & Lserv & Lstale & Lwc & Lfree & Lassets).
    repeat (apply Forall_cons; split); [| | | | | |by apply Forall_nil];
      intros ls Hrep.
    + rewrite Lsales in Hrep. by injection Hrep as <-.
    + rewrite Lserv in Hrep. by injection Hrep as <-.
    + rewrite Lwc in Hrep. injection Hrep as <-.
      rewrite Hwc. intros l Hl. apply Hp.
      unfold items_with_cost in Hl. apply list_elem_of_filter in Hl. tauto.
    + rewrite Lfree in Hrep. injection Hrep as <-.
      rewrite Hfree. intros l Hl. apply Hp.
      unfold free_items in Hl. apply list_elem_of_filter in Hl. tauto.
    + rewrite Lassets in Hrep. injection Hrep as <-.
      rewrite Hassets. intros l Hl.
      unfold business_assets in Hl. apply list_elem_of_filter in Hl. tauto.
    + rewrite Lstale in Hrep. injection Hrep as <-.
      intros l Hl. by apply Hst.
Qed.

End Writes.

(* ===================================================================== *)
(** ** The theorems above on sample inputs *)
(* ===================================================================== *)

(** A sample call that returns, returns [report_of] and [heap_after]. *)
Lemma sample_run_returns items :
  returns (Sample.run items) = true →
  analyze_homebox_rows Builtins.float_of_str Builtins.float_sum Sample.now
    (Sample.heap_of items) (Sample.refs items) Sample.nov_start Sample.nov_end
  = Ok (Sample.report_of items, Sample.heap_after items).
Proof.
  unfold Sample.report_of, Sample.heap_after.
  change (analyze_homebox_rows Builtins.float_of_str Builtins.float_sum
            Sample.now (Sample.heap_of items) (Sample.refs items)
            Sample.nov_start Sample.nov_end) with (Sample.run items).
  destruct (Sample.run items) as [[rep h]|x]; [done|discriminate].
Qed.


Lemma empty_averages_are_zero_witness :
  let items := [Sample.stale_item] in
  sales_loop Sample.nov_start Sample.nov_end (Sample.heap_of items)
    (Sample.refs items) = Ok ([], [])
  ∧ ∃ rep h',
      analyze_homebox_rows Builtins.float_of_str Builtins.float_sum Sample.now
        (Sample.heap_of items) (Sample.refs items)
        Sample.nov_start Sample.nov_end = Ok (rep, h')
      ∧ rep !! "avg_roi" = Some (RNum (PInt 0))
      ∧ rep !! "avg_sale_price" = Some (RNum (PInt 0))
      ∧ rep !! "avg_days_to_sell" = Some (RNum (PInt 0))
      ∧ rep !! "fastest_sale" = Some (RNum (PInt 0)).
Proof.
  cbv zeta.
  assert (Hsales :
    sales_loop Sample.nov_start Sample.nov_end
      (Sample.heap_of [Sample.stale_item]) (Sample.refs [Sample.stale_item])
    = Ok ([], [])) by (vm_compute; reflexivity).
  split; [exact Hsales|].
  destruct (empty_averages_are_zero Builtins.float_of_str Builtins.float_sum
              Sample.now _ _ _ _ _ _ Hsales)
    as (rep & h' & Hrun & Hroi & Hsale & Hdays).
  exists rep, h'. split; [exact Hrun|].
  split; [apply Hroi; reflexivity|].
  split; [apply Hsale; reflexivity|].
  split; apply Hdays; reflexivity.
Defined.

(** C3, as stated, fails: the stale row of the caller has no [days_held]
    before the call and holds [days_held = 334] after it, and the
    [stale_inventory] of the report is the caller's reference itself. *)
Lemma caller_row_is_written :
  let items := [Sample.stale_item] in
  deref (Sample.heap_of items) 0%nat !! "days_held" = None
  ∧ returns (Sample.run items) = true
  ∧ deref (Sample.heap_after items) 0%nat !! "days_held" = Some (PyInt 334)
  ∧ Sample.heap_after items ≠ Sample.heap_of items
  ∧ Sample.report_of items !! "stale_inventory" = Some (RRows [0%nat]).
Proof.
  cbv zeta.
  assert (Hafter : deref (Sample.heap_after [Sample.stale_item]) 0%nat
                   !! "days_held" = Some (PyInt 334))
    by (vm_compute; reflexivity).
  assert (Hbefore : deref (Sample.heap_of [Sample.stale_item]) 0%nat
                    !! "days_held" = None)
    by (vm_compute; reflexivity).
  split; [exact Hbefore|]. split; [vm_compute; reflexivity|].
  split; [exact Hafter|]. split; [|vm_compute; reflexivity].
  intros Heq. rewrite Heq, Hbefore in Hafter. discriminate.
Qed.

Lemma writes_only_days_held_witness :
  let items := [Sample.stale_item; Sample.sold_item] in
  analyze_homebox_rows Builtins.float_of_str Builtins.float_sum Sample.now
    (Sample.heap_of items) (Sample.refs items) Sample.nov_start Sample.nov_end
  = Ok (Sample.report_of items, Sample.heap_after items)
  ∧ ∃ stale,
      Sample.report_of items !! "stale_inventory" = Some (RRows stale)
      ∧ (∀ l, l ∉ stale → Sample.heap_after items !! l
                          = Sample.heap_of items !! l)
      ∧ (∀ l k, k ≠ "days_held" →
                deref (Sample.heap_after items) l !! k
                = deref (Sample.heap_of items) l !! k).
Proof.
  cbv zeta.
  assert (Hok : returns (Sample.run [Sample.stale_item; Sample.sold_item]) = true)
    by (vm_compute; reflexivity).
  pose proof (sample_run_returns _ Hok) as Hrun.
  split; [exact Hrun|].
  destruct (writes_only_days_held _ _ _ _ _ _ _ _ _ Hrun)
    as (stale & Hrep & _ & Hout & Hkeys & _).
  exists stale. split; [exact Hrep|]. split; [exact Hout|exact Hkeys].
Defined.

(* ===================================================================== *)
(** ** Sales velocity *)
(* ===================================================================== *)

Module Velocity.

Lemma fold_add_shift (l : list Z) (x : Z) :
  fold_left Z.add l x = x + fold_left Z.add l 0.
Proof.
  revert x. induction l as [|y l IH]; intros x; cbn [fold_left]; [lia|].
  rewrite (IH (x + y)), (IH (0 + y)). lia.
Qed.

Lemma sum_int_app (a b : list Z) :
  Py.sum_int (a ++ b) = Py.sum_int a + Py.sum_int b.
Proof.
  unfold Py.sum_int. rewrite fold_left_app.
  by rewrite (fold_add_shift b (fold_left Z.add a 0)).
Qed.

Lemma sum_int_cons (d : Z) (b : list Z) :
  Py.sum_int (d :: b) = d + Py.sum_int b.
Proof.
  unfold Py.sum_int. cbn [fold_left].
  rewrite (fold_add_shift b (0 + d)). lia.
Qed.

Lemma sum_int_insert (a b : list Z) (d : Z) :
  Py.sum_int (a ++ d :: b) = Py.sum_int (a ++ b) + d.
Proof. rewrite !sum_int_app, sum_int_cons. lia. Qed.

Lemma sum_int_nonneg (l : list Z) :
  Forall (fun x => 0 <= x) l → 0 <= Py.sum_int l.
Proof.
  induction 1 as [|x l Hx _ IH]; [done|]. rewrite sum_int_cons. lia.
Qed.

Lemma len_insert {A} (a b : list A) (d : A) :
  Py.len (a ++ d :: b) = Py.len (a ++ b) + 1.
Proof. unfold Py.len. rewrite !length_app. simpl. lia. Qed.

Lemma mean_insert {A} (total : pynum) (a b : list A) (d : A) :
  mean_or_zero total (a ++ d :: b)
  = Py.truediv total (PInt (Py.len (a ++ d :: b))).
Proof. by destruct a. Qed.

Lemma quick_flips_insert (a b : list Z) (d : Z) :
  d <= 14 → quick_flips (a ++ d :: b) = quick_flips (a ++ b) + 1.
Proof.
  intros Hd. unfold quick_flips.
  rewrite !filter_app, filter_cons_True by done. apply len_insert.
Qed.

Lemma fold_min_le (l : list Z) (x : Z) :
  fold_left Z.min l x <= x ∧ ∀ y, y ∈ l → fold_left Z.min l x <= y.
Proof.
  revert x. induction l as [|z l IH]; intros x; simpl.
  - split; [lia|]. intros y Hy. by apply elem_of_nil in Hy.
  - destruct (IH (Z.min x z)) as [H1 H2]. split; [lia|].
    intros y Hy. apply elem_of_cons in Hy as [->|Hy]; [lia|by apply H2].
Qed.

(** [min(days)] is at most every element of [days]. *)
Lemma min_or_zero_le (l : list Z) (d : Z) :
  d ∈ l → ∃ m, min_or_zero l = PInt m ∧ m <= d.
Proof.
  destruct l as [|x l]; [intros H; by apply elem_of_nil in H|].
  intros Hd. eexists. split; [reflexivity|].
  destruct (fold_min_le l x) as [H1 H2].
  apply elem_of_cons in Hd as [->|Hd]; [done|by apply H2].
Qed.

Lemma days_to_sell_insert h pre l post d :
  item_days_to_sell (deref h l) = Some d →
  days_to_sell h (pre ++ l :: post)
  = (days_to_sell h pre ++ d :: days_to_sell h post)%list.
Proof.
  intros Hd. unfold days_to_sell. rewrite omap_app. csimpl. by rewrite Hd.
Qed.

(** A sale dated before its purchase has a negative [days_to_sell]. *)
Lemma early_sale_negative (r : row) p sd :
  parse_date (dict_get r "HB.purchase_time") = Some p →
  parse_date (dict_get r "HB.sold_time") = Some sd →
  PyDate.ltb (dt_date sd) (dt_date p) = true →
  item_days_to_sell r = Some (PyDate.sub_days sd p)
  ∧ PyDate.sub_days sd p < 0.
Proof.
  intros Hp Hs Hlt. unfold item_days_to_sell. rewrite Hp, Hs.
  split; [done|].
  destruct (StrFacts.parse_date_midnight _ _ Hp) as [Vp ->].
  destruct (StrFacts.parse_date_midnight _ _ Hs) as [Vs ->].
  rewrite DateFacts.sub_days_midnight.
  pose proof (DateFacts.toordinal_lt _ _ Vs Vp Hlt). simpl in *. lia.
Qed.

End Velocity.

(** C9, as stated, fails on "lowers": with one product sale dated 100 days
    before its purchase the mean is -100; adding a second product sale
    dated one day before its purchase, itself counted as a quick flip,
    raises the mean to -50.5. *)
Lemma early_sale_can_raise_the_mean :
  Sample.report_of [Sample.early_sale_100] !! "avg_days_to_sell"
  = Some (RNum (PFloat (-100)))
  ∧ Sample.report_of [Sample.early_sale_100; Sample.early_sale_1]
    !! "month_sales" = Some (RRows [0%nat; 1%nat])
  ∧ item_days_to_sell Sample.early_sale_1 = Some (-1)
  ∧ Sample.report_of [Sample.early_sale_100; Sample.early_sale_1]
    !! "quick_flips" = Some (RNum (PInt 2))
  ∧ Sample.report_of [Sample.early_sale_100; Sample.early_sale_1]
    !! "avg_days_to_sell" = Some (RNum (PFloat (-50.5)))
  ∧ PrimFloat.ltb (-50.5) (-100) = false.
Proof. vm_compute. repeat split; reflexivity. Qed.

Section VelocityClaim.

Variable float_of_str : string -> option float.
Variable float_sum : list float -> float.


(** C9, amended: a product sale of the report whose parsed [sold_time] is
    strictly earlier than its parsed [purchase_time] has a negative
    [days_to_sell] [d]; it is counted in [quick_flips]; [fastest_sale] is
    at most [d], hence negative; and [d] is one of the terms of the sum
    that [avg_days_to_sell] divides by the number of dated product sales.
    In exact arithmetic the mean with the item is below the mean of the
    other dated product sales exactly when that mean is above [d], which
    is always the case when none of the others is negative. *)
Theorem early_sale_velocity now h rows s e rep h' pre l post p sd :
  analyze_homebox_rows float_of_str float_sum now h rows s e = Ok (rep, h') →
  rep !! "month_sales" = Some (RRows (pre ++ l :: post)) →
  parse_date (dict_get (deref h l) "HB.purchase_time") = Some p →
  parse_date (dict_get (deref h l) "HB.sold_time") = Some sd →
  PyDate.ltb (dt_date sd) (dt_date p) = true →
  let d := PyDate.sub_days sd p in
  let others := (days_to_sell h pre ++ days_to_sell h post)%list in
  d < 0
  ∧ rep !! "quick_flips" = Some (RNum (PInt (quick_flips others + 1)))
  ∧ (∃ m, rep !! "fastest_sale" = Some (RNum (PInt m)) ∧ m <= d)
  ∧ rep !! "avg_days_to_sell"
    = Some (RNum (Py.truediv (PInt (Py.sum_int others + d))
                    (PInt (Py.len others + 1))))
  ∧ (0 < Py.len others →
     ((Py.sum_int others + d) * Py.len others
      < Py.sum_int others * (Py.len others + 1)
      ↔ d * Py.len others < Py.sum_int others))
  ∧ (0 < Py.len others → Forall (fun x => 0 <= x) others →
     (Py.sum_int others + d) * Py.len others
     < Py.sum_int others * (Py.len others + 1)).
Proof.
  intros Hrun Hsales Hp Hs Hlt d others.
  apply analyze_inv in Hrun as (v & Hrun & ->).
  pose proof (run_locals_sales _ _ _ _ _ _ _ _ _ Hrun) as Hloop.
  destruct (run_locals_ok float_of_str float_sum now h rows s e _ _ Hloop)
    as (v0 & h0 & Hrun0 & _ & _ & _ & _ & _ & _ & _ & _ & _ & _ & Hdays
        & Havg & Hflips & _).
  rewrite Hrun in Hrun0. injection Hrun0 as <- <-.
  pose proof (report_lookup s e v) as L. cbv zeta in L.
  destruct L as (_ & _ & _ & _ & _ & _ & _ & _ & Lavg & Lflips & Lmin & _
                 & Lsales & _).
  rewrite Lsales in Hsales. injection Hsales as Hsales.
  destruct (Velocity.early_sale_negative _ _ _ Hp Hs Hlt) as [Hd Hneg].
  fold d in Hd, Hneg.
  rewrite Hsales, (Velocity.days_to_sell_insert _ _ _ _ _ Hd) in Hdays.
  fold others in Hdays.
  assert (Hin : d ∈ days v).
  { rewrite Hdays. apply elem_of_app. right. apply list_elem_of_here. }
  split; [done|]. split; [|split; [|split; [|split]]].
  - rewrite Lflips, Hflips, Hdays.
    unfold others. by rewrite Velocity.quick_flips_insert by lia.
  - destruct (Velocity.min_or_zero_le _ _ Hin) as (m & Hm & Hle).
    exists m. rewrite Lmin, Hm. split; [reflexivity|exact Hle].
  - rewrite Lavg, Havg, Hdays, Velocity.mean_insert.
    unfold others.
    by rewrite Velocity.sum_int_insert, Velocity.len_insert.
  - intros Hn. nia.
  - intros Hn Hall. pose proof (Velocity.sum_int_nonneg _ Hall). nia.
Qed.

End VelocityClaim.

Lemma early_sale_velocity_witness :
  let items := [Sample.sold_item; Sample.early_sale_1] in
  analyze_homebox_rows Builtins.float_of_str Builtins.float_sum Sample.now
    (Sample.heap_of items) (Sample.refs items) Sample.nov_start Sample.nov_end
  = Ok (Sample.report_of items, Sample.heap_after items)
  ∧ Sample.report_of items !! "month_sales"
    = Some (RRows ([0%nat] ++ 1%nat :: []))
  ∧ PyDate.ltb (Date 2025 11 10) (Date 2025 11 11) = true
  ∧ Sample.report_of items !! "quick_flips" = Some (RNum (PInt 1))
  ∧ ∃ m, Sample.report_of items !! "fastest_sale" = Some (RNum (PInt m))
         ∧ m <= -1.
Proof.
  cbv zeta.
  assert (Hok : returns (Sample.run [Sample.sold_item; Sample.early_sale_1]) = true)
    by (vm_compute; reflexivity).
  pose proof (sample_run_returns _ Hok) as Hrun.
  assert (Hsales :
    Sample.report_of [Sample.sold_item; Sample.early_sale_1] !! "month_sales"
    = Some (RRows ([0%nat] ++ 1%nat :: [])))
    by (vm_compute; reflexivity).
  assert (Hp :
    parse_date (dict_get (deref (Sample.heap_of
                  [Sample.sold_item; Sample.early_sale_1]) 1%nat)
                  "HB.purchase_time")
    = Some (DateTime (Date 2025 11 11) 0)) by (vm_compute; reflexivity).
  assert (Hs :
    parse_date (dict_get (deref (Sample.heap_of
                  [Sample.sold_item; Sample.early_sale_1]) 1%nat)
                  "HB.sold_time")
    = Some (DateTime (Date 2025 11 10) 0)) by (vm_compute; reflexivity).
  assert (Hlt : PyDate.ltb (Date 2025 11 10) (Date 2025 11 11) = true)
    by (vm_compute; reflexivity).
  split; [exact Hrun|]. split; [exact Hsales|]. split; [exact Hlt|].
  destruct (early_sale_velocity _ _ _ _ _ _ _ _ _ _ _ _ _ _
              Hrun Hsales Hp Hs Hlt) as (_ & Hflips & Hmin & _).
  split; [|exact Hmin].
  rewrite Hflips. vm_compute. reflexivity.
Defined.

(* ===================================================================== *)
(** ** The boolean-as-string fields *)
(* ===================================================================== *)

Module Groups.

Lemma len_pos {A} (x : A) (l : list A) : x ∈ l → 0 < Py.len l.
Proof.
  destruct l; [intros H; by apply elem_of_nil in H|].
  intros _. unfold Py.len. simpl. lia.
Qed.

Lemma group_lookup_add k k' v g :
  group_lookup k (group_add k' v g) =
  if decide (k' = k) then
    Some (match group_lookup k g with
          | Some (c, s) => (c + 1, Py.add s (PFloat v))
          | None => (0 + 1, Py.add (PInt 0) (PFloat v))
          end)
  else group_lookup k g.
Proof.
  induction g as [|[k0 [c s]] g IH]; simpl.
  - by destruct (decide (k' = k)).
  - destruct (decide (k0 = k')) as [->|Hne]; simpl.
    + by destruct (decide (k' = k)).
    + destruct (decide (k0 = k)) as [->|Hne'].
      * by rewrite decide_False by done.
      * done.
Qed.

Lemma group_count_add k k' v g :
  group_count k (group_add k' v g)
  = group_count k g + (if decide (k' = k) then 1 else 0)
  ∧ (is_Some (group_lookup k (group_add k' v g))
     ↔ k' = k ∨ is_Some (group_lookup k g)).
Proof.
  unfold group_count. rewrite group_lookup_add.
  destruct (decide (k' = k)) as [->|Hne].
  - split; [|by split; [left|eauto]].
    destruct (group_lookup k g) as [[c s]|]; lia.
  - split; [lia|]. split; [by right|]. by intros [?|?].
Qed.

(** A group of [inventory_by_location] counts the rows that are not
    archived and are filed under its key. *)
Lemma inventory_group_count float_of_str h k rows :
  let n := Py.len (filter (fun l => is_archived (deref h l) = false
                                    ∧ location_key (deref h l) = k) rows) in
  group_count k (inventory_by_location float_of_str h rows) = n
  ∧ (is_Some (group_lookup k (inventory_by_location float_of_str h rows))
     ↔ 0 < n).
Proof.
  unfold inventory_by_location.
  assert (Hgen : ∀ g,
    let n := Py.len (filter (fun l => is_archived (deref h l) = false
                                      ∧ location_key (deref h l) = k) rows) in
    let g' := fold_left (fun g l =>
                let item := deref h l in
                if negb (is_archived item)
                then group_add (dict_get_or item "HB.location" (PyStr "Unknown"))
                       (purchase_price float_of_str item) g
                else g) rows g in
    group_count k g' = group_count k g + n
    ∧ (is_Some (group_lookup k g') ↔ is_Some (group_lookup k g) ∨ 0 < n)).
  { induction rows as [|l ls IH]; intros g; cbv zeta.
    - unfold Py.len. simpl. split; [lia|]. split; [by left|].
      intros [?|?]; [done|lia].
    - cbn [fold_left]. cbv zeta.
      destruct (IH (if negb (is_archived (deref h l))
                    then group_add (dict_get_or (deref h l) "HB.location"
                                      (PyStr "Unknown"))
                           (purchase_price float_of_str (deref h l)) g
                    else g)) as [Hc Hs].
      cbv zeta in Hc, Hs. rewrite Hc, Hs. clear Hc Hs IH.
      rewrite filter_cons. unfold location_key.
      destruct (is_archived (deref h l)); cbn [negb].
      + rewrite decide_False by (intros [? _]; done). done.
      + destruct (group_count_add k
                    (dict_get_or (deref h l) "HB.location" (PyStr "Unknown"))
                    (purchase_price float_of_str (deref h l)) g) as [Hc Hs].
        rewrite Hc, Hs.
        destruct (decide (dict_get_or (deref h l) "HB.location"
                            (PyStr "Unknown") = k)) as [Hk|Hk].
        * rewrite decide_True by done. unfold Py.len. simpl.
          split; [lia|]. split; [intros _; right; lia|].
          intros _. left. by left.
        * rewrite decide_False by (intros [_ ?]; done).
          split; [lia|]. split; [intros [[?|?]|?]; tauto|].
          intros [?|?]; [left; by right|by right]. }
  cbv zeta in *. destruct (Hgen []) as [Hc Hs]. rewrite Hc, Hs.
  unfold group_count. simpl. split; [lia|].
  split; [intros [[? [=]]|?]; done|by right].
Qed.

End Groups.

Section Flags.

Variable float_of_str : string -> option float.
Variable float_sum : list float -> float.


(** C10: only the exact string "true" counts as true.  For a row of the
    call whose [archived] is anything else, the row is in active inventory
    exactly when its location names none of the special buckets, it is a
    marketplace item exactly when its [insured] is "true", and the group
    of its location in [inventory_by_location] exists and counts it among
    the non-archived rows filed there.  A row whose [insured] is anything
    but "true" is not a marketplace item. *)
Theorem flags_match_only_lowercase_true now h rows s e v h' l :
  run_locals float_of_str float_sum now h rows s e = Ok (v, h') →
  l ∈ rows →
  (dict_get (deref h l) "HB.archived" ≠ PyStr "true" →
   (l ∈ active_inventory v ↔
    PyStr.contains_any ["nfs"; "other income"; "junkagie"; "business assets"]
      (location_lower (deref h l)) = false)
   ∧ (l ∈ marketplace v ↔ dict_get (deref h l) "HB.insured" = PyStr "true")
   ∧ ∃ c total,
       group_lookup (location_key (deref h l)) (inv_by_loc v)
       = Some (c, total)
       ∧ c = Py.len (filter (fun l' =>
                               is_archived (deref h l') = false
                               ∧ location_key (deref h l')
                                 = location_key (deref h l)) rows)
       ∧ 1 <= c)
  ∧ (dict_get (deref h l) "HB.insured" ≠ PyStr "true" → l ∉ marketplace v).
Proof.
  intros Hrun Hl.
  pose proof (run_locals_sales _ _ _ _ _ _ _ _ _ Hrun) as Hloop.
  destruct (run_locals_ok float_of_str float_sum now h rows s e _ _ Hloop)
    as (v0 & h0 & Hrun0 & _ & _ & _ & _ & _ & _ & _ & Hact & _ & Hmkt & _ & _
        & _ & Hinv & Hagree & _).
  rewrite Hrun in Hrun0. injection Hrun0 as <- <-.
  assert (Harch : ∀ r, is_archived r = false
                       ↔ dict_get r "HB.archived" ≠ PyStr "true").
  { intros r. unfold is_archived.
    rewrite <- StrFacts.is_true_str_spec. by destruct (Py.is_true_str _). }
  assert (Hins : ∀ r, is_insured r = true
                      ↔ dict_get r "HB.insured" = PyStr "true").
  { intros r. apply StrFacts.is_true_str_spec. }
  split.
  - intros Hna. apply Harch in Hna. split; [|split].
    + rewrite Hact, list_elem_of_filter. unfold is_active. rewrite Hna.
      cbn [negb andb]. rewrite negb_true_iff. tauto.
    + rewrite Hmkt. unfold marketplace_items.
      rewrite list_elem_of_filter, Hins. tauto.
    + destruct (Groups.inventory_group_count float_of_str h'
                  (location_key (deref h l)) rows) as [Hc Hs].
      cbv zeta in Hc, Hs.
      assert (Hfilter :
        filter (fun l' => is_archived (deref h' l') = false
                          ∧ location_key (deref h' l')
                            = location_key (deref h l)) rows
        = filter (fun l' => is_archived (deref h l') = false
                            ∧ location_key (deref h l')
                              = location_key (deref h l)) rows).
      { apply list_filter_iff. intros l'.
        rewrite <- (Frame.reads_heap_agree ["HB.archived"] _ "days_held"
                      h h' l' Frame.reads_is_archived) by (set_solver || done).
        unfold location_key.
        by rewrite <- (Frame.reads_heap_agree ["HB.location"] _ "days_held"
                         h h' l'
                         (Frame.reads_dict_get_or "HB.location"
                            (PyStr "Unknown"))) by (set_solver || done). }
      rewrite Hfilter in Hc, Hs. rewrite Hinv.
      assert (Hpos : 0 < Py.len (filter (fun l' =>
                       is_archived (deref h l') = false
                       ∧ location_key (deref h l')
                         = location_key (deref h l)) rows)).
      { apply (Groups.len_pos l). apply list_elem_of_filter. tauto. }
      apply Hs in Hpos as Hsome. destruct Hsome as [[c total] Hlook].
      exists c, total. split; [done|].
      unfold group_count in Hc. rewrite Hlook in Hc. split; [done|lia].
  - intros Hni Hin. rewrite Hmkt in Hin. unfold marketplace_items in Hin.
    apply list_elem_of_filter in Hin as [[Hi _] _].
    by apply Hins in Hi.
Qed.

End Flags.

Lemma flags_match_only_lowercase_true_witness :
  let items := [Sample.listed_item; Sample.sold_item] in
  (∃ v h',
     run_locals Builtins.float_of_str Builtins.float_sum Sample.now
       (Sample.heap_of items) (Sample.refs items)
       Sample.nov_start Sample.nov_end = Ok (v, h')
     ∧ 0%nat ∈ active_inventory v
     ∧ 0%nat ∈ marketplace v
     ∧ 1%nat ∉ marketplace v)
  ∧ 0%nat ∈ Sample.refs items
  ∧ dict_get (deref (Sample.heap_of items) 0%nat) "HB.archived" = PyStr "True".
Proof.
  cbv zeta.
  assert (Hok : returns (Sample.run [Sample.listed_item; Sample.sold_item])
                = true) by (vm_compute; reflexivity).
  destruct (run_locals Builtins.float_of_str Builtins.float_sum
              Sample.now
              (Sample.heap_of [Sample.listed_item; Sample.sold_item])
              (Sample.refs [Sample.listed_item; Sample.sold_item])
              Sample.nov_start Sample.nov_end) as [[v h']|x] eqn:Hrun;
    [|exfalso; revert Hok; unfold Sample.run, Builtins.analyze,
        analyze_homebox_rows; rewrite Hrun; discriminate].
  assert (H0 : 0%nat ∈ Sample.refs [Sample.listed_item; Sample.sold_item])
    by (vm_compute; apply list_elem_of_here).
  assert (H1 : 1%nat ∈ Sample.refs [Sample.listed_item; Sample.sold_item])
    by (vm_compute; apply list_elem_of_further, list_elem_of_here).
  assert (Harch : dict_get (deref (Sample.heap_of
                     [Sample.listed_item; Sample.sold_item]) 0%nat)
                    "HB.archived" = PyStr "True")
    by (vm_compute; reflexivity).
  split; [|split; [exact H0|exact Harch]].
  exists v, h'. split; [reflexivity|].
  destruct (flags_match_only_lowercase_true _ _ _ _ _ _ _ _ _ 0%nat Hrun H0)
    as [Hflag _].
  destruct Hflag as (Hactive & Hmarket & _);
    [rewrite Harch; discriminate|].
  destruct (flags_match_only_lowercase_true _ _ _ _ _ _ _ _ _ 1%nat Hrun H1)
    as [_ Hnot].
  split; [apply Hactive; vm_compute; reflexivity|].
  split; [apply Hmarket; vm_compute; reflexivity|].
  apply Hnot. vm_compute. discriminate.
Defined.

(* ===================================================================== *)
(** ** The first loop: which rows it lists, when it raises *)
(* ===================================================================== *)

Module Sales.



Lemma sales_loop_returns s e h rows :
  returns (sales_loop s e h rows) = true ↔
  ∀ l, l ∈ rows → returns (classify s e (deref h l)) = true.
Proof.
  induction rows as [|l ls IH]; simpl.
  - split; [|done]. intros _ l Hl. by apply elem_of_nil in Hl.
  - destruct (classify s e (deref h l)) as [k|x] eqn:Hk; simpl.
    + destruct (sales_loop s e h ls) as [rest|x]; simpl.
      * split; [|done]. intros _ l' Hl'.
        apply elem_of_cons in Hl' as [->|Hl']; [by rewrite Hk|].
        by apply IH.
      * split; [discriminate|]. intros H. apply IH. intros l' Hl'.
        apply H. by apply list_elem_of_further.
    + split; [discriminate|]. intros H.
      specialize (H l (list_elem_of_here _ _)). by rewrite Hk in H.
Qed.

(** The two lists are the rows classified as product and as service, in
    the order of [rows]. *)
Lemma sales_loop_filter s e h rows p sv :
  sales_loop s e h rows = Ok (p, sv) →
  p = filter (fun l => classify s e (deref h l) = Ok ProductSale) rows
  ∧ sv = filter (fun l => classify s e (deref h l) = Ok ServiceSale) rows.
Proof.
  revert p sv. induction rows as [|l ls IH]; intros p sv; simpl.
  - by intros [= <- <-].
  - destruct (classify s e (deref h l)) as [k|x] eqn:Hk; [|done]. simpl.
    destruct (sales_loop s e h ls) as [[p0 sv0]|x]; [|done]. simpl.
    destruct (IH p0 sv0 eq_refl) as [-> ->].
    rewrite !filter_cons, Hk.
    destruct k; intros [= <- <-]; simpl;
      repeat case_decide; try done; by split.
Qed.

Lemma classify_in_range s e (r : row) k :
  classify s e r = Ok k → k ≠ NoSale → sold_in_range s e r = true.
Proof.
  unfold classify. destruct (sold_in_range s e r); [done|].
  by intros [= <-].
Qed.

(** A row classified as a product sale has a [str] location without
    "loss"; a skipped row has one with "loss". *)
Lemma classify_loss s e (r : row) k :
  classify s e r = Ok k →
  (k = ProductSale →
   location_contains (dict_get_or r "HB.location" (PyStr "")) "Loss" = false)
  ∧ (k = LossSkipped →
     location_contains (dict_get_or r "HB.location" (PyStr "")) "Loss" = true).
Proof.
  unfold classify. destruct (sold_in_range s e r); [|by intros [= <-]].
  destruct (Py.lower (dict_get_or r "HB.labels" (PyStr ""))) as [labels|x];
    simpl; [|done].
  unfold location_contains.
  change (PyStr.lower "Loss") with "loss".
  destruct (dict_get_or r "HB.location" (PyStr "")) as [|loc|z];
    cbn [Py.lower Py.str bind]; try done.
  destruct (is_service labels (PyStr.lower loc)); [by intros [= <-]|].
  destruct (PyStr.contains "loss" (PyStr.lower loc)); cbn [negb];
    intros [= <-]; split; intros; congruence.
Qed.

End Sales.

(** X1: when the first loop returns, [month_sales] is the rows it
    classifies as product sales and [other_income_items] the rows it
    classifies as service sales, both in the order of the input; no row is
    in both lists, every listed row has its sale date in the range, and
    together they are at most as many as the rows. *)
Theorem sales_lists_partition (s e : datetime) (h : heap)
    (rows p sv : list nat) :
  sales_loop s e h rows = Ok (p, sv) →
  p = filter (fun l => classify s e (deref h l) = Ok ProductSale) rows
  ∧ sv = filter (fun l => classify s e (deref h l) = Ok ServiceSale) rows
  ∧ (∀ l, l ∈ p → l ∉ sv)
  ∧ (∀ l, l ∈ p ∨ l ∈ sv → sold_in_range s e (deref h l) = true)
  ∧ (length p + length sv ≤ length rows)%nat.
Proof.
  intros Hloop. destruct (Sales.sales_loop_filter _ _ _ _ _ _ Hloop) as [Hp Hs].
  split; [done|]. split; [done|]. split; [|split].
  - intros l Hl Hl'. rewrite Hp in Hl. rewrite Hs in Hl'.
    apply list_elem_of_filter in Hl as [Hl _].
    apply list_elem_of_filter in Hl' as [Hl' _]. congruence.
  - intros l [Hl|Hl]; [rewrite Hp in Hl|rewrite Hs in Hl];
      apply list_elem_of_filter in Hl as [Hl _];
      by eapply Sales.classify_in_range.
  - rewrite Hp, Hs. clear. induction rows as [|l ls IH]; [done|].
    rewrite !filter_cons.
    destruct (classify s e (deref h l)) as [[]|]; repeat case_decide;
      simpl; try done; lia.
Qed.

Lemma sales_lists_partition_witness :
  let items := [Sample.sold_item; Sample.unarchived_income] in
  sales_loop Sample.nov_start Sample.nov_end (Sample.heap_of items)
    (Sample.refs items) = Ok ([0%nat], [1%nat])
  ∧ (∀ l, l ∈ [0%nat] → l ∉ [1%nat])
  ∧ (∀ l, l ∈ [0%nat] ∨ l ∈ [1%nat] →
          sold_in_range Sample.nov_start Sample.nov_end
            (deref (Sample.heap_of items) l) = true).
Proof.
  cbv zeta.
  assert (Hloop :
    sales_loop Sample.nov_start Sample.nov_end
      (Sample.heap_of [Sample.sold_item; Sample.unarchived_income])
      (Sample.refs [Sample.sold_item; Sample.unarchived_income])
    = Ok ([0%nat], [1%nat])) by (vm_compute; reflexivity).
  split; [exact Hloop|].
  destruct (sales_lists_partition _ _ _ _ _ _ Hloop)
    as (_ & _ & Hdisj & Hrange & _).
  split; [exact Hdisj|exact Hrange].
Defined.

(** X2: a row located in a loss bucket is never a product sale.  When the
    first loop returns, no row of [month_sales] is in [loss_items], and every
    row the loop skips for its "loss" location is in [loss_items] and in
    neither sales list. *)
Theorem product_sales_exclude_losses (s e : datetime) (h : heap)
    (rows p sv : list nat) :
  sales_loop s e h rows = Ok (p, sv) →
  (∀ l, l ∈ p → l ∉ loss_items s e h rows)
  ∧ (∀ l, l ∈ rows → classify s e (deref h l) = Ok LossSkipped →
          l ∈ loss_items s e h rows ∧ l ∉ p ∧ l ∉ sv).
Proof.
  intros Hloop. destruct (Sales.sales_loop_filter _ _ _ _ _ _ Hloop) as [Hp Hs].
  split.
  - intros l Hl Hloss. rewrite Hp in Hl.
    apply list_elem_of_filter in Hl as [Hk _].
    unfold loss_items in Hloss. apply list_elem_of_filter in Hloss as [[Hc _] _].
    destruct (Sales.classify_loss _ _ _ _ Hk) as [Hno _].
    rewrite Hno in Hc; done.
  - intros l Hl Hk. split; [|split].
    + unfold loss_items. apply list_elem_of_filter. split; [|done]. split.
      * by apply (Sales.classify_loss _ _ _ _ Hk).
      * by eapply Sales.classify_in_range.
    + rewrite Hp. intros Hin. apply list_elem_of_filter in Hin as [Hk' _].
      congruence.
    + rewrite Hs. intros Hin. apply list_elem_of_filter in Hin as [Hk' _].
      congruence.
Qed.

Lemma product_sales_exclude_losses_witness :
  let items := [Sample.sold_item; Sample.unarchived_loss] in
  sales_loop Sample.nov_start Sample.nov_end (Sample.heap_of items)
    (Sample.refs items) = Ok ([0%nat], [])
  ∧ (∀ l, l ∈ [0%nat] →
          l ∉ loss_items Sample.nov_start Sample.nov_end
                (Sample.heap_of items) (Sample.refs items)).
Proof.
  cbv zeta.
  assert (Hloop :
    sales_loop Sample.nov_start Sample.nov_end
      (Sample.heap_of [Sample.sold_item; Sample.unarchived_loss])
      (Sample.refs [Sample.sold_item; Sample.unarchived_loss])
    = Ok ([0%nat], [])) by (vm_compute; reflexivity).
  split; [exact Hloop|].
  exact (proj1 (product_sales_exclude_losses _ _ _ _ _ _ Hloop)).
Defined.


(** X4: the business expenses of the period are taken from the expenses of
    the period.  [business_items] is [period_expenses] without the rows
    located in an "nfs", "other income" or "junkagie" bucket, so every
    business expense row is also a period expense row. *)
Theorem business_expenses_within_period (s e : datetime) (h : heap)
    (rows : list nat) :
  business_items s e h rows
  = filter (fun l =>
              PyStr.contains_any ["nfs"; "other income"; "junkagie"]
                (location_lower (deref h l)) = false)
      (period_expenses s e h rows)
  ∧ business_items s e h rows ⊆ period_expenses s e h rows
  ∧ (length (business_items s e h rows)
     ≤ length (period_expenses s e h rows))%nat.
Proof.
  assert (Heq : business_items s e h rows
                = filter (fun l =>
                            PyStr.contains_any ["nfs"; "other income"; "junkagie"]
                              (location_lower (deref h l)) = false)
                    (period_expenses s e h rows)).
  { unfold business_items, period_expenses. rewrite list_filter_filter.
    apply list_filter_iff. intros l. tauto. }
  split; [done|]. rewrite Heq. split.
  - intros l Hl. apply list_elem_of_filter in Hl. tauto.
  - apply length_filter.
Qed.

(* ===================================================================== *)
(** ** Product sales with and without a cost *)
(* ===================================================================== *)

Module Cost.

(** A float above zero is not equal to zero. *)
Lemma positive_not_zero (x : float) :
  PrimFloat.ltb 0 x = true → PrimFloat.eqb x 0 = false.
Proof.
  rewrite FloatAxioms.ltb_spec, FloatAxioms.eqb_spec.
  change (Prim2SF 0) with (S754_zero false).
  unfold SFltb, SFeqb.
  destruct (Prim2SF x) as [[]|[]| |[] m e]; simpl; congruence.
Qed.

Lemma exclusive_filters {A} (P Q : A → Prop)
    `{∀ x, Decision (P x)} `{∀ x, Decision (Q x)} (l : list A) :
  (∀ x, P x → ¬ Q x) →
  (length (filter P l) + length (filter Q l) ≤ length l)%nat.
Proof.
  intros Hex. induction l as [|x l IH]; [done|].
  rewrite !filter_cons.
  destruct (decide (P x)) as [Hp|Hp], (decide (Q x)) as [Hq|Hq]; simpl;
    try lia.
  by destruct (Hex x Hp).
Qed.

End Cost.

(** X5: the product sales split by cost.  For every list of product sales,
    [items_with_cost] and [free_items] are taken from it and share no row:
    a row is free only if its purchase price parses to zero and has a cost
    only if it parses above zero (a negative or NaN price puts it in
    neither).  So the two counts never exceed [items_sold], and [avg_roi]
    averages exactly one ROI value per item with a cost. *)
Theorem cost_and_free_are_exclusive (float_of_str : string -> option float)
    (h : heap) (products : list nat) :
  let with_cost := items_with_cost float_of_str h products in
  let free := free_items float_of_str h products in
  (∀ l, l ∈ with_cost → l ∉ free)
  ∧ with_cost ⊆ products
  ∧ free ⊆ products
  ∧ (length with_cost + length free ≤ length products)%nat
  ∧ length (roi_values float_of_str h with_cost) = length with_cost.
Proof.
  cbv zeta. unfold items_with_cost, free_items.
  split; [|split; [|split; [|split]]].
  - intros l Hl Hfree.
    apply list_elem_of_filter in Hl as [Hpos _].
    apply list_elem_of_filter in Hfree as [Hzero _].
    apply Cost.positive_not_zero in Hpos. congruence.
  - intros l Hl. apply list_elem_of_filter in Hl. tauto.
  - intros l Hl. apply list_elem_of_filter in Hl. tauto.
  - apply Cost.exclusive_filters. intros l Hpos Hzero.
    apply Cost.positive_not_zero in Hpos. congruence.
  - unfold roi_values. induction products as [|l ls IH]; [done|].
    rewrite filter_cons. case_decide as Hpos; [|done].
    csimpl. rewrite Hpos. simpl. by rewrite IH.
Qed.

(* ===================================================================== *)
(** ** The stale list and the archived rows *)
(* ===================================================================== *)

Module Stale.

Lemma held_longer_trans key : Transitive (held_longer key).
Proof. unfold held_longer. intros a b c Hab Hbc. lia. Qed.

Lemma insert_desc_hd key x y l :
  held_longer key y x → HdRel (held_longer key) y l →
  HdRel (held_longer key) y (insert_desc key x l).
Proof.
  intros Hyx Hhd. destruct l as [|z l]; simpl; [by constructor|].
  destruct (key x <? key z); constructor; [|done].
  by inversion Hhd.
Qed.

Lemma insert_desc_sorted key x l :
  Sorted (held_longer key) l → Sorted (held_longer key) (insert_desc key x l).
Proof.
  induction 1 as [|y l Hs IH Hhd]; simpl; [by repeat constructor|].
  destruct (Z.ltb_spec (key x) (key y)).
  - constructor; [done|]. apply insert_desc_hd; [|done].
    unfold held_longer. lia.
  - constructor; [by constructor|]. constructor. unfold held_longer. lia.
Qed.

(** [list.sort(key=.., reverse=True)] leaves the list in descending order
    of the key. *)
Lemma sort_desc_sorted key l : StronglySorted (held_longer key) (sort_desc key l).
Proof.
  apply Sorted_StronglySorted; [apply held_longer_trans|].
  induction l as [|x l IH]; simpl; [constructor|].
  by apply insert_desc_sorted.
Qed.

End Stale.

Section StaleClaims.

Variable float_of_str : string -> option float.
Variable float_sum : list float -> float.

(** The stale list is the sorted list of the rows the loop annotates. *)
Lemma run_locals_stale now h rows s e v h' :
  run_locals float_of_str float_sum now h rows s e = Ok (v, h') →
  stale_inventory v
  = sort_desc (days_held_key h')
      (filter (fun l => is_Some (stale_days now (deref h l))) rows).
Proof.
  unfold run_locals.
  destruct (sales_loop s e h rows) as [[p sv]|x]; [|done]. simpl.
  destruct (Frame.inventory_loop_spec now rows h) as (h1 & -> & _).
  by intros [= <- <-].
Qed.

(** X6: [stale_inventory] is ordered by the days held, longest first.
    When the call gets past its first loop, the list is sorted in
    descending order of the [days_held] the call stored on the rows; that
    value is the number of whole days from the parsed purchase date to
    [now] and exceeds 90; every stale row is also in active inventory; and
    the list is a rearrangement of the rows the loop found stale. *)
Theorem stale_inventory_is_sorted now h rows s e v h' :
  run_locals float_of_str float_sum now h rows s e = Ok (v, h') →
  StronglySorted (held_longer (days_held_key h')) (stale_inventory v)
  ∧ (∀ l, l ∈ stale_inventory v →
          l ∈ active_inventory v
          ∧ ∃ p_date,
              parse_date (dict_get (deref h l) "HB.purchase_time")
              = Some p_date
              ∧ days_held_key h' l = PyDate.sub_days now p_date
              ∧ 90 < days_held_key h' l)
  ∧ stale_inventory v
    ≡ₚ filter (fun l => is_Some (stale_days now (deref h l))) rows
  ∧ (length (stale_inventory v) ≤ length (active_inventory v))%nat.
Proof.
  intros Hrun.
  pose proof (run_locals_stale _ _ _ _ _ _ _ Hrun) as Hsorted.
  pose proof (run_locals_sales _ _ _ _ _ _ _ _ _ Hrun) as Hloop.
  destruct (run_locals_ok float_of_str float_sum now h rows s e _ _ Hloop)
    as (v0 & h0 & Hrun0 & _ & _ & _ & _ & _ & _ & _ & Hact & Hperm & _).
  rewrite Hrun in Hrun0. injection Hrun0 as <- <-.
  assert (Hsub : ∀ l, is_Some (stale_days now (deref h l)) →
                      is_active (deref h l) = true).
  { intros l [d Hd]. unfold stale_days in Hd.
    by destruct (is_active (deref h l)). }
  split; [rewrite Hsorted; apply Stale.sort_desc_sorted|].
  split; [|split; [done|]].
  - intros l Hl.
    destruct (stale_key_is_int _ _ _ _ _ _ _ _ _ _ Hrun Hl) as (d & Hd & _ & Hkey).
    rewrite Hperm in Hl. apply list_elem_of_filter in Hl as [Hsome Hrows].
    split; [rewrite Hact; apply list_elem_of_filter; auto|].
    pose proof (stale_days_gt _ _ _ Hd) as Hgt.
    unfold stale_days in Hd. destruct (is_active (deref h l)); [|done].
    destruct (parse_date (dict_get (deref h l) "HB.purchase_time"))
      as [p_date|]; [|done].
    exists p_date. split; [done|]. cbv zeta in Hd.
    destruct (90 <? PyDate.sub_days now p_date); [|done].
    injection Hd as Hd. split; lia.
  - rewrite Hperm, Hact. clear -Hsub.
    induction rows as [|l ls IH]; [done|]. rewrite !filter_cons.
    destruct (decide (is_Some (stale_days now (deref h l)))) as [Hs|Hs].
    + rewrite decide_True by auto. simpl. lia.
    + case_decide; simpl; lia.
Qed.

(** X7: an archived row is left out of the inventory views.  A row of the
    call whose [archived] is "true" is not in active inventory, not in
    [stale_inventory] and not a marketplace item, and the call does not
    write to it. *)
Theorem archived_rows_are_left_out now h rows s e v h' l :
  run_locals float_of_str float_sum now h rows s e = Ok (v, h') →
  dict_get (deref h l) "HB.archived" = PyStr "true" →
  l ∉ active_inventory v
  ∧ l ∉ stale_inventory v
  ∧ l ∉ marketplace v
  ∧ h' !! l = h !! l.
Proof.
  intros Hrun Harch.
  pose proof (run_locals_sales _ _ _ _ _ _ _ _ _ Hrun) as Hloop.
  destruct (run_locals_ok float_of_str float_sum now h rows s e _ _ Hloop)
    as (v0 & h0 & Hrun0 & _ & _ & _ & _ & _ & _ & _ & Hact & Hperm & Hmkt & _
        & _ & _ & _ & _ & Hout & _).
  rewrite Hrun in Hrun0. injection Hrun0 as <- <-.
  assert (Ha : is_archived (deref h l) = true).
  { unfold is_archived. by rewrite StrFacts.is_true_str_spec. }
  assert (Hnot : l ∉ stale_inventory v).
  { rewrite Hperm. intros Hl. apply list_elem_of_filter in Hl as [[d Hd] _].
    unfold stale_days, is_active in Hd. by rewrite Ha in Hd. }
  split; [|split; [done|split; [|by apply Hout]]].
  - rewrite Hact. intros Hl. apply list_elem_of_filter in Hl as [Hl _].
    unfold is_active in Hl. by rewrite Ha in Hl.
  - rewrite Hmkt. unfold marketplace_items. intros Hl.
    apply list_elem_of_filter in Hl as [[_ Hl] _]. congruence.
Qed.

End StaleClaims.

(* ===================================================================== *)
(** ** A leftover [days_held] does not reach the report *)
(* ===================================================================== *)

Module Agree.

Section WithFloats.

Variable float_of_str : string -> option float.
Variable float_sum : list float -> float.

Lemma sum_of_agree k0 keys (f : row → float) h h' items :
  reads_only keys f → k0 ∉ keys → heap_agree k0 h h' →
  sum_of float_sum f h items = sum_of float_sum f h' items.
Proof.
  intros Hf Hk Hh. unfold sum_of. f_equal. apply map_ext. intros l.
  by apply (Frame.reads_heap_agree keys f k0).
Qed.

Lemma items_with_cost_agree k0 h h' items :
  k0 ∉ ["HB.purchase_price"] → heap_agree k0 h h' →
  items_with_cost float_of_str h items = items_with_cost float_of_str h' items.
Proof.
  intros Hk Hh. unfold items_with_cost. apply list_filter_iff. intros l.
  by rewrite (Frame.reads_heap_agree _ _ k0 h h' l
                (Frame.reads_purchase_price float_of_str) Hk Hh).
Qed.

Lemma free_items_agree k0 h h' items :
  k0 ∉ ["HB.purchase_price"] → heap_agree k0 h h' →
  free_items float_of_str h items = free_items float_of_str h' items.
Proof.
  intros Hk Hh. unfold free_items. apply list_filter_iff. intros l.
  by rewrite (Frame.reads_heap_agree _ _ k0 h h' l
                (Frame.reads_purchase_price float_of_str) Hk Hh).
Qed.

Lemma roi_values_agree k0 h h' items :
  k0 ∉ ["HB.purchase_price"; "HB.sold_price"] → heap_agree k0 h h' →
  roi_values float_of_str h items = roi_values float_of_str h' items.
Proof.
  intros Hk Hh. unfold roi_values.
  induction items as [|l ls IH]; [done|]. csimpl. rewrite IH.
  rewrite (Frame.reads_heap_agree ["HB.purchase_price"] _ k0 h h' l
             (Frame.reads_purchase_price float_of_str)) by set_solver.
  by rewrite (Frame.reads_heap_agree ["HB.sold_price"] _ k0 h h' l
                (Frame.reads_sold_price float_of_str)) by set_solver.
Qed.

Lemma inventory_by_location_agree k0 h h' rows :
  k0 ∉ ["HB.archived"; "HB.location"; "HB.purchase_price"] →
  heap_agree k0 h h' →
  inventory_by_location float_of_str h rows
  = inventory_by_location float_of_str h' rows.
Proof.
  intros Hk Hh. unfold inventory_by_location. generalize (@nil (pyval * (Z * pynum))).
  induction rows as [|l ls IH]; intros g; [done|]. cbn [fold_left]. cbv zeta.
  rewrite (Frame.reads_heap_agree ["HB.archived"] _ k0 h h' l
             Frame.reads_is_archived) by set_solver.
  rewrite (Frame.reads_heap_agree ["HB.location"] _ k0 h h' l
             (Frame.reads_dict_get_or "HB.location" (PyStr "Unknown")))
    by set_solver.
  rewrite (Frame.reads_heap_agree ["HB.purchase_price"] _ k0 h h' l
             (Frame.reads_purchase_price float_of_str)) by set_solver.
  apply IH.
Qed.

End WithFloats.

Lemma business_items_agree k0 s e h h' rows :
  k0 ∉ ["HB.purchase_time"; "HB.location"] → heap_agree k0 h h' →
  business_items s e h rows = business_items s e h' rows.
Proof.
  intros Hk Hh. unfold business_items. apply list_filter_iff. intros l.
  rewrite (Frame.reads_heap_agree ["HB.purchase_time"] _ k0 h h' l
             (Frame.reads_purchased_in_range s e)) by set_solver.
  by rewrite (Frame.reads_heap_agree ["HB.location"] _ k0 h h' l
                Frame.reads_location_lower) by set_solver.
Qed.

Lemma period_expenses_agree k0 s e h h' rows :
  k0 ∉ ["HB.purchase_time"] → heap_agree k0 h h' →
  period_expenses s e h rows = period_expenses s e h' rows.
Proof.
  intros Hk Hh. unfold period_expenses. apply list_filter_iff. intros l.
  by rewrite (Frame.reads_heap_agree _ _ k0 h h' l
                (Frame.reads_purchased_in_range s e) Hk Hh).
Qed.

Lemma business_assets_agree k0 h h' rows :
  k0 ∉ ["HB.location"] → heap_agree k0 h h' →
  business_assets h rows = business_assets h' rows.
Proof.
  intros Hk Hh. unfold business_assets. apply list_filter_iff. intros l.
  by rewrite (Frame.reads_heap_agree _ _ k0 h h' l
                (Frame.reads_dict_get_or "HB.location" (PyStr "")) Hk Hh).
Qed.

Lemma junkagie_items_agree k0 h h' rows :
  k0 ∉ ["HB.location"] → heap_agree k0 h h' →
  junkagie_items h rows = junkagie_items h' rows.
Proof.
  intros Hk Hh. unfold junkagie_items. apply list_filter_iff. intros l.
  by rewrite (Frame.reads_heap_agree _ _ k0 h h' l
                (Frame.reads_dict_get_or "HB.location" (PyStr "")) Hk Hh).
Qed.

Lemma active_filter_agree h h' (rows : list nat) :
  heap_agree "days_held" h h' →
  filter (fun l => is_active (deref h l) = true) rows
  = filter (fun l => is_active (deref h' l) = true) rows.
Proof.
  intros Hh. apply list_filter_iff. intros l.
  by rewrite (Frame.active_agree h h' l Hh).
Qed.

Lemma stale_filter_agree now h h' (rows : list nat) :
  heap_agree "days_held" h h' →
  filter (fun l => is_Some (stale_days now (deref h l))) rows
  = filter (fun l => is_Some (stale_days now (deref h' l))) rows.
Proof.
  intros Hh. apply list_filter_iff. intros l.
  by rewrite (Frame.stale_days_agree now h h' l Hh).
Qed.

Lemma insert_desc_ext key key' x l :
  key x = key' x → (∀ y, y ∈ l → key y = key' y) →
  insert_desc key x l = insert_desc key' x l.
Proof.
  intros Hx. induction l as [|y l IH]; intros Hl; simpl; [done|].
  rewrite Hx, (Hl y) by apply list_elem_of_here.
  destruct (key' x <? key' y); [|done].
  f_equal. apply IH. intros z Hz. apply Hl. by apply list_elem_of_further.
Qed.

Lemma sort_desc_elem key l x : x ∈ sort_desc key l ↔ x ∈ l.
Proof.
  revert x. induction l as [|y l IH]; intros x; simpl; [done|].
  rewrite elem_of_cons, <- IH. generalize (sort_desc key l). clear.
  intros l. induction l as [|z l IH]; simpl.
  - rewrite list_elem_of_singleton. split; [by left|].
    intros [?|H]; [done|by apply elem_of_nil in H].
  - destruct (key y <? key z); rewrite !elem_of_cons; [rewrite IH|]; tauto.
Qed.

(** Sorting depends on the key only at the elements of the list. *)
Lemma sort_desc_ext key key' l :
  (∀ y, y ∈ l → key y = key' y) → sort_desc key l = sort_desc key' l.
Proof.
  induction l as [|x l IH]; intros Hl; simpl; [done|].
  rewrite <- IH by (intros y Hy; apply Hl; by apply list_elem_of_further).
  apply insert_desc_ext; [apply Hl, list_elem_of_here|].
  intros y Hy. apply Hl. apply list_elem_of_further.
  by apply sort_desc_elem in Hy.
Qed.

End Agree.

Section Leftover.

Variable float_of_str : string -> option float.
Variable float_sum : list float -> float.

Lemma heap_agree_sym k0 h h' : heap_agree k0 h h' → heap_agree k0 h' h.
Proof. intros H l k Hk. symmetry. by apply H. Qed.

(** Two heaps that differ only under [days_held] give the same local
    variables, and the heaps they leave differ only under [days_held] of
    rows that are not stale. *)
Lemma run_locals_agree now h1 h2 rows s e v h1' :
  heap_agree "days_held" h1 h2 →
  run_locals float_of_str float_sum now h1 rows s e = Ok (v, h1') →
  ∃ h2',
    run_locals float_of_str float_sum now h2 rows s e = Ok (v, h2')
    ∧ heap_agree "days_held" h1' h2'
    ∧ (∀ l, l ∉ stale_inventory v → h2' !! l = h2 !! l)
    ∧ (∀ l d, l ∈ rows → stale_days now (deref h1 l) = Some d →
              deref h2' l = <["days_held" := PyInt d]> (deref h2 l)).
Proof.
  intros Hh Hrun.
  pose proof (run_locals_stale _ _ _ _ _ _ _ _ _ Hrun) as Hstale.
  unfold run_locals in *.
  rewrite <- (Frame.sales_loop_agree "days_held" s e h1 h2 rows)
    by (set_solver || done).
  destruct (sales_loop s e h1 rows) as [[p sv]|x]; [|done]. simpl in *.
  destruct (Frame.inventory_loop_spec now rows h1) as (h1x & E1 & A1 & O1 & I1).
  destruct (Frame.inventory_loop_spec now rows h2) as (h2x & E2 & A2 & O2 & I2).
  rewrite E1 in Hrun. rewrite E2. injection Hrun as Hv <-.
  pose proof (heap_agree_sym _ _ _ Hh) as Hh'.
  assert (Hx : heap_agree "days_held" h2x h1x).
  { eapply Frame.heap_agree_trans; [apply heap_agree_sym, A2|].
    eapply Frame.heap_agree_trans; [exact Hh'|exact A1]. }
  assert (Hst : filter (fun l => is_Some (stale_days now (deref h2 l))) rows
                = filter (fun l => is_Some (stale_days now (deref h1 l))) rows)
    by (by apply Agree.stale_filter_agree).
  assert (Hkey : ∀ y,
            y ∈ filter (fun l => is_Some (stale_days now (deref h1 l))) rows →
            days_held_key h2x y = days_held_key h1x y).
  { intros y Hy. apply list_elem_of_filter in Hy as [[d Hd] Hrows].
    unfold days_held_key.
    rewrite (I1 y d Hrows Hd).
    rewrite (I2 y d Hrows)
      by (by rewrite <- (Frame.stale_days_agree now h1 h2 y Hh)).
    unfold dict_get_or. by rewrite !lookup_insert_eq. }
  exists h2x. split; [|split; [by apply heap_agree_sym|split]].
  - rewrite <- Hv. do 2 f_equal.
    rewrite Hst, (Agree.sort_desc_ext _ _ _ Hkey).
    rewrite (Agree.active_filter_agree h2 h1 rows Hh').
    rewrite !(Agree.sum_of_agree float_sum "days_held" ["HB.sold_price"]
                (sold_price float_of_str) h2 h1)
      by (apply Frame.reads_sold_price || set_solver || done).
    rewrite !(Agree.sum_of_agree float_sum "days_held" ["HB.purchase_price"]
                (purchase_price float_of_str) h2 h1)
      by (apply Frame.reads_purchase_price || set_solver || done).
    rewrite !(Agree.sum_of_agree float_sum "days_held" ["HB.purchase_price"]
                (purchase_price float_of_str) h2x h1x)
      by (apply Frame.reads_purchase_price || set_solver || done).
    rewrite !(Agree.items_with_cost_agree float_of_str "days_held" h2 h1)
      by (set_solver || done).
    rewrite !(Agree.free_items_agree float_of_str "days_held" h2 h1)
      by (set_solver || done).
    rewrite !(Agree.roi_values_agree float_of_str "days_held" h2 h1)
      by (set_solver || done).
    rewrite !(Agree.business_items_agree "days_held" s e h2 h1)
      by (set_solver || done).
    rewrite !(Agree.period_expenses_agree "days_held" s e h2 h1)
      by (set_solver || done).
    rewrite !(Agree.business_assets_agree "days_held" h2 h1)
      by (set_solver || done).
    rewrite !(Agree.junkagie_items_agree "days_held" h2 h1)
      by (set_solver || done).
    rewrite !(Frame.loss_items_agree "days_held" s e h2 h1)
      by (set_solver || done).
    rewrite !(Frame.marketplace_items_agree "days_held" h2x h1x)
      by (set_solver || done).
    rewrite !(Frame.days_to_sell_agree "days_held" h2x h1x)
      by (set_solver || done).
    rewrite !(Agree.inventory_by_location_agree float_of_str "days_held"
                h2x h1x) by (set_solver || done).
    reflexivity.
  - intros l Hl. apply O2. rewrite Hst. intros Hin. apply Hl.
    rewrite Hstale. by apply Agree.sort_desc_elem.
  - intros l d Hl Hd. apply I2; [done|].
    by rewrite <- (Frame.stale_days_agree now h1 h2 l Hh).
Qed.


(** X9: calling again on the rows a call has left, with the same [now] and
    range, returns the same dict and leaves every row as the first call
    left it: each stale row is given the [days_held] it already holds. *)
Theorem second_call_changes_nothing now h rows s e rep h' :
  analyze_homebox_rows float_of_str float_sum now h rows s e = Ok (rep, h') →
  ∃ h'',
    analyze_homebox_rows float_of_str float_sum now h' rows s e = Ok (rep, h'')
    ∧ ∀ l, deref h'' l = deref h' l.
Proof.
  intros Hrun. apply analyze_inv in Hrun as (v & Hrun & ->).
  pose proof (run_locals_sales _ _ _ _ _ _ _ _ _ Hrun) as Hloop.
  destruct (run_locals_ok float_of_str float_sum now h rows s e _ _ Hloop)
    as (v0 & h0 & Hrun0 & _ & _ & _ & _ & _ & _ & _ & _ & Hperm & _ & _ & _ & _
        & _ & Hagree & _ & Hin).
  rewrite Hrun in Hrun0. injection Hrun0 as <- <-.
  destruct (run_locals_agree _ _ _ _ _ _ _ _ Hagree Hrun)
    as (h'' & Hrun2 & _ & Hout2 & Hin2).
  exists h''. split; [unfold analyze_homebox_rows; by rewrite Hrun2|].
  intros l.
  destruct (decide (l ∈ stale_inventory v)) as [Hl|Hl].
  - rewrite Hperm in Hl. apply list_elem_of_filter in Hl as [[d Hd] Hrows].
    rewrite (Hin2 l d Hrows Hd), (Hin l d Hrows Hd).
    by rewrite insert_insert_eq.
  - unfold deref. by rewrite (Hout2 l Hl).
Qed.

End Leftover.

(* ===================================================================== *)
(** ** Inventory by location *)
(* ===================================================================== *)

Module GroupFacts.

Lemma group_add_keys k v g :
  (group_add k v g).*1
  = if decide (k ∈ g.*1) then g.*1 else (g.*1 ++ [k])%list.
Proof.
  induction g as [|[k0 [c s]] g IH]; cbn [group_add].
  - destruct (decide (k ∈ ([] : list (pyval * (Z * pynum))).*1)) as [H|H];
      [by apply elem_of_nil in H|done].
  - destruct (decide (k0 = k)) as [->|Hne]; csimpl.
    + destruct (decide (k ∈ k :: g.*1)) as [H|H]; [done|].
      destruct H. apply list_elem_of_here.
    + rewrite IH.
      destruct (decide (k ∈ g.*1)) as [Hin|Hnin],
        (decide (k ∈ k0 :: g.*1)) as [Hin'|Hnin']; try done.
      * destruct Hnin'. by apply list_elem_of_further.
      * apply elem_of_cons in Hin' as [->|Hin']; done.
Qed.

Lemma group_add_nodup k v g : NoDup (g.*1) → NoDup ((group_add k v g).*1).
Proof.
  intros Hnd. rewrite group_add_keys. case_decide; [done|].
  apply NoDup_app. split; [done|]. split; [|apply NoDup_singleton].
  intros x Hx Hx'. apply list_elem_of_singleton in Hx'. by subst.
Qed.

Lemma group_add_total k v g :
  group_total (group_add k v g) = group_total g + 1.
Proof.
  unfold group_total. induction g as [|[k0 [c s]] g IH]; simpl.
  - rewrite Velocity.sum_int_cons. unfold Py.sum_int. simpl. lia.
  - destruct (decide (k0 = k)); simpl; rewrite !Velocity.sum_int_cons;
      simpl; [lia|]. rewrite IH. lia.
Qed.

Lemma group_add_positive k v g :
  Forall (fun kcs => 1 <= kcs.2.1) g →
  Forall (fun kcs => 1 <= kcs.2.1) (group_add k v g).
Proof.
  induction 1 as [|[k0 [c s]] g Hc Hg IH]; cbn [group_add].
  - apply Forall_cons. split; [simpl; lia|by apply Forall_nil].
  - destruct (decide (k0 = k)); apply Forall_cons; split; simpl in *;
      try done. lia.
Qed.

Lemma inventory_groups float_of_str h rows :
  let g := inventory_by_location float_of_str h rows in
  NoDup (g.*1)
  ∧ Forall (fun kcs => 1 <= kcs.2.1) g
  ∧ group_total g
    = Py.len (filter (fun l => is_archived (deref h l) = false) rows).
Proof.
  unfold inventory_by_location.
  assert (Hgen : ∀ g,
    NoDup (g.*1) → Forall (fun kcs => 1 <= kcs.2.1) g →
    let g' := fold_left (fun g l =>
                let item := deref h l in
                if negb (is_archived item)
                then group_add (dict_get_or item "HB.location" (PyStr "Unknown"))
                       (purchase_price float_of_str item) g
                else g) rows g in
    NoDup (g'.*1) ∧ Forall (fun kcs => 1 <= kcs.2.1) g'
    ∧ group_total g'
      = group_total g
        + Py.len (filter (fun l => is_archived (deref h l) = false) rows)).
  { induction rows as [|l ls IH]; intros g Hnd Hpos; cbv zeta.
    - unfold Py.len. simpl. repeat split; try done. lia.
    - cbn [fold_left]. cbv zeta. rewrite filter_cons.
      destruct (is_archived (deref h l)); cbn [negb].
      + rewrite decide_False by done. by apply IH.
      + rewrite decide_True by done.
        destruct (IH (group_add (dict_get_or (deref h l) "HB.location"
                                   (PyStr "Unknown"))
                        (purchase_price float_of_str (deref h l)) g))
          as (H1 & H2 & H3);
          [by apply group_add_nodup|by apply group_add_positive|].
        cbv zeta in H3. split; [done|]. split; [done|].
        rewrite H3, group_add_total. unfold Py.len. simpl. lia. }
  cbv zeta in *.
  destruct (Hgen [] (NoDup_nil_2) (Forall_nil_2 _)) as (H1 & H2 & H3).
  split; [done|]. split; [done|]. exact H3.
Qed.

End GroupFacts.

Section GroupClaims.

Variable float_of_str : string -> option float.
Variable float_sum : list float -> float.

(** X10: [inventory_by_location] accounts for every row that is not
    archived, once.  When the call gets past its first loop, the groups
    have pairwise different keys, every group counts at least one row, the
    count of a group is the number of non-archived rows filed under its key
    (a missing location is filed under "Unknown"), and the counts add up to
    the number of non-archived rows. *)
Theorem inventory_groups_cover_open_rows now h rows s e v h' :
  run_locals float_of_str float_sum now h rows s e = Ok (v, h') →
  NoDup ((inv_by_loc v).*1)
  ∧ Forall (fun kcs => 1 <= kcs.2.1) (inv_by_loc v)
  ∧ (∀ k, group_count k (inv_by_loc v)
          = Py.len (filter (fun l => is_archived (deref h l) = false
                                     ∧ location_key (deref h l) = k) rows))
  ∧ group_total (inv_by_loc v)
    = Py.len (filter (fun l => is_archived (deref h l) = false) rows).
Proof.
  intros Hrun.
  pose proof (run_locals_sales _ _ _ _ _ _ _ _ _ Hrun) as Hloop.
  destruct (run_locals_ok float_of_str float_sum now h rows s e _ _ Hloop)
    as (v0 & h0 & Hrun0 & _ & _ & _ & _ & _ & _ & _ & _ & _ & _ & _ & _ & _
        & Hinv & Hagree & _).
  rewrite Hrun in Hrun0. injection Hrun0 as <- <-.
  rewrite Hinv.
  rewrite <- (Agree.inventory_by_location_agree float_of_str "days_held" h h')
    by (set_solver || done).
  destruct (GroupFacts.inventory_groups float_of_str h rows) as (H1 & H2 & H3).
  split; [done|]. split; [done|]. split; [|done].
  intros k. by destruct (Groups.inventory_group_count float_of_str h k rows).
Qed.

(** X11: the call on no rows.  For every clock, heap and range it returns
    without touching the heap; every list of the report is empty, every
    count and every average is the [int] 0, and every sum is the [int] 0
    too (the start value of [sum], not the float 0.0). *)
Theorem empty_rows_report now h s e :
  ∃ rep,
    analyze_homebox_rows float_of_str float_sum now h [] s e = Ok (rep, h)
    ∧ Forall (fun key => rep !! key = Some (RNum (PInt 0)))
        ["product_revenue"; "service_revenue"; "total_revenue"; "cogs";
         "net_profit"; "service_profit"; "total_profit"; "avg_roi";
         "items_sold"; "free_items_count"; "avg_sale_price";
         "avg_profit_per_item"; "business_expenses"; "total_expenses";
         "business_assets_value"; "business_assets_count"; "loss_value";
         "loss_count"; "junkagie_count"; "junkagie_potential";
         "total_active_value"; "total_active_count"; "stale_count";
         "marketplace_value"; "marketplace_count"; "avg_days_to_sell";
         "quick_flips"; "fastest_sale"; "slowest_sale"]
    ∧ Forall (fun key => rep !! key = Some (RRows []))
        ["month_sales"; "other_income_items"; "items_with_cost";
         "free_items"; "business_assets"; "stale_inventory"]
    ∧ rep !! "inventory_by_location" = Some (RGroups []).
Proof.
  eexists. split; [reflexivity|].
  split; [|split; [|reflexivity]];
    repeat (apply Forall_cons; split; [reflexivity|]); by apply Forall_nil.
Qed.

End GroupClaims.

(* ===================================================================== *)
(** ** [parse_date] and the sentinel year; [extract_date] *)
(* ===================================================================== *)

Module Sentinel.



Lemma split_head_startswith p s :
  PyStr.startswith p (PyStr.split_head "T" s) = true →
  PyStr.startswith p s = true.
Proof.
  revert s. induction p as [|a p IH]; intros s; [done|].
  destruct s as [|b s]; [done|]. cbn.
  destruct (Ascii.eqb b "T"); [done|]. cbn.
  rewrite !andb_true_iff. intros [Hab Hp]. split; [done|]. by apply IH.
Qed.

Lemma split_head_idem s :
  PyStr.split_head "T" (PyStr.split_head "T" s) = PyStr.split_head "T" s.
Proof.
  induction s as [|c s IH]; [done|]. cbn.
  destruct (Ascii.eqb c "T") eqn:E; [done|]. cbn. by rewrite E, IH.
Qed.

Lemma contains_T_cons c s :
  PyStr.contains "T" (String c s)
  = (Ascii.eqb c "T" || PyStr.contains "T" s)%bool.
Proof.
  cbn [PyStr.contains PyStr.startswith].
  rewrite andb_true_r, Ascii.eqb_sym. reflexivity.
Qed.

Lemma split_head_no_T s :
  PyStr.contains "T" (PyStr.split_head "T" s) = false.
Proof.
  induction s as [|c s IH]; [done|]. cbn [PyStr.split_head].
  destruct (Ascii.eqb c "T") eqn:E; [done|].
  by rewrite contains_T_cons, E, IH.
Qed.

Lemma no_T_split_head s :
  PyStr.contains "T" s = false → PyStr.split_head "T" s = s.
Proof.
  induction s as [|c s IH]; [done|].
  rewrite contains_T_cons. cbn [PyStr.split_head].
  destruct (Ascii.eqb c "T"); cbn; [done|].
  intros H. by rewrite IH.
Qed.


End Sentinel.



(** X13: the date fields the API mapping writes are read by the engine as
    the API sent them.  Whenever [extract_date] returns a text, [parse_date]
    gives for that text what it gives for the API value itself; the text
    holds no "T", and [extract_date] maps it to itself. *)
Theorem extract_date_keeps_the_date (iso_str : pyval) (s : string) :
  extract_date iso_str = Ok s →
  parse_date (PyStr s) = parse_date iso_str
  ∧ PyStr.contains "T" s = false
  ∧ extract_date (PyStr s) = Ok s.
Proof.
  unfold extract_date.
  destruct (Py.truthy iso_str) eqn:Htruthy; cbn [negb].
  2:{ intros [= <-]. split; [|by split].
      unfold parse_date. by rewrite Htruthy. }
  destruct iso_str as [|s0|z]; try done.
  destruct (PyStr.startswith "0001" s0) eqn:Hsent.
  { intros [= <-]. split; [|by split].
    unfold parse_date. cbn [Py.str]. rewrite Hsent, orb_true_r. done. }
  destruct (PyStr.contains "T" s0) eqn:HT; intros [= <-].
  - assert (Hsent' : PyStr.startswith "0001" (PyStr.split_head "T" s0) = false).
    { apply not_true_is_false. intros H.
      apply Sentinel.split_head_startswith in H. congruence. }
    split; [|split].
    + unfold parse_date. cbn [Py.str]. rewrite Hsent, Hsent', Htruthy.
      rewrite Sentinel.split_head_idem. cbn [negb orb].
      destruct (Py.truthy (PyStr (PyStr.split_head "T" s0))) eqn:E; [done|].
      cbn [negb orb]. cbn in E. apply negb_false_iff, String.eqb_eq in E.
      by rewrite E.
    + apply Sentinel.split_head_no_T.
    + rewrite Hsent', Sentinel.split_head_no_T.
      by destruct (Py.truthy (PyStr (PyStr.split_head "T" s0))) eqn:E;
        [|cbn in E; apply negb_false_iff, String.eqb_eq in E; rewrite E].
  - split; [done|]. split; [done|].
    by rewrite Htruthy, Hsent, HT.
Qed.

Lemma extract_date_keeps_the_date_witness :
  extract_date (PyStr "2025-11-10T14:30:00Z") = Ok "2025-11-10"
  ∧ parse_date (PyStr "2025-11-10") = parse_date (PyStr "2025-11-10T14:30:00Z").
Proof.
  assert (H : extract_date (PyStr "2025-11-10T14:30:00Z") = Ok "2025-11-10")
    by (vm_compute; reflexivity).
  split; [exact H|].
  exact (proj1 (extract_date_keeps_the_date _ _ H)).
Defined.

(* ===================================================================== *)
(** ** The inventory theorems on sample inputs *)
(* ===================================================================== *)

(** A sample call that returns has run through its local variables. *)
Lemma sample_locals items :
  returns (Sample.run items) = true →
  ∃ v h',
    run_locals Builtins.float_of_str Builtins.float_sum Sample.now
      (Sample.heap_of items) (Sample.refs items)
      Sample.nov_start Sample.nov_end = Ok (v, h').
Proof.
  intros Hok.
  destruct (run_locals Builtins.float_of_str Builtins.float_sum Sample.now
              (Sample.heap_of items) (Sample.refs items)
              Sample.nov_start Sample.nov_end) as [[v h']|x] eqn:Hrun;
    [by exists v, h'|].
  exfalso. revert Hok.
  unfold Sample.run, Builtins.analyze, analyze_homebox_rows.
  rewrite Hrun. discriminate.
Defined.

Lemma stale_inventory_is_sorted_witness :
  let items := [Sample.stale_item; Sample.sold_item] in
  ∃ v h',
    run_locals Builtins.float_of_str Builtins.float_sum Sample.now
      (Sample.heap_of items) (Sample.refs items)
      Sample.nov_start Sample.nov_end = Ok (v, h')
    ∧ StronglySorted (held_longer (days_held_key h')) (stale_inventory v)
    ∧ (length (stale_inventory v) ≤ length (active_inventory v))%nat.
Proof.
  cbv zeta.
  assert (Hok : returns (Sample.run [Sample.stale_item; Sample.sold_item])
                = true) by (vm_compute; reflexivity).
  destruct (sample_locals _ Hok) as (v & h' & Hrun).
  exists v, h'. split; [exact Hrun|].
  destruct (stale_inventory_is_sorted _ _ _ _ _ _ _ _ _ Hrun)
    as (Hsorted & _ & _ & Hlen).
  split; [exact Hsorted|exact Hlen].
Defined.

Lemma archived_rows_are_left_out_witness :
  let items := [Sample.stale_item; Sample.sold_item] in
  dict_get (deref (Sample.heap_of items) 1%nat) "HB.archived" = PyStr "true"
  ∧ ∃ v h',
      run_locals Builtins.float_of_str Builtins.float_sum Sample.now
        (Sample.heap_of items) (Sample.refs items)
        Sample.nov_start Sample.nov_end = Ok (v, h')
      ∧ 1%nat ∉ active_inventory v
      ∧ 1%nat ∉ stale_inventory v
      ∧ h' !! 1%nat = Sample.heap_of items !! 1%nat.
Proof.
  cbv zeta.
  assert (Hok : returns (Sample.run [Sample.stale_item; Sample.sold_item])
                = true) by (vm_compute; reflexivity).
  assert (Harch : dict_get (deref (Sample.heap_of
                     [Sample.stale_item; Sample.sold_item]) 1%nat)
                    "HB.archived" = PyStr "true")
    by (vm_compute; reflexivity).
  split; [exact Harch|].
  destruct (sample_locals _ Hok) as (v & h' & Hrun).
  exists v, h'. split; [exact Hrun|].
  destruct (archived_rows_are_left_out _ _ _ _ _ _ _ _ _ 1%nat Hrun Harch)
    as (Hactive & Hstale & _ & Hsame).
  split; [exact Hactive|]. split; [exact Hstale|exact Hsame].
Defined.


Lemma second_call_changes_nothing_witness :
  let items := [Sample.stale_item; Sample.sold_item] in
  analyze_homebox_rows Builtins.float_of_str Builtins.float_sum Sample.now
    (Sample.heap_of items) (Sample.refs items) Sample.nov_start Sample.nov_end
  = Ok (Sample.report_of items, Sample.heap_after items)
  ∧ ∃ h'',
      analyze_homebox_rows Builtins.float_of_str Builtins.float_sum Sample.now
        (Sample.heap_after items) (Sample.refs items)
        Sample.nov_start Sample.nov_end
      = Ok (Sample.report_of items, h'')
      ∧ ∀ l, deref h'' l = deref (Sample.heap_after items) l.
Proof.
  cbv zeta.
  assert (Hok : returns (Sample.run [Sample.stale_item; Sample.sold_item])
                = true) by (vm_compute; reflexivity).
  pose proof (sample_run_returns _ Hok) as Hrun.
  split; [exact Hrun|].
  exact (second_call_changes_nothing _ _ _ _ _ _ _ _ _ Hrun).
Defined.

Lemma inventory_groups_cover_open_rows_witness :
  let items := [Sample.stale_item; Sample.listed_item; Sample.sold_item] in
  ∃ v h',
    run_locals Builtins.float_of_str Builtins.float_sum Sample.now
      (Sample.heap_of items) (Sample.refs items)
      Sample.nov_start Sample.nov_end = Ok (v, h')
    ∧ NoDup ((inv_by_loc v).*1)
    ∧ group_total (inv_by_loc v)
      = Py.len (filter (fun l => is_archived (deref (Sample.heap_of items) l)
                                 = false) (Sample.refs items)).
Proof.
  cbv zeta.
  assert (Hok : returns (Sample.run [Sample.stale_item; Sample.listed_item;
                                     Sample.sold_item]) = true)
    by (vm_compute; reflexivity).
  destruct (sample_locals _ Hok) as (v & h' & Hrun).
  exists v, h'. split; [exact Hrun|].
  destruct (inventory_groups_cover_open_rows _ _ _ _ _ _ _ _ _ Hrun)
    as (Hnodup & _ & _ & Htotal).
  split; [exact Hnodup|exact Htotal].
Defined.

(* ===================================================================== *)
(** ** [run_detailed_analysis]: the engine runs on copies *)
(* ===================================================================== *)

Module Copies.

(** [sanitize_rows] leaves the objects of the caller alone, returns new
    objects only, no object twice, and the i-th new row holds the items of
    the i-th row. *)
Lemma sanitize_rows_spec (rows : list nat) (h h1 : heap) (safe : list nat) :
  sanitize_rows h rows = (h1, safe) →
  (∀ l, is_Some (h !! l) → h1 !! l = h !! l)
  ∧ (∀ l, l ∈ safe → h !! l = None ∧ is_Some (h1 !! l))
  ∧ NoDup safe
  ∧ Forall2 (fun l l' => is_Some (h !! l) → deref h1 l' = deref h l)
      rows safe.
Proof.
  revert h h1 safe. induction rows as [|l ls IH]; intros h h1 safe;
    cbn [sanitize_rows].
  - intros [= <- <-]. split; [done|].
    split; [intros l Hl; by apply elem_of_nil in Hl|].
    split; [apply NoDup_nil_2|constructor].
  - cbv zeta.
    destruct (sanitize_rows (<[fresh (dom h) := deref h l]> h) ls)
      as [h2 safe'] eqn:Hs.
    intros [= <- <-].
    assert (Hfresh : h !! fresh (dom h) = None)
      by apply not_elem_of_dom, is_fresh.
    assert (Hne : ∀ x, is_Some (h !! x) → fresh (dom h) ≠ x).
    { intros x Hx <-. rewrite Hfresh in Hx. by apply is_Some_None in Hx. }
    destruct (IH _ _ _ Hs) as (Hkeep & Hnew & Hnd & Hcopy).
    assert (Hl' : h2 !! fresh (dom h) = Some (deref h l)).
    { rewrite Hkeep; rewrite lookup_insert_eq; eauto. }
    split; [|split; [|split]].
    + intros x Hx. pose proof (Hne x Hx) as Hx'.
      rewrite Hkeep by (by rewrite lookup_insert_ne).
      by rewrite lookup_insert_ne.
    + intros x Hx. apply elem_of_cons in Hx as [->|Hx].
      * split; [done|]. rewrite Hl'. eauto.
      * destruct (Hnew x Hx) as [Hn Hsome]. split; [|done].
        apply lookup_insert_None in Hn. tauto.
    + apply NoDup_cons. split; [|done]. intros Hin.
      destruct (Hnew _ Hin) as [Hn _]. by rewrite lookup_insert_eq in Hn.
    + constructor.
      * intros _. unfold deref at 1. by rewrite Hl'.
      * eapply Forall2_impl; [exact Hcopy|]. intros x y Hxy Hx.
        pose proof (Hne x Hx) as Hx'.
        rewrite Hxy by (by rewrite lookup_insert_ne).
        unfold deref. by rewrite lookup_insert_ne.
Qed.

End Copies.

Section DetailedAnalysis.

Variable float_of_str : string -> option float.
Variable float_sum : list float -> float.

(** The row lists of the report are made of rows of the call. *)
Lemma report_rows_within now h rows s e v h' :
  run_locals float_of_str float_sum now h rows s e = Ok (v, h') →
  Forall (fun key => ∀ ls, dict_display (report_items s e v) !! key
                           = Some (RRows ls) → ls ⊆ rows)
    ["month_sales"; "other_income_items"; "items_with_cost";
     "free_items"; "business_assets"; "stale_inventory"].
Proof.
  intros Hrun.
  pose proof (run_locals_sales _ _ _ _ _ _ _ _ _ Hrun) as Hsales.
  destruct (run_locals_ok float_of_str float_sum now h rows s e _ _ Hsales)
    as (v0 & h0 & Hrun0 & _ & _ & Hwc & Hfree & _ & _ & Hassets & _ & Hstale
        & _).
  rewrite Hrun in Hrun0. injection Hrun0 as <- <-.
  destruct (sales_loop_subset _ _ _ _ _ _ Hsales) as [Hp Hsv].
  pose proof (report_lookup s e v) as L. cbv zeta in L.
  destruct L as (_ & _ & _ & _ & _ & _ & _ & _ & _ & _ & _ & _ & Lsales
                 & Lserv & Lstale & Lwc & Lfree & Lassets).
  repeat (apply Forall_cons; split); [| | | | | |by apply Forall_nil];
    intros ls Hrep.
  - rewrite Lsales in Hrep. by injection Hrep as <-.
  - rewrite Lserv in Hrep. by injection Hrep as <-.
  - rewrite Lwc in Hrep. injection Hrep as <-.
    rewrite Hwc. intros l Hl. apply Hp.
    unfold items_with_cost in Hl. apply list_elem_of_filter in Hl. tauto.
  - rewrite Lfree in Hrep. injection Hrep as <-.
    rewrite Hfree. intros l Hl. apply Hp.
    unfold free_items in Hl. apply list_elem_of_filter in Hl. tauto.
  - rewrite Lassets in Hrep. injection Hrep as <-.
    rewrite Hassets. intros l Hl.
    unfold business_assets in Hl. apply list_elem_of_filter in Hl. tauto.
  - rewrite Lstale in Hrep. injection Hrep as <-.
    intros l Hl. rewrite Hstale in Hl. apply list_elem_of_filter in Hl. tauto.
Qed.

(** X14: [run_detailed_analysis] does not write to the rows it is given.
    Whenever it returns, every object of the caller is as it was (the
    [days_held] of a stale row goes to a copy), every row in the lists of
    the report is an object the call created, and the report carries the
    bounds widened to the whole first and last day. *)
Theorem detailed_analysis_keeps_caller_rows now h raw_rows s e rep h' :
  run_detailed_analysis float_of_str float_sum now h raw_rows s e
  = Ok (rep, h') →
  (∀ l, is_Some (h !! l) → h' !! l = h !! l)
  ∧ Forall (fun key => ∀ ls, rep !! key = Some (RRows ls) →
                        ∀ l, l ∈ ls → h !! l = None)
      ["month_sales"; "other_income_items"; "items_with_cost";
       "free_items"; "business_assets"; "stale_inventory"]
  ∧ rep !! "start_date" = Some (RDateTime (DateTime (dt_date s) 0))
  ∧ rep !! "end_date"
    = Some (RDateTime (DateTime (dt_date e) 86399999999)).
Proof.
  unfold run_detailed_analysis.
  destruct (sanitize_rows h raw_rows) as [h1 safe] eqn:Hs. intros Hrun.
  destruct (Copies.sanitize_rows_spec _ _ _ _ Hs) as (Hkeep & Hnew & _ & _).
  apply analyze_inv in Hrun as (v & Hrun & ->).
  pose proof (run_locals_sales _ _ _ _ _ _ _ _ _ Hrun) as Hsales.
  destruct (run_locals_ok float_of_str float_sum now h1 safe _ _ _ _ Hsales)
    as (v0 & h0 & Hrun0 & _ & _ & _ & _ & _ & _ & _ & _ & Hperm & _ & _ & _ & _
        & _ & _ & Hout & _).
  rewrite Hrun in Hrun0. injection Hrun0 as <- <-.
  split; [|split; [|split; reflexivity]].
  - intros l Hl. rewrite <- Hkeep by done. apply Hout.
    rewrite Hperm. intros Hin. apply list_elem_of_filter in Hin as [_ Hin].
    destruct (Hnew l Hin) as [Hn _]. rewrite Hn in Hl.
    by apply is_Some_None in Hl.
  - eapply Forall_impl; [exact (report_rows_within _ _ _ _ _ _ _ Hrun)|].
    intros key Hkey ls Hrep l Hl. apply Hnew. by apply (Hkey ls Hrep).
Qed.

(** X15: only the days of the bounds count.  Two calls whose bounds fall on
    the same days, at whatever time of day, give the same local values (the
    lists, sums, counts and averages of the report) and leave the same
    heap. *)
Theorem only_the_days_of_the_bounds_count now h rows s e s' e' :
  dt_date s' = dt_date s →
  dt_date e' = dt_date e →
  run_locals float_of_str float_sum now h rows s' e'
  = run_locals float_of_str float_sum now h rows s e.
Proof.
  destruct s as [d t], e as [d0 t0], s' as [d' t'], e' as [d0' t0'].
  simpl. intros -> ->. reflexivity.
Qed.

End DetailedAnalysis.

Lemma detailed_analysis_keeps_caller_rows_witness :
  let h := Sample.heap_of [Sample.stale_item] in
  ∃ rep h',
    run_detailed_analysis Builtins.float_of_str Builtins.float_sum Sample.now
      h [0%nat] Sample.nov_start Sample.nov_end = Ok (rep, h')
    ∧ h' !! 0%nat = h !! 0%nat.
Proof.
  cbv zeta.
  assert (Hok : returns (run_detailed_analysis Builtins.float_of_str
                           Builtins.float_sum Sample.now
                           (Sample.heap_of [Sample.stale_item]) [0%nat]
                           Sample.nov_start Sample.nov_end) = true)
    by (vm_compute; reflexivity).
  destruct (run_detailed_analysis Builtins.float_of_str Builtins.float_sum
              Sample.now (Sample.heap_of [Sample.stale_item]) [0%nat]
              Sample.nov_start Sample.nov_end) as [[rep h']|x] eqn:Hrun;
    [|discriminate].
  exists rep, h'. split; [reflexivity|].
  apply (proj1 (detailed_analysis_keeps_caller_rows _ _ _ _ _ _ _ _ _ Hrun)).
  apply (bool_decide_unpack _). vm_compute. exact I.
Defined.

Lemma only_the_days_of_the_bounds_count_witness :
  let items := [Sample.sold_item; Sample.stale_item] in
  run_locals Builtins.float_of_str Builtins.float_sum Sample.now
    (Sample.heap_of items) (Sample.refs items)
    (DateTime (Date 2025 11 1) 43200000000) (DateTime (Date 2025 11 30) 0)
  = run_locals Builtins.float_of_str Builtins.float_sum Sample.now
      (Sample.heap_of items) (Sample.refs items)
      Sample.nov_start Sample.nov_end.
Proof.
  cbv zeta.
  apply only_the_days_of_the_bounds_count; reflexivity.
Defined.

(* ===================================================================== *)
(** ** The legacy script: its month sales, and the range engine *)
(* ===================================================================== *)

Module Legacy.

(** When the selection loop returns, it has decided every row, and
    [sold_items] holds the rows it decided to keep. *)
Lemma legacy_sold_items_spec h rows sold :
  legacy_sold_items h rows = LOk sold →
  (∀ l, l ∈ rows → ∃ b, legacy_is_sold (deref h l) = LOk b)
  ∧ (∀ l, l ∈ sold ↔ l ∈ rows ∧ legacy_is_sold (deref h l) = LOk true).
Proof.
  revert sold. induction rows as [|l ls IH]; intros sold;
    cbn [legacy_sold_items].
  - intros [= <-]. split; [intros l Hl; by apply elem_of_nil in Hl|].
    intros l. split; [intros Hl|intros [Hl _]]; by apply elem_of_nil in Hl.
  - destruct (legacy_is_sold (deref h l)) as [b| |] eqn:Hb;
      cbn [legacy_bind]; try done.
    destruct (legacy_sold_items h ls) as [rest| |];
      cbn [legacy_bind]; try done.
    intros [= <-]. destruct (IH rest eq_refl) as [Hall Hiff].
    split.
    + intros x Hx. apply elem_of_cons in Hx as [->|Hx];
        [by exists b|by apply Hall].
    + intros x. destruct b.
      * rewrite !elem_of_cons, Hiff. split.
        -- intros [->|[Hx Hs]]; (split; [by auto|done]).
        -- intros [[->|Hx] Hs]; [by left|right; by split].
      * rewrite elem_of_cons, Hiff. split.
        -- intros [Hx Hs]. split; [by right|done].
        -- intros [[->|Hx] Hs]; [congruence|by split].
Qed.

(** A sale date that [parse_date] accepts passes the [has_sold_time] test,
    whenever that test returns. *)
Lemma sold_in_month_has_sold_time m y (r : row) b :
  sold_in_month m y r = true → has_sold_time r = LOk b → b = true.
Proof.
  unfold sold_in_month, has_sold_time, parse_date.
  generalize (dict_get r "HB.sold_time"). intros v. cbv zeta.
  destruct (Py.truthy v); cbn [negb orb]; [|done].
  destruct v as [|s|z]; try done. cbn [Py.str].
  destruct (PyStr.startswith "0001" s); [done|].
  by intros _ [= <-].
Qed.

Lemma legacy_is_sold_true (r : row) :
  legacy_is_sold r = LOk true →
  dict_get r "HB.archived" = PyStr "true"
  ∧ location_contains (dict_get_or r "HB.location" (PyStr "")) "Other Income"
    = false
  ∧ location_contains (dict_get_or r "HB.location" (PyStr "")) "Loss" = false.
Proof.
  unfold legacy_is_sold. cbv zeta.
  destruct (has_sold_time r) as [hs| |]; cbn [legacy_bind]; try done.
  destruct (Py.is_true_str (dict_get r "HB.archived")) eqn:Ha; [|done].
  apply StrFacts.is_true_str_spec in Ha.
  destruct (sold_in_location _) as [b| |]; cbn [legacy_bind]; try done.
  destruct (b || hs)%bool; [|done].
  destruct (location_contains _ "Other Income"); [done|].
  destruct (location_contains _ "Loss"); [done|]. done.
Qed.

Lemma legacy_is_sold_of_month m y (r : row) b :
  legacy_is_sold r = LOk b →
  dict_get r "HB.archived" = PyStr "true" →
  sold_in_month m y r = true →
  location_contains (dict_get_or r "HB.location" (PyStr "")) "Other Income"
  = false →
  location_contains (dict_get_or r "HB.location" (PyStr "")) "Loss" = false →
  b = true.
Proof.
  unfold legacy_is_sold. cbv zeta. intros Hb Ha Hm Ho Hl.
  destruct (has_sold_time r) as [hs| |] eqn:Hhs; cbn [legacy_bind] in Hb;
    try done.
  rewrite (sold_in_month_has_sold_time _ _ _ _ Hm Hhs) in Hb.
  apply StrFacts.is_true_str_spec in Ha. rewrite Ha in Hb.
  destruct (sold_in_location _) as [b'| |]; cbn [legacy_bind] in Hb;
    try done.
  rewrite orb_true_r, Ho, Hl in Hb. by injection Hb as <-.
Qed.

(** The legacy [month_sales], row by row. *)
Lemma month_sales_iff h rows m y sales :
  legacy_month_sales h rows m y = LOk sales →
  ∀ l, l ∈ sales ↔
       l ∈ rows
       ∧ dict_get (deref h l) "HB.archived" = PyStr "true"
       ∧ sold_in_month m y (deref h l) = true
       ∧ location_contains
           (dict_get_or (deref h l) "HB.location" (PyStr "")) "Other Income"
         = false
       ∧ location_contains
           (dict_get_or (deref h l) "HB.location" (PyStr "")) "Loss" = false.
Proof.
  unfold legacy_month_sales.
  destruct (legacy_sold_items h rows) as [sold| |] eqn:Hsold;
    cbn [legacy_bind]; try done.
  intros [= <-] l.
  destruct (legacy_sold_items_spec _ _ _ Hsold) as [Hall Hiff].
  rewrite list_elem_of_filter, Hiff. split.
  - intros [Hm [Hl Hs]]. by destruct (legacy_is_sold_true _ Hs) as (? & ? & ?).
  - intros (Hl & Ha & Hm & Ho & Hlo). split; [done|]. split; [done|].
    destruct (Hall l Hl) as [b Hb]. rewrite Hb. f_equal.
    by eapply legacy_is_sold_of_month.
Qed.

(** A date of the calendar lies between the first and the last day of a
    month exactly when it has the month and the year. *)
Lemma in_month_range y m d :
  PyDate.valid (dt_date d) = true →
  is_in_range (month_start y m) (month_end y m) (Some d)
  = ((month (dt_date d) =? m) && (year (dt_date d) =? y))%bool.
Proof.
  intros Hv. apply DateFacts.valid_spec in Hv.
  destruct d as [[yd md dd] t]. simpl in Hv.
  unfold is_in_range, month_start, month_end, PyDate.leb. simpl.
  destruct (Z.eqb_spec md m) as [->|Hm], (Z.eqb_spec yd y) as [->|Hy];
    simpl.
  - rewrite !Z.ltb_irrefl, !Z.eqb_refl. simpl.
    destruct (Z.leb_spec 1 dd), (Z.leb_spec dd (PyDate.days_in_month y m));
      simpl; try done; lia.
  - destruct (Z.ltb_spec y yd), (Z.ltb_spec yd y), (Z.eqb_spec y yd);
      simpl; try done; lia.
  - rewrite !Z.ltb_irrefl, !Z.eqb_refl. simpl.
    destruct (Z.ltb_spec m md), (Z.ltb_spec md m), (Z.eqb_spec m md);
      simpl; try done; lia.
  - destruct (Z.ltb_spec y yd), (Z.ltb_spec yd y), (Z.eqb_spec y yd);
      simpl; try done; lia.
Qed.

(** The range test of the engine on a calendar month is the month test of
    the legacy script. *)
Lemma sold_in_month_range y m (r : row) :
  sold_in_range (month_start y m) (month_end y m) r = sold_in_month m y r.
Proof.
  unfold sold_in_range, sold_in_month, dated_in_range.
  destruct (parse_date (dict_get r "HB.sold_time")) as [d|] eqn:Hd.
  - rewrite bool_decide_eq_true_2 by eauto. cbn [andb].
    apply in_month_range. by apply (StrFacts.parse_date_midnight _ _ Hd).
  - by rewrite andb_false_r.
Qed.

(** A row in range is classified as a sale or skipped for its location. *)
Lemma classify_sold s e (r : row) k :
  classify s e r = Ok k → sold_in_range s e r = true → k ≠ NoSale.
Proof.
  unfold classify. intros Hk Hr. rewrite Hr in Hk.
  destruct (Py.lower (dict_get_or r "HB.labels" (PyStr ""))) as [labels|x];
    simpl in Hk; [|done].
  destruct (Py.lower (dict_get_or r "HB.location" (PyStr ""))) as [loc|x];
    simpl in Hk; [|done].
  destruct (is_service labels loc), (negb (PyStr.contains "loss" loc));
    by injection Hk as <-.
Qed.

(** A product sale has a location without "other income". *)
Lemma classify_product s e (r : row) :
  classify s e r = Ok ProductSale →
  location_contains (dict_get_or r "HB.location" (PyStr "")) "Other Income"
  = false.
Proof.
  unfold classify. destruct (sold_in_range s e r); [|done].
  destruct (Py.lower (dict_get_or r "HB.labels" (PyStr ""))) as [labels|x];
    simpl; [|done].
  unfold location_contains.
  change (PyStr.lower "Other Income") with "other income".
  destruct (dict_get_or r "HB.location" (PyStr "")) as [|loc|z];
    cbn [Py.lower Py.str bind]; try done.
  unfold is_service.
  destruct (PyStr.contains "other income" (PyStr.lower loc)); [|done].
  by rewrite !orb_true_r.
Qed.

End Legacy.

(** X16: the legacy [month_sales], row by row.  When the legacy selection
    returns, a row is a month sale if and only if it is one of the rows, its
    [archived] is "true", its sale date parses to a date of the target month
    and year, and its location mentions neither "other income" nor "loss" in
    any letter case.  The test for "Sold" in the location decides nothing
    here: a row with a sale date that parses always has a sold time. *)
Theorem legacy_month_sales_need_no_sold_folder h rows m y sales :
  legacy_month_sales h rows m y = LOk sales →
  ∀ l, l ∈ sales ↔
       l ∈ rows
       ∧ dict_get (deref h l) "HB.archived" = PyStr "true"
       ∧ sold_in_month m y (deref h l) = true
       ∧ location_contains
           (dict_get_or (deref h l) "HB.location" (PyStr "")) "Other Income"
         = false
       ∧ location_contains
           (dict_get_or (deref h l) "HB.location" (PyStr "")) "Loss" = false.
Proof. exact (Legacy.month_sales_iff h rows m y sales). Qed.

Lemma legacy_month_sales_need_no_sold_folder_witness :
  let h := Sample.heap_of [Sample.sold_item; Sample.unarchived_income] in
  legacy_month_sales h [0%nat; 1%nat] 11 2025 = LOk [0%nat]
  ∧ (1%nat ∈ [0%nat] ↔
     1%nat ∈ [0%nat; 1%nat]
     ∧ dict_get (deref h 1%nat) "HB.archived" = PyStr "true"
     ∧ sold_in_month 11 2025 (deref h 1%nat) = true
     ∧ location_contains
         (dict_get_or (deref h 1%nat) "HB.location" (PyStr "")) "Other Income"
       = false
     ∧ location_contains
         (dict_get_or (deref h 1%nat) "HB.location" (PyStr "")) "Loss"
       = false).
Proof.
  cbv zeta.
  assert (H : legacy_month_sales
                (Sample.heap_of [Sample.sold_item; Sample.unarchived_income])
                [0%nat; 1%nat] 11 2025 = LOk [0%nat])
    by (vm_compute; reflexivity).
  split; [exact H|].
  exact (legacy_month_sales_need_no_sold_folder _ _ _ _ _ H 1%nat).
Defined.

(** X17: the legacy month sales against the first loop of the range engine
    run on a calendar month ([month_start] to [month_end], for a month 1 to
    12 of a year 1 to 9999).  When both return, every legacy month sale is listed by the engine, as a product
    sale or as a service sale, and a product sale of the engine is a legacy
    month sale exactly when its [archived] is "true": the engine dropped the
    archived test and moved the rows marked service, labor or other income
    to the services. *)
Theorem legacy_sales_against_range_engine h rows y m sales products services :
  1 <= y <= 9999 → 1 <= m <= 12 →
  legacy_month_sales h rows m y = LOk sales →
  sales_loop (month_start y m) (month_end y m) h rows
  = Ok (products, services) →
  (∀ l, l ∈ sales → l ∈ products ∨ l ∈ services)
  ∧ (∀ l, l ∈ products →
          (l ∈ sales ↔ dict_get (deref h l) "HB.archived" = PyStr "true")).
Proof.
  intros _ _ Hlegacy Hloop.
  pose proof (Legacy.month_sales_iff _ _ _ _ _ Hlegacy) as Hiff.
  destruct (Sales.sales_loop_filter _ _ _ _ _ _ Hloop) as [Hp Hs].
  assert (Hret : returns (sales_loop (month_start y m) (month_end y m) h rows)
                 = true) by (by rewrite Hloop).
  split.
  - intros l Hl. apply Hiff in Hl as (Hrows & _ & Hm & _ & Hloss).
    rewrite <- Legacy.sold_in_month_range in Hm.
    pose proof (proj1 (Sales.sales_loop_returns _ _ _ _) Hret l Hrows) as Hk.
    destruct (classify (month_start y m) (month_end y m) (deref h l))
      as [k|x] eqn:Hcl; [|done].
    pose proof (Legacy.classify_sold _ _ _ _ Hcl Hm) as Hsale.
    destruct (Sales.classify_loss _ _ _ _ Hcl) as [_ Hskip].
    destruct k.
    + done.
    + right. rewrite Hs. by apply list_elem_of_filter.
    + left. rewrite Hp. by apply list_elem_of_filter.
    + rewrite Hskip in Hloss; done.
  - intros l Hl. rewrite Hp in Hl. apply list_elem_of_filter in Hl as [Hcl Hrows].
    rewrite Hiff. split; [tauto|]. intros Ha.
    split; [done|]. split; [done|]. split; [|split].
    + rewrite <- Legacy.sold_in_month_range.
      by eapply Sales.classify_in_range.
    + by eapply Legacy.classify_product.
    + by apply (Sales.classify_loss _ _ _ _ Hcl).
Qed.

Lemma legacy_sales_against_range_engine_witness :
  let h := Sample.heap_of [Sample.sold_item; Sample.unarchived_income] in
  legacy_month_sales h [0%nat; 1%nat] 11 2025 = LOk [0%nat]
  ∧ sales_loop (month_start 2025 11) (month_end 2025 11) h [0%nat; 1%nat]
    = Ok ([0%nat], [1%nat])
  ∧ (∀ l, l ∈ [0%nat] → l ∈ [0%nat] ∨ l ∈ [1%nat])
  ∧ (∀ l, l ∈ [0%nat] →
          (l ∈ [0%nat] ↔ dict_get (deref h l) "HB.archived" = PyStr "true")).
Proof.
  cbv zeta.
  assert (H : legacy_month_sales
                (Sample.heap_of [Sample.sold_item; Sample.unarchived_income])
                [0%nat; 1%nat] 11 2025 = LOk [0%nat])
    by (vm_compute; reflexivity).
  assert (H' : sales_loop (month_start 2025 11) (month_end 2025 11)
                 (Sample.heap_of [Sample.sold_item; Sample.unarchived_income])
                 [0%nat; 1%nat] = Ok ([0%nat], [1%nat]))
    by (vm_compute; reflexivity).
  split; [exact H|]. split; [exact H'|].
  exact (legacy_sales_against_range_engine _ _ 2025 11 _ _ _
           ltac:(lia) ltac:(lia) H H').
Defined.

(* ===================================================================== *)
(** ** ROI, the rows set aside, and the summary of the app *)
(* ===================================================================== *)

Module Roi.

(** Every item with a cost has a ROI: the guard of the division holds on
    each of them. *)
Lemma roi_values_length float_of_str h (products : list nat) :
  length (roi_values float_of_str h (items_with_cost float_of_str h products))
  = length (items_with_cost float_of_str h products).
Proof.
  unfold roi_values, items_with_cost.
  induction products as [|l ls IH]; [done|].
  rewrite filter_cons. case_decide as Hp; [|done].
  csimpl. rewrite Hp. simpl. by rewrite IH.
Qed.

Lemma set_aside_not_active (r : row) (text : string) :
  PyStr.lower text ∈ ["nfs"; "other income"; "junkagie"; "business assets"] →
  location_contains (dict_get_or r "HB.location" (PyStr "")) text = true →
  is_active r = false.
Proof.
  unfold location_contains, is_active, location_lower, PyStr.contains_any.
  intros Hin Hc. rewrite andb_false_iff. right.
  apply negb_false_iff, existsb_exists. exists (PyStr.lower text).
  split; [|done]. by apply list_elem_of_In.
Qed.

End Roi.

Section RoiClaims.

Variable float_of_str : string -> option float.
Variable float_sum : list float -> float.

(** X18: the guard [if p > 0] of the ROI loop never skips an item, and
    [avg_roi] tells whether there was a cost.  When the call gets past its
    first loop, every item with a cost has a purchase price above zero and
    contributes one ROI value; [avg_roi] is the [int] 0 exactly when no
    product sale has a cost, and a [float] otherwise. *)
Theorem avg_roi_is_zero_only_without_costs now h rows s e v h' :
  run_locals float_of_str float_sum now h rows s e = Ok (v, h') →
  Forall (fun l => PrimFloat.ltb 0 (purchase_price float_of_str (deref h l))
                   = true) (with_cost v)
  ∧ length (roi_values float_of_str h (with_cost v)) = length (with_cost v)
  ∧ (avg_roi v = PInt 0 ↔ with_cost v = [])
  ∧ (with_cost v ≠ [] → ∃ f, avg_roi v = PFloat f).
Proof.
  intros Hrun.
  pose proof (run_locals_sales _ _ _ _ _ _ _ _ _ Hrun) as Hsales.
  destruct (run_locals_ok float_of_str float_sum now h rows s e _ _ Hsales)
    as (v0 & h0 & Hrun0 & _ & _ & Hwc & _ & Hroi & _).
  rewrite Hrun in Hrun0. injection Hrun0 as <- <-.
  pose proof (Roi.roi_values_length float_of_str h (month_sales_products v))
    as Hlen.
  rewrite <- Hwc in Hlen. rewrite Hroi.
  split; [|split; [done|]].
  { rewrite Hwc. unfold items_with_cost. apply Forall_forall. intros l Hl.
    apply list_elem_of_filter in Hl. tauto. }
  destruct (with_cost v) as [|l ls];
    destruct (roi_values float_of_str h _) as [|x xs]; try done.
  split; [split; done|]. intros _. by eexists.
Qed.

(** X19: the rows set aside are not inventory.  A row that is listed in
    [business_assets], or that [junkagie_count] counts, is neither in
    active inventory nor in [stale_inventory], and the call does not write
    to it. *)
Theorem set_aside_rows_are_not_inventory now h rows s e v h' l :
  run_locals float_of_str float_sum now h rows s e = Ok (v, h') →
  l ∈ assets v ∨ l ∈ junkagie_items h rows →
  l ∉ active_inventory v ∧ l ∉ stale_inventory v ∧ h' !! l = h !! l.
Proof.
  intros Hrun Hl.
  pose proof (run_locals_sales _ _ _ _ _ _ _ _ _ Hrun) as Hsales.
  destruct (run_locals_ok float_of_str float_sum now h rows s e _ _ Hsales)
    as (v0 & h0 & Hrun0 & _ & _ & _ & _ & _ & _ & Hassets & Hact & Hperm & _
        & _ & _ & _ & _ & _ & Hout & _).
  rewrite Hrun in Hrun0. injection Hrun0 as <- <-.
  assert (Hna : is_active (deref h l) = false).
  { destruct Hl as [Hl|Hl].
    - rewrite Hassets in Hl. unfold business_assets in Hl.
      apply list_elem_of_filter in Hl as [Hl _].
      apply (Roi.set_aside_not_active _ "Business Assets"); [|done].
      vm_compute. set_solver.
    - unfold junkagie_items in Hl. apply list_elem_of_filter in Hl as [Hl _].
      apply (Roi.set_aside_not_active _ "Junkagie"); [|done].
      vm_compute. set_solver. }
  assert (Hns : l ∉ stale_inventory v).
  { rewrite Hperm. intros Hin. apply list_elem_of_filter in Hin as [[d Hd] _].
    unfold stale_days in Hd. by rewrite Hna in Hd. }
  split; [|split; [done|by apply Hout]].
  rewrite Hact. intros Hin. apply list_elem_of_filter in Hin as [Hin _].
  congruence.
Qed.

(** X20: [analyze_data] finds every key it reads.  Whenever
    [run_detailed_analysis] returns, [analyze_data] returns with the same
    [detail_data] and heap, no subscript raises [KeyError], and in the
    summary [count] is the length of [sales_data], which is the
    [month_sales] list of the report. *)
Theorem analyze_data_finds_its_keys now h rows s e detail_data h' :
  run_detailed_analysis float_of_str float_sum now h rows s e
  = Ok (detail_data, h') →
  ∃ summary sales,
    analyze_data float_of_str float_sum now h rows s e
    = AOk (summary, detail_data, h')
    ∧ detail_data !! "month_sales" = Some (RRows sales)
    ∧ summary !! "sales_data" = Some (RRows sales)
    ∧ summary !! "count" = Some (RNum (PInt (Py.len sales)))
    ∧ Forall (fun kk => summary !! kk.1 = detail_data !! kk.2) summary_keys.
Proof.
  intros Hrun. unfold analyze_data. rewrite Hrun.
  unfold run_detailed_analysis in Hrun.
  destruct (sanitize_rows h rows) as [h1 safe].
  apply analyze_inv in Hrun as (v & _ & ->).
  exists (dict_display
            [("revenue", RNum (total_revenue v)); ("cogs", RNum (cogs v));
             ("profit", RNum (net_profit v));
             ("service", RNum (service_revenue v));
             ("roi", RNum (avg_roi v));
             ("count", RNum (PInt (Py.len (month_sales_products v))));
             ("sales_data", RRows (month_sales_products v));
             ("active_val", RNum (total_active_value v));
             ("active_count", RNum (PInt (Py.len (active_inventory v))))]),
    (month_sales_products v).
  split; [reflexivity|]. split; [reflexivity|]. split; [reflexivity|].
  split; [reflexivity|].
  repeat (apply Forall_cons; split; [reflexivity|]). by apply Forall_nil.
Qed.

End RoiClaims.

Lemma avg_roi_is_zero_only_without_costs_witness :
  let items := [Sample.sold_item; Sample.last_day_item] in
  ∃ v h',
    run_locals Builtins.float_of_str Builtins.float_sum Sample.now
      (Sample.heap_of items) (Sample.refs items)
      Sample.nov_start Sample.nov_end = Ok (v, h')
    ∧ length (roi_values Builtins.float_of_str (Sample.heap_of items)
                (with_cost v)) = length (with_cost v)
    ∧ (avg_roi v = PInt 0 ↔ with_cost v = []).
Proof.
  cbv zeta.
  assert (Hok : returns (Sample.run [Sample.sold_item; Sample.last_day_item])
                = true) by (vm_compute; reflexivity).
  destruct (sample_locals _ Hok) as (v & h' & Hrun).
  exists v, h'. split; [exact Hrun|].
  destruct (avg_roi_is_zero_only_without_costs _ _ _ _ _ _ _ _ _ Hrun)
    as (_ & Hlen & Hzero & _).
  split; [exact Hlen|exact Hzero].
Defined.

Lemma set_aside_rows_are_not_inventory_witness :
  let items := [<["HB.location" := PyStr "Junkagie / Box 3"]>
                  Sample.stale_item] in
  0%nat ∈ junkagie_items (Sample.heap_of items) (Sample.refs items)
  ∧ ∃ v h',
      run_locals Builtins.float_of_str Builtins.float_sum Sample.now
        (Sample.heap_of items) (Sample.refs items)
        Sample.nov_start Sample.nov_end = Ok (v, h')
      ∧ 0%nat ∉ active_inventory v
      ∧ 0%nat ∉ stale_inventory v.
Proof.
  cbv zeta.
  assert (Hok : returns (Sample.run
                  [<["HB.location" := PyStr "Junkagie / Box 3"]>
                     Sample.stale_item]) = true) by (vm_compute; reflexivity).
  destruct (sample_locals _ Hok) as (v & h' & Hrun).
  assert (Hin : 0%nat ∈ junkagie_items
                  (Sample.heap_of
                     [<["HB.location" := PyStr "Junkagie / Box 3"]>
                        Sample.stale_item])
                  (Sample.refs
                     [<["HB.location" := PyStr "Junkagie / Box 3"]>
                        Sample.stale_item])).
  { unfold junkagie_items. apply list_elem_of_filter.
    split; [vm_compute; reflexivity|vm_compute; apply list_elem_of_here]. }
  split; [exact Hin|].
  exists v, h'. split; [exact Hrun|].
  destruct (set_aside_rows_are_not_inventory _ _ _ _ _ _ _ _ _ 0%nat Hrun
              (or_intror Hin)) as (Hact & Hstale & _).
  split; [exact Hact|exact Hstale].
Defined.

Lemma analyze_data_finds_its_keys_witness :
  let h := Sample.heap_of [Sample.sold_item] in
  ∃ detail_data h' summary,
    run_detailed_analysis Builtins.float_of_str Builtins.float_sum Sample.now
      h [0%nat] Sample.nov_start Sample.nov_end = Ok (detail_data, h')
    ∧ analyze_data Builtins.float_of_str Builtins.float_sum Sample.now
        h [0%nat] Sample.nov_start Sample.nov_end
      = AOk (summary, detail_data, h').
Proof.
  cbv zeta.
  assert (Hok : returns (run_detailed_analysis Builtins.float_of_str
                           Builtins.float_sum Sample.now
                           (Sample.heap_of [Sample.sold_item]) [0%nat]
                           Sample.nov_start Sample.nov_end) = true)
    by (vm_compute; reflexivity).
  destruct (run_detailed_analysis Builtins.float_of_str Builtins.float_sum
              Sample.now (Sample.heap_of [Sample.sold_item]) [0%nat]
              Sample.nov_start Sample.nov_end) as [[detail_data h']|x] eqn:Hrun;
    [|discriminate].
  destruct (analyze_data_finds_its_keys _ _ _ _ _ _ _ _ _ Hrun)
    as (summary & sales & Hsum & _).
  exists detail_data, h', summary. split; [reflexivity|exact Hsum].
Defined.

(* ===================================================================== *)
(** ** The engine on copies gives the report of the engine on the rows *)
(* ===================================================================== *)

Module Same.




Section Heaps.

Variable float_of_str : string -> option float.
Variable float_sum : list float -> float.
Variables h1 h2 : heap.
Variable P : nat → nat → Prop.
Hypothesis HP : ∀ x y, P x y → deref h1 x = deref h2 y.


















End Heaps.



Section Calls.

Variable float_of_str : string -> option float.
Variable float_sum : list float -> float.




End Calls.

End Same.

Section Transparent.

Variable float_of_str : string -> option float.
Variable float_sum : list float -> float.


End Transparent.


(* ===================================================================== *)
(** ** Velocity figures; days are calendar days *)
(* ===================================================================== *)

Module Extremes.

Lemma fold_max_ge (l : list Z) (x : Z) :
  x <= fold_left Z.max l x ∧ ∀ y, y ∈ l → y <= fold_left Z.max l x.
Proof.
  revert x. induction l as [|z l IH]; intros x; simpl.
  - split; [lia|]. intros y Hy. by apply elem_of_nil in Hy.
  - destruct (IH (Z.max x z)) as [H1 H2]. split; [lia|].
    intros y Hy. apply elem_of_cons in Hy as [->|Hy]; [lia|by apply H2].
Qed.

Lemma fold_min_in (l : list Z) (x : Z) : fold_left Z.min l x ∈ x :: l.
Proof.
  revert x. induction l as [|z l IH]; intros x; simpl;
    [apply list_elem_of_here|].
  specialize (IH (Z.min x z)). apply elem_of_cons in IH as [->|IH].
  - destruct (Z.min_spec x z) as [[_ ->]|[_ ->]];
      [apply list_elem_of_here|apply list_elem_of_further, list_elem_of_here].
  - by do 2 apply list_elem_of_further.
Qed.

Lemma fold_max_in (l : list Z) (x : Z) : fold_left Z.max l x ∈ x :: l.
Proof.
  revert x. induction l as [|z l IH]; intros x; simpl;
    [apply list_elem_of_here|].
  specialize (IH (Z.max x z)). apply elem_of_cons in IH as [->|IH].
  - destruct (Z.max_spec x z) as [[_ ->]|[_ ->]];
      [apply list_elem_of_further, list_elem_of_here|apply list_elem_of_here].
  - by do 2 apply list_elem_of_further.
Qed.

Lemma omap_length {A B} (f : A → option B) (l : list A) :
  (length (omap f l) ≤ length l)%nat.
Proof.
  induction l as [|x l IH]; [done|]. csimpl.
  destruct (f x); simpl; lia.
Qed.

Lemma quick_flips_zero (l : list Z) :
  quick_flips l = 0 ↔ ∀ d, d ∈ l → 14 < d.
Proof.
  unfold quick_flips, Py.len. induction l as [|x l IH].
  - split; [|done]. intros _ d Hd. by apply elem_of_nil in Hd.
  - rewrite filter_cons. destruct (decide (x <= 14)) as [Hx|Hx]; simpl.
    + split; [lia|]. intros H. specialize (H x (list_elem_of_here _ _)). lia.
    + rewrite IH. split.
      * intros H d Hd. apply elem_of_cons in Hd as [->|Hd]; [lia|by apply H].
      * intros H d Hd. by apply H, list_elem_of_further.
Qed.

(** A row is stale exactly when it is active and was bought more than 90
    calendar days before the day of [now]. *)
Lemma stale_days_ordinal now (r : row) :
  PyDate.valid_time now →
  stale_days now r
  = if is_active r then
      match parse_date (dict_get r "HB.purchase_time") with
      | Some p =>
          let d := PyDate.toordinal (dt_date now)
                   - PyDate.toordinal (dt_date p) in
          if 90 <? d then Some d else None
      | None => None
      end
    else None.
Proof.
  intros Hnow. unfold stale_days. destruct (is_active r); [|done].
  destruct (parse_date (dict_get r "HB.purchase_time")) as [p|] eqn:Hp;
    [|done].
  destruct (StrFacts.parse_date_midnight _ _ Hp) as [_ ->]. cbv zeta.
  by rewrite (DateFacts.sub_days_from_midnight now _ Hnow).
Qed.

End Extremes.

Section VelocityFigures.

Variable float_of_str : string -> option float.
Variable float_sum : list float -> float.

(** X22: the velocity figures bound the days to sell.  When the call gets
    past its first loop, there are at most as many [days_to_sell] as product
    sales; [fastest_sale] and [slowest_sale] are the least and the greatest
    of them, both attained when there is one; [quick_flips] lies between 0
    and their number, and is 0 exactly when every one took more than 14
    days. *)
Theorem velocity_figures_bound_the_days now h rows s e v h' :
  run_locals float_of_str float_sum now h rows s e = Ok (v, h') →
  (length (days v) ≤ length (month_sales_products v))%nat
  ∧ (∃ lo hi,
       min_or_zero (days v) = PInt lo ∧ max_or_zero (days v) = PInt hi
       ∧ (∀ d, d ∈ days v → lo <= d <= hi)
       ∧ (days v ≠ [] → lo ∈ days v ∧ hi ∈ days v))
  ∧ 0 <= flips v <= Py.len (days v)
  ∧ (flips v = 0 ↔ ∀ d, d ∈ days v → 14 < d).
Proof.
  intros Hrun.
  pose proof (run_locals_sales _ _ _ _ _ _ _ _ _ Hrun) as Hsales.
  destruct (run_locals_ok float_of_str float_sum now h rows s e _ _ Hsales)
    as (v0 & h0 & Hrun0 & _ & _ & _ & _ & _ & _ & _ & _ & _ & _ & Hdays & _
        & Hflips & _).
  rewrite Hrun in Hrun0. injection Hrun0 as <- <-.
  split; [|split; [|split]].
  - rewrite Hdays. unfold days_to_sell. apply Extremes.omap_length.
  - destruct (days v) as [|x l].
    + exists 0, 0. split; [done|]. split; [done|].
      split; [intros d Hd; by apply elem_of_nil in Hd|done].
    + exists (Py.min_int x l), (Py.max_int x l).
      split; [done|]. split; [done|]. unfold Py.min_int, Py.max_int.
      destruct (Velocity.fold_min_le l x) as [Hm1 Hm2].
      destruct (Extremes.fold_max_ge l x) as [HM1 HM2].
      split.
      * intros d Hd. apply elem_of_cons in Hd as [->|Hd]; [lia|].
        split; [by apply Hm2|by apply HM2].
      * intros _. split; [apply Extremes.fold_min_in|apply Extremes.fold_max_in].
  - rewrite Hflips. unfold quick_flips, Py.len.
    pose proof (length_filter (fun d => d <= 14) (days v)). lia.
  - rewrite Hflips. apply Extremes.quick_flips_zero.
Qed.

(** X23: days are calendar days.  With [now] a well-formed time, a row of
    the call is in [stale_inventory] exactly when it is in active inventory
    and its purchase date lies more than 90 day numbers before the day of
    [now], whatever the time of day; and the days to sell of a row are the
    day number of its sale date minus that of its purchase date, so a sale
    on the day of purchase counts as 0 days. *)
Theorem days_are_calendar_days now h rows s e v h' :
  PyDate.valid_time now →
  run_locals float_of_str float_sum now h rows s e = Ok (v, h') →
  (∀ l, l ∈ stale_inventory v ↔
        l ∈ active_inventory v
        ∧ ∃ p, parse_date (dict_get (deref h l) "HB.purchase_time") = Some p
               ∧ 90 < PyDate.toordinal (dt_date now)
                      - PyDate.toordinal (dt_date p))
  ∧ (∀ l p sd,
       parse_date (dict_get (deref h l) "HB.purchase_time") = Some p →
       parse_date (dict_get (deref h l) "HB.sold_time") = Some sd →
       item_days_to_sell (deref h l)
       = Some (PyDate.toordinal (dt_date sd) - PyDate.toordinal (dt_date p))).
Proof.
  intros Hnow Hrun.
  pose proof (run_locals_sales _ _ _ _ _ _ _ _ _ Hrun) as Hsales.
  destruct (run_locals_ok float_of_str float_sum now h rows s e _ _ Hsales)
    as (v0 & h0 & Hrun0 & _ & _ & _ & _ & _ & _ & _ & Hact & Hperm & _).
  rewrite Hrun in Hrun0. injection Hrun0 as <- <-.
  split.
  - intros l. rewrite Hperm, Hact, !list_elem_of_filter.
    rewrite (Extremes.stale_days_ordinal now _ Hnow).
    destruct (is_active (deref h l)); [|split; [by intros [[? ?] _]|
                                                by intros [[? _] _]]].
    destruct (parse_date (dict_get (deref h l) "HB.purchase_time")) as [p|];
      [|split; [by intros [[? ?] _]|by intros [_ (? & ? & _)]]].
    cbv zeta.
    destruct (Z.ltb_spec 90 (PyDate.toordinal (dt_date now)
                             - PyDate.toordinal (dt_date p))) as [Hlt|Hge].
    + split; [|intros [[_ Hl] _]; split; [eauto|done]].
      intros [_ Hl]. split; [done|]. by exists p.
    + split; [by intros [[? ?] _]|].
      intros [_ (p' & [= <-] & Hlt)]. lia.
  - intros l p sd Hp Hsd. unfold item_days_to_sell. rewrite Hp, Hsd.
    destruct (StrFacts.parse_date_midnight _ _ Hp) as [_ ->].
    destruct (StrFacts.parse_date_midnight _ _ Hsd) as [_ ->].
    by rewrite DateFacts.sub_days_midnight.
Qed.

End VelocityFigures.

Lemma velocity_figures_bound_the_days_witness :
  let items := [Sample.sold_item; Sample.early_sale_1] in
  ∃ v h',
    run_locals Builtins.float_of_str Builtins.float_sum Sample.now
      (Sample.heap_of items) (Sample.refs items)
      Sample.nov_start Sample.nov_end = Ok (v, h')
    ∧ 0 <= flips v <= Py.len (days v)
    ∧ (flips v = 0 ↔ ∀ d, d ∈ days v → 14 < d).
Proof.
  cbv zeta.
  assert (Hok : returns (Sample.run [Sample.sold_item; Sample.early_sale_1])
                = true) by (vm_compute; reflexivity).
  destruct (sample_locals _ Hok) as (v & h' & Hrun).
  exists v, h'. split; [exact Hrun|].
  exact (proj2 (proj2 (velocity_figures_bound_the_days _ _ _ _ _ _ _ _ _
                         Hrun))).
Defined.

Lemma days_are_calendar_days_witness :
  let items := [Sample.stale_item; Sample.sold_item] in
  PyDate.valid_time Sample.now
  ∧ ∃ v h',
      run_locals Builtins.float_of_str Builtins.float_sum Sample.now
        (Sample.heap_of items) (Sample.refs items)
        Sample.nov_start Sample.nov_end = Ok (v, h')
      ∧ ∀ l, l ∈ stale_inventory v ↔
             l ∈ active_inventory v
             ∧ ∃ p, parse_date (dict_get (deref (Sample.heap_of items) l)
                                  "HB.purchase_time") = Some p
                    ∧ 90 < PyDate.toordinal (dt_date Sample.now)
                           - PyDate.toordinal (dt_date p).
Proof.
  cbv zeta.
  assert (Hnow : PyDate.valid_time Sample.now) by (vm_compute; split; done).
  assert (Hok : returns (Sample.run [Sample.stale_item; Sample.sold_item])
                = true) by (vm_compute; reflexivity).
  split; [exact Hnow|].
  destruct (sample_locals _ Hok) as (v & h' & Hrun).
  exists v, h'. split; [exact Hrun|].
  exact (proj1 (days_are_calendar_days _ _ _ _ _ _ _ _ _ Hnow Hrun)).
Defined.
